(** * Sen1Floods11 dataset adapters: file resolution, manifests, processing

    A shallow embedding of the two dataset adapters of the repository:
    - [dataset.py]: the standalone generator ([DatasetLoader],
      [FloodDatasetGenerator]);
    - [sen1floods11_dataset.py]: the builder of the dataset framework
      ([Sen1floods11Dataset]).

    Both resolve the rasters named by a manifest either from a local
    directory or from a remote blob store.  The local file system, the remote
    store and the log of remote reads are an explicit state; the code runs in
    a state-and-exception monad over it.  The raster codec and the CSV reader
    are external libraries and are parameters of the development. *)

From Stdlib Require Import ZArith Lia Ascii String List.
From Stdlib Require Import Floats.SpecFloat.
From Stdlib Require Import Sorting.Permutation.
From stdpp Require Import base option list strings gmap.

Open Scope string_scope.

(** ** Strings *)

Module Str.

(** [s.split(c)]: the fields between the occurrences of [c]; never empty. *)
Fixpoint split (c : ascii) (s : string) : list string :=
  match s with
  | EmptyString => [EmptyString]
  | String a r =>
      if bool_decide (a = c) then EmptyString :: split c r
      else match split c r with
           | f :: rest => String a f :: rest
           | [] => [String a EmptyString]
           end
  end.

(** The white space of [str.strip()] among the 7-bit characters: tab, line
    feed, vertical tab, form feed, carriage return, the four separator
    controls and the blank. *)
Definition is_space (c : ascii) : bool :=
  let n := nat_of_ascii c in
  (Nat.leb 9 n && Nat.leb n 13) || (Nat.leb 28 n && Nat.leb n 32).

Fixpoint lstrip (s : string) : string :=
  match s with
  | String c r => if is_space c then lstrip r else s
  | EmptyString => EmptyString
  end.

Fixpoint rstrip (s : string) : string :=
  match s with
  | EmptyString => EmptyString
  | String c r =>
      match rstrip r with
      | EmptyString => if is_space c then EmptyString else String c EmptyString
      | r' => String c r'
      end
  end.

(** [s.strip()] *)
Definition strip (s : string) : string := rstrip (lstrip s).

(** The lines a text file yields when it is iterated over: each line ends
    with its line feed, the last one possibly without.  The bytes are read
    as 7-bit text. *)
Definition LF : ascii := ascii_of_nat 10.
Definition CR : ascii := ascii_of_nat 13.

(** Universal newlines: a carriage return, alone or before a line feed,
    reads as a line feed. *)
Fixpoint translate_newlines (s : string) : string :=
  match s with
  | EmptyString => EmptyString
  | String c r =>
      if bool_decide (c = CR) then
        match r with
        | String d r' =>
            if bool_decide (d = LF) then String LF (translate_newlines r')
            else String LF (translate_newlines r)
        | EmptyString => String LF EmptyString
        end
      else String c (translate_newlines r)
  end.

Fixpoint lines_of (s : string) : list string :=
  match s with
  | EmptyString => []
  | String c r =>
      if bool_decide (c = LF) then String c EmptyString :: lines_of r
      else match lines_of r with
           | l :: rest => String c l :: rest
           | [] => [String c EmptyString]
           end
  end.

Definition text_lines (s : string) : list string := lines_of (translate_newlines s).

End Str.

(** ** Paths *)

Module PosixPath.

Import Str.

Definition sep : ascii := "/"%char.

(** [s.startswith("/")] *)
Definition starts_with_sep (s : string) : bool :=
  match s with
  | String c _ => bool_decide (c = sep)
  | EmptyString => false
  end.

(** [s.endswith("/")] *)
Fixpoint ends_with_sep (s : string) : bool :=
  match s with
  | EmptyString => false
  | String c EmptyString => bool_decide (c = sep)
  | String _ r => ends_with_sep r
  end.

(** [posixpath.join(a, b)] *)
Definition join (a b : string) : string :=
  if starts_with_sep b then b
  else if bool_decide (a = "") || ends_with_sep a then a ++ b
  else a ++ "/" ++ b.

(** [s.rstrip("/")] *)
Fixpoint rstrip_sep (s : string) : string :=
  match s with
  | EmptyString => EmptyString
  | String c r =>
      match rstrip_sep r with
      | EmptyString => if bool_decide (c = sep) then EmptyString else String c EmptyString
      | r' => String c r'
      end
  end.

(** The part of [s] up to and including its last separator:
    [p[:p.rfind("/") + 1]]. *)
Fixpoint head_upto_sep (s : string) : string :=
  match s with
  | EmptyString => EmptyString
  | String c r =>
      match head_upto_sep r with
      | EmptyString => if bool_decide (c = sep) then String c EmptyString else EmptyString
      | h => String c h
      end
  end.

(** [posixpath.dirname(p)]: the head, without its trailing separators
    unless it consists of separators only. *)
Definition dirname (p : string) : string :=
  let head := head_upto_sep p in
  match rstrip_sep head with
  | EmptyString => head
  | h => h
  end.

(** A parsed path ([pathlib.PurePosixPath]): the root, which is empty for a
    relative path, and the names below it. *)
Record PurePath := { root : string; names : list string }.

(** [posixpath.splitroot]: exactly two leading separators are kept as a
    root of their own, any other number of them is the root ["/"]. *)
Definition splitroot (s : string) : string * string :=
  match s with
  | String a r =>
      if bool_decide (a = sep) then
        match r with
        | String b r' =>
            if bool_decide (b = sep) then
              if starts_with_sep r' then ("/", r) else ("//", r')
            else ("/", r)
        | EmptyString => ("/", r)
        end
      else ("", s)
  | EmptyString => ("", s)
  end.

Definition is_name (x : string) : bool :=
  negb (bool_decide (x = "")) && negb (bool_decide (x = ".")).

(** [Path(s)]: empty names and ["."] are dropped. *)
Definition parse (s : string) : PurePath :=
  let '(rt, rel) := splitroot s in
  {| root := rt; names := List.filter is_name (split sep rel) |}.

(** [str(p)] *)
Definition to_str (p : PurePath) : string :=
  match root p, names p with
  | EmptyString, [] => "."
  | rt, ns => rt ++ String.concat "/" ns
  end.

(** [p / s]: the segments are joined as strings and parsed again, so an
    absolute right operand replaces the left one. *)
Definition truediv (p : PurePath) (s : string) : PurePath :=
  parse (join (to_str p) s).

(** [p.parent] *)
Definition parent (p : PurePath) : PurePath :=
  {| root := root p; names := removelast (names p) |}.

(** The names of an absolute path once every [".."] has taken back the
    name before it; at the root there is nothing to take back
    ([posixpath.normpath] on an absolute path). *)
Definition collapse (ns : list string) : list string :=
  rev (fold_left (λ acc n, if bool_decide (n = "..") then tail acc else n :: acc) ns []).

End PosixPath.

(** ** The state: local file system, remote store, log of remote reads *)

(** What is at a place of the file system.  File contents and blobs are
    byte strings, of type [string]. *)
Inductive node :=
| File (content : string)
| Dir.

(** A file-system object is addressed by the names leading to it from the
    root directory.  Every name is taken literally: the model has no
    symbolic links and gives [".."] no meaning, so two different keys never
    denote the same object. *)
Record world := {
  fs : gmap (list string) node;      (* the local file system *)
  cwd : list string;                 (* the working directory *)
  remote : gmap string string;       (* the remote store, by logical path *)
  fetched : list string              (* the [read_bytes] calls made, oldest first *)
}.

(** The exceptions.  [RemoteReadError] is whatever the remote store raises
    for a blob it cannot deliver, [RasterioIOError] what the raster library
    raises for bytes that are no raster, [OtherError] anything a
    [process_func] of the caller raises. *)
Inductive error :=
| RuntimeError (msg : string)
| FileNotFoundError (path : string)
| FileExistsError (path : string)
| IsADirectoryError (path : string)
| NotADirectoryError (path : string)
| RemoteReadError (path : string)
| RasterioIOError
| IndexError
| ValueError
| OtherError (msg : string).

Inductive result (A : Type) :=
| Ok (a : A)
| Raise (e : error).
Arguments Ok {A} a.
Arguments Raise {A} e.

(** Computations over the world that return or raise.  The world is
    returned in both cases: what was written before an exception stays
    written. *)
Definition M (A : Type) : Type := world → result A * world.

Definition ret {A} (a : A) : M A := λ w, (Ok a, w).
Definition raise {A} (e : error) : M A := λ w, (Raise e, w).
Definition bind {A B} (m : M A) (k : A → M B) : M B :=
  λ w, match m w with
       | (Ok a, w') => k a w'
       | (Raise e, w') => (Raise e, w')
       end.

Declare Scope io_scope.
Delimit Scope io_scope with io.
Notation "x <- m ;; k" := (bind m (λ x, k))
  (at level 100, m at next level, right associativity) : io_scope.
Notation "m ;; k" := (bind m (λ _, k))
  (at level 100, right associativity) : io_scope.

Module LocalFS.
Import PosixPath.

(** The object at a key; the root is a directory. *)
Definition node_at (w : world) (k : list string) : option node :=
  match k with
  | [] => Some Dir
  | _ => fs w !! k
  end.

Definition is_file (w : world) (k : list string) : bool :=
  match node_at w k with Some (File _) => true | _ => false end.

Definition is_dir (w : world) (k : list string) : bool :=
  match node_at w k with Some Dir => true | _ => false end.

Definition set_fs (w : world) (f : gmap (list string) node) : world :=
  {| fs := f; cwd := cwd w; remote := remote w; fetched := fetched w |}.

(** The key a parsed path denotes: a relative path starts at the working
    directory. *)
Definition key_of (w : world) (p : PurePath) : list string :=
  (if bool_decide (root p = "") then cwd w else []) ++ names p.

(** A path string that ends in a separator or in a ["."] name can only
    denote a directory. *)
Definition dir_only (s : string) : bool :=
  match List.last (Str.split sep s) "x" with
  | "" => negb (bool_decide (s = ""))
  | "." => true
  | _ => false
  end.

(** The non-empty prefixes of a key: the directories on the way to it, and
    the key itself. *)
Fixpoint prefixes (k : list string) : list (list string) :=
  match k with
  | [] => []
  | x :: r => [x] :: List.map (cons x) (prefixes r)
  end.

(** Creating a directory with its missing parents, an existing directory
    being accepted ([mkdir(parents=True, exist_ok=True)], [os.makedirs(_,
    exist_ok=True)]): refused when a file is in the way.  The error names
    [s]: [Path.mkdir] tries the directory asked for first, and it is this
    attempt that a file on the way refuses. *)
Definition mkdir_p (s : string) (k : list string) : M unit := λ w,
  if existsb (is_file w) (prefixes k)
  then (Raise (if is_file w k then FileExistsError s else NotADirectoryError s), w)
  else (Ok (), set_fs w (foldr (λ d f, <[d := Dir]> f) (fs w) (prefixes k))).

(** Whether the way to a key goes through a regular file: one of the
    directories the key names on its way is a file. *)
Definition through_file (w : world) (k : list string) : bool :=
  existsb (is_file w) (prefixes (removelast k)).

(** What [open] raises for a key it cannot reach: a file on the way is
    not a directory, otherwise something is missing. *)
Definition unreachable (w : world) (s : string) (k : list string) : error :=
  if through_file w k then NotADirectoryError s else FileNotFoundError s.

(** Creating or truncating a file and writing [content] to it: the parent
    must be a directory and the key must not be one. *)
Definition write_file (s : string) (k : list string) (content : string) : M unit := λ w,
  if is_dir w k then (Raise (IsADirectoryError s), w)
  else if negb (is_dir w (removelast k)) then (Raise (unreachable w s k), w)
  else (Ok (), set_fs w (<[k := File content]> (fs w))).

(** Reading a whole file.  The empty path string names nothing, although
    its key is that of the working directory. *)
Definition read_file (s : string) (k : list string) : M string := λ w,
  match node_at w k with
  | Some (File c) => (Ok c, w)
  | Some Dir =>
      (Raise (if bool_decide (s = "") then FileNotFoundError s else IsADirectoryError s), w)
  | None => (Raise (unreachable w s k), w)
  end.

(** *** Through [pathlib] *)

Definition path_is_file (p : PurePath) : M bool := λ w,
  (Ok (is_file w (key_of w p)), w).

Definition path_mkdir_parents (p : PurePath) : M unit := λ w,
  mkdir_p (to_str p) (key_of w p) w.

Definition path_write_bytes (p : PurePath) (data : string) : M unit := λ w,
  write_file (to_str p) (key_of w p) data w.

Definition path_read (p : PurePath) : M string := λ w,
  read_file (to_str p) (key_of w p) w.

(** *** Through path strings ([os], [os.path], [open]) *)

Definition str_key (w : world) (s : string) : list string := key_of w (parse s).

(** Whether a path string denotes a regular file. *)
Definition isfile_str (w : world) (s : string) : bool :=
  negb (dir_only s) && is_file w (str_key w s).

Definition os_path_isfile (s : string) : M bool := λ w,
  (Ok (isfile_str w s), w).

(** [os.makedirs] makes the directories from the top down: it first makes
    the head of its argument when nothing exists there.  So when a file is
    on the way the error names the first directory that cannot be made,
    the one right below the file, and not the directory asked for. *)
Fixpoint makedirs_refused (fuel : nat) (w : world) (name : string) : string :=
  match fuel with
  | 0 => name
  | S fuel =>
      let head := if ends_with_sep name then dirname (dirname name) else dirname name in
      if negb (bool_decide (head = ""))
         && negb (bool_decide (rstrip_sep name = ""))
         && bool_decide (node_at w (str_key w head) = None)
         && existsb (is_file w) (prefixes (str_key w head))
      then makedirs_refused fuel w head
      else name
  end.

(** [os.makedirs(s, exist_ok=True)]; the empty string names nothing. *)
Definition os_makedirs (s : string) : M unit := λ w,
  if bool_decide (s = "") then (Raise (FileNotFoundError s), w)
  else if existsb (is_file w) (prefixes (str_key w s)) && negb (is_file w (str_key w s))
  then (Raise (NotADirectoryError (makedirs_refused (String.length s) w s)), w)
  else mkdir_p s (str_key w s) w.

Definition str_read (s : string) : M string := λ w,
  if dir_only s && is_file w (str_key w s) then (Raise (NotADirectoryError s), w)
  else read_file s (str_key w s) w.

Definition str_write (s : string) (data : string) : M unit := λ w,
  if bool_decide (s = "") then (Raise (FileNotFoundError s), w)
  else if dir_only s then
    (Raise (if is_file w (str_key w s) then NotADirectoryError s else IsADirectoryError s), w)
  else write_file s (str_key w s) data w.

(** [p.resolve()]: the absolute path of [p], without [".."].  There are no
    symbolic links to follow. *)
Definition resolve (w : world) (p : PurePath) : PurePath :=
  {| root := "/"; names := collapse (key_of w p) |}.

End LocalFS.

(** The remote store ([DVCFileSystem]): a blob store keyed by path.  Every
    call of [read_bytes] is logged, whether it returns or raises.

    [remote w] is what the store answers in the state [w].  Both adapters
    build their store on the directory they also cache into, and such a
    store may answer for a path from the file the cache holds for it once
    that file is there.  How the answers of the store change when the
    adapters write is therefore not part of what is stated about them: no
    statement below depends on the answer for a path after a file has been
    written at its local path. *)
Module RemoteStore.

Definition log_call (path : string) (w : world) : world :=
  {| fs := fs w; cwd := cwd w; remote := remote w; fetched := fetched w ++ [path] |}.

Definition read_bytes (path : string) : M string := λ w,
  match remote w !! path with
  | Some b => (Ok b, log_call path w)
  | None => (Raise (RemoteReadError path), log_call path w)
  end.

End RemoteStore.

(** ** Arrays *)

Module Numpy.

(** The floating-point element types of a raster: IEEE 754 binary32 and
    binary64, with the operations of [SpecFloat] at their precision. *)
Inductive float_dtype := float32 | float64.

Definition prec (t : float_dtype) : Z :=
  match t with float32 => 24 | float64 => 53 end.

Definition emax (t : float_dtype) : Z :=
  match t with float32 => 128 | float64 => 1024 end.

(** An array is the sequence of its elements: the functions below work
    element by element, so the shape is left out.  An integer array stands
    for a signed element type of 16 bits or more, in which -50 and 255 are
    both representable. *)
Inductive ndarray :=
| FloatArray (t : float_dtype) (data : list spec_float)
| IntArray (data : list Z).

(** The Python integer [z] as an element of type [t]. *)
Definition of_Z (t : float_dtype) (z : Z) : spec_float :=
  binary_normalize (prec t) (emax t) z 0 false.

Definition fadd (t : float_dtype) := SFadd (prec t) (emax t).
Definition fdiv (t : float_dtype) := SFdiv (prec t) (emax t).

Definition finfo_max (t : float_dtype) : spec_float := SFmax_float (prec t) (emax t).

Definition isnan (x : spec_float) : bool :=
  match x with S754_nan => true | _ => false end.

(** [np.nan_to_num] with its default arguments: NaN becomes zero, an
    infinity becomes the largest finite number of its sign. *)
Definition nan_to_num_elem (t : float_dtype) (x : spec_float) : spec_float :=
  match x with
  | S754_nan => S754_zero false
  | S754_infinity false => finfo_max t
  | S754_infinity true => SFopp (finfo_max t)
  | _ => x
  end.

(** The maximum and minimum the clip loop uses: a NaN first operand is
    kept, otherwise the comparison decides. *)
Definition npy_max (a b : spec_float) : spec_float :=
  if isnan a then a else if SFltb b a then a else b.

Definition npy_min (a b : spec_float) : spec_float :=
  if isnan a then a else if SFltb a b then a else b.

(** [np.clip(x, lo, hi)] on one element. *)
Definition clip_elem (x lo hi : spec_float) : spec_float :=
  npy_min (npy_max x lo) hi.

Definition nan_to_num (a : ndarray) : ndarray :=
  match a with
  | FloatArray t xs => FloatArray t (List.map (nan_to_num_elem t) xs)
  | IntArray xs => IntArray xs
  end.

Definition clip (a : ndarray) (lo hi : Z) : ndarray :=
  match a with
  | FloatArray t xs => FloatArray t (List.map (λ x, clip_elem x (of_Z t lo) (of_Z t hi)) xs)
  | IntArray xs => IntArray (List.map (λ x, Z.min (Z.max x lo) hi) xs)
  end.

(** [a + k] for a Python integer [k]. *)
Definition add_scalar (a : ndarray) (k : Z) : ndarray :=
  match a with
  | FloatArray t xs => FloatArray t (List.map (λ x, fadd t x (of_Z t k)) xs)
  | IntArray xs => IntArray (List.map (λ x, x + k)%Z xs)
  end.

(** [a / k] for a Python integer [k]: true division, which takes an integer
    array to [float64]. *)
Definition div_scalar (a : ndarray) (k : Z) : ndarray :=
  match a with
  | FloatArray t xs => FloatArray t (List.map (λ x, fdiv t x (of_Z t k)) xs)
  | IntArray xs =>
      FloatArray float64 (List.map (λ x, fdiv float64 (of_Z float64 x) (of_Z float64 k)) xs)
  end.

(** The array [a] after [a[a == k] = v], for Python integers [k] and [v]. *)
Definition setitem_where_eq (a : ndarray) (k v : Z) : ndarray :=
  match a with
  | FloatArray t xs =>
      FloatArray t (List.map (λ x, if SFeqb x (of_Z t k) then of_Z t v else x) xs)
  | IntArray xs => IntArray (List.map (λ x, if Z.eqb x k then v else x) xs)
  end.

(** *** Arrays as objects

    An array object lives at a location of a heap; a variable holds the
    location.  The functions that build a new array allocate it at a fresh
    location; the item assignment updates the array in place. *)

Definition alloc (a : ndarray) (h : gmap nat ndarray) : nat * gmap nat ndarray :=
  let l := fresh (dom h) in (l, <[l := a]> h).

Definition new_from (f : ndarray → ndarray) (l : nat) (h : gmap nat ndarray)
  : option (nat * gmap nat ndarray) :=
  match h !! l with
  | Some a => Some (alloc (f a) h)
  | None => None
  end.

Definition update_at (f : ndarray → ndarray) (l : nat) (h : gmap nat ndarray)
  : option (gmap nat ndarray) :=
  match h !! l with
  | Some a => Some (<[l := f a]> h)
  | None => None
  end.

End Numpy.

(** ** The external libraries

    [rio_read] is what [rasterio.open(...)] followed by [src.profile] and
    [src.read()] gives for the bytes of a file, [None] where they are no
    raster; [rio_write] is the file that [rasterio.open(path, "w",
    **profile)] followed by [dst.write(image)] leaves.  [csv_reader] is the
    rows that [csv.reader] finds in a text, [random_shuffle] the order in
    which [random.shuffle] leaves a list, which is a rearrangement of it. *)
Class Libraries := {
  profile : Type;
  rio_read : string → option (profile * Numpy.ndarray);
  rio_write : profile → Numpy.ndarray → string;
  csv_reader : string → list (list string);
  random_shuffle : list (list string) → list (list string);
  random_shuffle_perm : ∀ rows, Permutation (random_shuffle rows) rows;
}.

(** ** Iteration *)

(** A generator that is run to its end: the items it yielded, in order, and
    the exception that stopped it, if one did. *)
Record trace (A : Type) := {
  yielded : list A;
  stopped : option error;
}.
Arguments yielded {A} t.
Arguments stopped {A} t.

(** [for r in rows: yield body(r)], where an exception ends the iteration. *)
Fixpoint for_each {R A} (body : R → M A) (rows : list R) (w : world) : trace A * world :=
  match rows with
  | [] => ({| yielded := []; stopped := None |}, w)
  | r :: rest =>
      match body r w with
      | (Ok a, w1) =>
          let '(t, w2) := for_each body rest w1 in
          ({| yielded := a :: yielded t; stopped := stopped t |}, w2)
      | (Raise e, w1) => ({| yielded := []; stopped := Some e |}, w1)
      end
  end.

(** A generator whose first step may raise before the loop starts. *)
Definition generator {R A} (setup : M (list R)) (body : R → M A) (w : world)
  : trace A * world :=
  match setup w with
  | (Ok rows, w1) => for_each body rows w1
  | (Raise e, w1) => ({| yielded := []; stopped := Some e |}, w1)
  end.

(** [row[i]] *)
Definition getitem {A} (row : list A) (i : nat) : M A :=
  match row !! i with
  | Some x => ret x
  | None => raise IndexError
  end.

Definition lift {A} (r : result A) : M A := λ w, (r, w).

(** The raster in a byte string. *)
Definition rasterio_open `{Libraries} (b : string) : M (profile * Numpy.ndarray) :=
  match rio_read b with
  | Some r => ret r
  | None => raise RasterioIOError
  end.

(** ** The standalone adapter ([dataset.py]) *)

Module FloodDatasetGenerator.
Import PosixPath LocalFS RemoteStore Numpy.
Local Open Scope io_scope.

Definition S1 : string := "v1.1/data/flood_events/HandLabeled/S1Hand/".
Definition LABELS : string := "v1.1/data/flood_events/HandLabeled/LabelHand/".

(** The generator of one split; the handle on the remote store it also
    holds is the [remote] component of the world. *)
Record t := {
  context : PurePath;
  split : string;
}.

Section WithLibraries.
Context `{Libraries}.

Definition __len__ (self : t) : M nat :=
  let csv_file_path := truediv (context self) (split self) in
  text <- path_read csv_file_path ;;
  ret (length (csv_reader text)).

Definition _load_image (self : t) (image_dir image_name : string)
    (stream stream_cache : bool) : M ndarray :=
  let local_path := truediv (truediv (context self) image_dir) image_name in
  found <- path_is_file local_path ;;
  if found : bool then
    content <- path_read local_path ;;
    src <- rasterio_open content ;;
    ret (snd src)
  else if stream then
    let dvc_path := parse (join (join "/" image_dir) image_name) in
    binary_image <- read_bytes (to_str dvc_path) ;;
    src <- rasterio_open binary_image ;;
    let image := snd src in
    (if stream_cache then
       path_mkdir_parents (parent local_path) ;;
       path_write_bytes local_path binary_image
     else ret ()) ;;
    ret image
  else raise (RuntimeError ("File not accessible: " ++ to_str local_path)).

(** The body of the loop of [__call__]: the example of one row. *)
Definition example_of_row (self : t) (stream stream_cache : bool)
    (process_func : option (gmap string ndarray → result (gmap string ndarray)))
    (row : list string) : M (gmap string ndarray) :=
  image_name <- getitem row 0 ;;
  image <- _load_image self S1 image_name stream stream_cache ;;
  mask_name <- getitem row 1 ;;
  mask <- _load_image self LABELS mask_name stream stream_cache ;;
  let data : gmap string ndarray := {[ "image" := image; "mask" := mask ]} in
  match process_func with
  | Some f => lift (f data)
  | None => ret data
  end.

Definition __call__ (self : t) (shuffle stream stream_cache : bool)
    (process_func : option (gmap string ndarray → result (gmap string ndarray)))
  : world → trace (gmap string ndarray) * world :=
  generator
    (let csv_file_path := truediv (context self) (split self) in
     text <- path_read csv_file_path ;;
     let rows := csv_reader text in
     ret (if shuffle then random_shuffle rows else rows))
    (example_of_row self stream stream_cache process_func).

End WithLibraries.
End FloodDatasetGenerator.

Module DatasetLoader.
Import PosixPath.

Definition SPLITS : gmap string string :=
  {[ "train" := "train_data.csv";
     "validation" := "valid_data.csv";
     "test" := "test_data.csv";
     "sample" := "sample_data.csv" ]}.

Record t := { context : PurePath }.

(** [len(loader)] *)
Definition __len__ (self : t) : nat := size SPLITS.

(** [loader[key]]: [SPLITS.get(key, key)] names the manifest. *)
Definition __getitem__ (self : t) (key : string) : FloodDatasetGenerator.t :=
  {| FloodDatasetGenerator.context := context self;
     FloodDatasetGenerator.split := default key (SPLITS !! key) |}.

(** The table in the order it is written, which is the order in which a
    dictionary is iterated. *)
Definition SPLITS_items : list (string * string) :=
  [ ("train", "train_data.csv");
    ("validation", "valid_data.csv");
    ("test", "test_data.csv");
    ("sample", "sample_data.csv") ].

(** [iter(loader)] *)
Definition __iter__ (self : t) : list string := SPLITS_items.*1.

(** [DatasetLoader(context)]: without a context the directory of the
    module, whose file is [file], is taken. *)
Definition __init__ (file : string) (context : option string) (w : world) : t :=
  {| context :=
       match context with
       | None => parent (LocalFS.resolve w (parse file))
       | Some c => LocalFS.resolve w (parse c)
       end |}.

End DatasetLoader.

(** ** The adapter of the dataset framework ([sen1floods11_dataset.py]) *)

Module Sen1floods11Dataset.
Import PosixPath LocalFS RemoteStore Numpy.
Local Open Scope io_scope.

Definition S1 : string := "v1.1/data/flood_events/HandLabeled/S1Hand/".
Definition LABELS : string := "v1.1/data/flood_events/HandLabeled/LabelHand/".

Record CustomBuilderConfig := {
  no_cache : bool;
  context : string;
}.

(** The builder; its handle on the remote store is the [remote] component
    of the world. *)
Record t := { config : CustomBuilderConfig }.

Section WithLibraries.
Context `{Libraries}.

Definition load_input (self : t) (input_path image_name : string) (no_cache : bool)
  : M ndarray :=
  let local_path := join (join (context (config self)) input_path) image_name in
  let dvc_path := "/" ++ input_path ++ image_name in
  if no_cache then
    binary_image <- read_bytes dvc_path ;;
    src <- rasterio_open binary_image ;;
    ret (snd src)
  else
    found <- os_path_isfile local_path ;;
    if negb found && negb no_cache then
      os_makedirs (dirname local_path) ;;
      binary_image <- read_bytes dvc_path ;;
      src <- rasterio_open binary_image ;;
      let profile := fst src in
      let image := snd src in
      str_write local_path (rio_write profile image) ;;
      ret image
    else
      content <- str_read local_path ;;
      src <- rasterio_open content ;;
      ret (snd src).

End WithLibraries.

Definition process_image (image : ndarray) : ndarray :=
  let image := nan_to_num image in
  let image := clip image (-50) 1 in
  let image := div_scalar (add_scalar image 50) 51 in
  image.

Definition process_mask (mask : ndarray) : ndarray :=
  setitem_where_eq mask (-1) 255.

(** The two functions on array objects: the variable [image] is bound anew
    to the array each call returns, while the item assignment writes into
    the array the caller passed. *)
Definition process_image_obj (image : nat) (h : gmap nat ndarray)
  : option (nat * gmap nat ndarray) :=
  '(image, h) ← new_from nan_to_num image h;
  '(image, h) ← new_from (λ a, clip a (-50) 1) image h;
  '(sum, h) ← new_from (λ a, add_scalar a 50) image h;
  '(image, h) ← new_from (λ a, div_scalar a 51) sum h;
  Some (image, h).

Definition process_mask_obj (mask : nat) (h : gmap nat ndarray)
  : option (nat * gmap nat ndarray) :=
  h ← update_at (λ a, setitem_where_eq a (-1) 255) mask h;
  Some (mask, h).

Section WithLibraries.
Context `{Libraries}.

Definition comma : ascii := ","%char.

(** The body of the loop of [_generate_examples]: the numbered example of
    one line. *)
Definition example_of_line (self : t) (numbered : nat * string)
  : M (nat * gmap string ndarray) :=
  let no_cache := no_cache (config self) in
  let '(idx, line) := numbered in
  match Str.split comma (Str.strip line) with
  | [image_name; mask_name] =>
      image <- load_input self S1 image_name no_cache ;;
      let image := process_image image in
      mask <- load_input self LABELS mask_name no_cache ;;
      let mask := process_mask mask in
      ret (idx, ({[ "image" := image; "mask" := mask ]} : gmap string ndarray))
  | _ => raise ValueError
  end.

Definition _generate_examples (self : t) (csv_file : string)
  : world → trace (nat * gmap string ndarray) * world :=
  generator
    (text <- str_read csv_file ;;
     ret (imap (λ idx line, (idx, line)) (Str.text_lines text)))
    (example_of_line self).

End WithLibraries.
Inductive Split := TRAIN | VALIDATION | TEST.

(** The splits with the [csv_file] each passes to [_generate_examples]. *)
Definition _split_generators : list (Split * string) :=
  let data_dir := "sen1floods11-dataset" in
  [ (TRAIN, data_dir ++ "/flood_train_data.csv");
    (VALIDATION, data_dir ++ "/flood_valid_data.csv");
    (TEST, data_dir ++ "/flood_test_data.csv") ].

End Sen1floods11Dataset.

(** ** Vocabulary of the statements *)

Module Resolver.
Import PosixPath LocalFS Numpy.

(** The local path and the remote path of a reference, as the standalone
    adapter computes them. *)
Definition local_path (self : FloodDatasetGenerator.t) (image_dir image_name : string)
  : PurePath :=
  truediv (truediv (FloodDatasetGenerator.context self) image_dir) image_name.

Definition dvc_path (image_dir image_name : string) : string :=
  to_str (parse (join (join "/" image_dir) image_name)).

(** The same for the adapter of the framework. *)
Definition local_path_str (self : Sen1floods11Dataset.t) (input_path image_name : string)
  : string :=
  join (join (Sen1floods11Dataset.context (Sen1floods11Dataset.config self)) input_path)
    image_name.

Definition dvc_path_str (input_path image_name : string) : string :=
  "/" ++ input_path ++ image_name.

(** What reading a raster from given bytes returns. *)
Definition decoded `{Libraries} (content : string) : result ndarray :=
  match rio_read content with
  | Some src => Ok (snd src)
  | None => Raise RasterioIOError
  end.

(** The number of comma-separated fields of a line of a manifest. *)
Definition field_count (line : string) : nat :=
  length (Str.split Sen1floods11Dataset.comma (Str.strip line)).

(** The manifest of a generator of the standalone adapter, and the rows
    its loop goes through. *)
Definition manifest_path (self : FloodDatasetGenerator.t) : PurePath :=
  truediv (FloodDatasetGenerator.context self) (FloodDatasetGenerator.split self).

Definition rows_read `{Libraries} (shuffle : bool) (text : string) : list (list string) :=
  if shuffle then random_shuffle (csv_reader text) else csv_reader text.

(** The lines of a manifest with their numbers, as [enumerate] gives them. *)
Definition numbered (first : nat) (lines : list string) : list (nat * string) :=
  imap (λ idx line, (first + idx, line)) lines.

(** A local file that the raster library can read. *)
Definition available `{Libraries} (w : world) (k : list string) : Prop :=
  ∃ content, node_at w k = Some (File content) ∧ is_Some (rio_read content).

(** A row of two names whose rasters are both in the local directory. *)
Definition row_at_hand `{Libraries} (self : FloodDatasetGenerator.t) (w : world)
    (row : list string) : Prop :=
  ∃ image_name mask_name,
    row = [image_name; mask_name] ∧
    available w (key_of w (local_path self FloodDatasetGenerator.S1 image_name)) ∧
    available w (key_of w (local_path self FloodDatasetGenerator.LABELS mask_name)).

(** The same for a line read by the adapter of the framework. *)
Definition line_at_hand `{Libraries} (self : Sen1floods11Dataset.t) (w : world)
    (line : string) : Prop :=
  ∃ image_name mask_name,
    Str.split Sen1floods11Dataset.comma (Str.strip line) = [image_name; mask_name] ∧
    dir_only (local_path_str self Sen1floods11Dataset.S1 image_name) = false ∧
    available w (str_key w (local_path_str self Sen1floods11Dataset.S1 image_name)) ∧
    dir_only (local_path_str self Sen1floods11Dataset.LABELS mask_name) = false ∧
    available w (str_key w (local_path_str self Sen1floods11Dataset.LABELS mask_name)).

(** The keys of an example. *)
Definition example_keys : gset string := {[ "image"; "mask" ]}.

End Resolver.

Module Normalize.
Import Numpy.

(** What [process_image] does to one element of type [t]. *)
Definition normalize_elem (t : float_dtype) (x : spec_float) : spec_float :=
  fdiv t
    (fadd t (clip_elem (nan_to_num_elem t x) (of_Z t (-50)) (of_Z t 1)) (of_Z t 50))
    (of_Z t 51).

Definition is_finite (x : spec_float) : bool :=
  match x with
  | S754_nan | S754_infinity _ => false
  | _ => true
  end.

(** The normalization in the words of the specification: a value that is
    not finite counts as zero, the value is clipped to the range from -50
    to 1, and the result is [(clipped + 50) / 51]. *)
Definition normalize_as_specified (t : float_dtype) (x : spec_float) : spec_float :=
  let x0 := if is_finite x then x else S754_zero false in
  let clipped :=
    if SFltb x0 (of_Z t (-50)) then of_Z t (-50)
    else if SFltb (of_Z t 1) x0 then of_Z t 1
    else x0 in
  fdiv t (fadd t clipped (of_Z t 50)) (of_Z t 51).

End Normalize.

(** ** A small instance

    A toy raster format, a reader of CSV text without quotes and a fixed
    shuffle, with a world to run the adapters in. *)

Module Sample.
Import PosixPath LocalFS Numpy.

Definition byte_values (s : string) : list Z :=
  List.map (λ c, Z.of_nat (nat_of_ascii c)) (list_ascii_of_string s).

Definition of_byte_values (xs : list Z) : string :=
  string_of_list_ascii (List.map (λ x, ascii_of_nat (Z.to_nat x)) xs).

(** The integer a floating-point number with an integral value stands for. *)
Definition to_Z (x : spec_float) : Z :=
  match x with
  | S754_finite s m e => cond_Zopp s (Z.shiftl (Zpos m) e)
  | _ => 0
  end.

(** A toy raster: a one-letter header, [i] for integers and [f] for
    [float32], then one byte per element, offset so that negative elements
    can be written.  The header is read in either case and the profile is
    the letter in lower case, which is how the raster is written: the
    encoding of a decoded raster need not be the bytes it was read from. *)
Definition toy_read (b : string) : option (string * ndarray) :=
  match b with
  | String c r =>
      if bool_decide (c = "i"%char) || bool_decide (c = "I"%char) then
        Some ("i", IntArray (List.map (λ x, x - 1)%Z (byte_values r)))
      else if bool_decide (c = "f"%char) || bool_decide (c = "F"%char) then
        Some ("f", FloatArray float32 (List.map (λ x, of_Z float32 (x - 100)) (byte_values r)))
      else None
  | EmptyString => None
  end.

Definition toy_write (profile : string) (a : ndarray) : string :=
  profile ++
  match a with
  | IntArray xs => of_byte_values (List.map (λ x, x + 1)%Z xs)
  | FloatArray _ xs => of_byte_values (List.map (λ x, to_Z x + 100)%Z xs)
  end.

(** The rows of a CSV text that has no quotes: one row per line, an empty
    line giving the empty row. *)
Definition toy_csv (text : string) : list (list string) :=
  List.map (λ line,
              match Str.rstrip line with
              | EmptyString => []
              | l => Str.split ","%char l
              end)
           (Str.text_lines text).

#[export] Instance toy_libraries : Libraries := {|
  profile := string;
  rio_read := toy_read;
  rio_write := toy_write;
  csv_reader := toy_csv;
  random_shuffle := @rev (list string);
  random_shuffle_perm := λ rows, Permutation_sym (Permutation_rev rows);
|}.

Definition S1_dir : list string :=
  ["data"; "v1.1"; "data"; "flood_events"; "HandLabeled"; "S1Hand"].
Definition LABELS_dir : list string :=
  ["data"; "v1.1"; "data"; "flood_events"; "HandLabeled"; "LabelHand"].

Definition img_raw : string := "f" ++ of_byte_values [0; 90; 100; 110]%Z.
Definition msk_raw : string := "i" ++ of_byte_values [0; 1; 2]%Z.

(** Remote store holding two image and mask pairs. *)
Definition remote0 : gmap string string :=
  {[ "/v1.1/data/flood_events/HandLabeled/S1Hand/a.tif" := img_raw;
     "/v1.1/data/flood_events/HandLabeled/LabelHand/a_label.tif" := msk_raw;
     "/v1.1/data/flood_events/HandLabeled/S1Hand/b.tif" := img_raw;
     "/v1.1/data/flood_events/HandLabeled/LabelHand/b_label.tif" := msk_raw ]}.

(** A file system with the manifests and the first pair already present. *)
Definition fs0 : gmap (list string) node :=
  list_to_map
    [ (["data"], Dir);
      (["data"; "train_data.csv"], File "a.tif,a_label.tif
");
      (["data"; "wide.csv"], File "a.tif,a_label.tif,extra
");
      (["data"; "short.csv"], File "a.tif
");
      (["data"; "two.csv"], File "a.tif,a_label.tif
b.tif,b_label.tif
");
      (["data"; "v1.1"], Dir);
      (["data"; "v1.1"; "data"], Dir);
      (["data"; "v1.1"; "data"; "flood_events"], Dir);
      (["data"; "v1.1"; "data"; "flood_events"; "HandLabeled"], Dir);
      (S1_dir, Dir);
      (LABELS_dir, Dir);
      ((S1_dir ++ ["a.tif"])%list, File img_raw);
      ((LABELS_dir ++ ["a_label.tif"])%list, File msk_raw) ].

Definition world0 : world :=
  {| fs := fs0; cwd := []; remote := remote0; fetched := [] |}.

Definition gen (manifest : string) : FloodDatasetGenerator.t :=
  {| FloodDatasetGenerator.context := parse "/data";
     FloodDatasetGenerator.split := manifest |}.

Definition builder (no_cache : bool) : Sen1floods11Dataset.t :=
  {| Sen1floods11Dataset.config :=
       {| Sen1floods11Dataset.no_cache := no_cache;
          Sen1floods11Dataset.context := "/data" |} |}.

(** The arrays the two toy rasters hold. *)
Definition image0 : ndarray :=
  FloatArray float32 (List.map (of_Z float32) [-100; -10; 0; 10]%Z).
Definition mask0 : ndarray := IntArray [-1; 0; 1]%Z.

(** The worlds after the pair that is not in the local directory has been
    fetched, by either adapter. *)
Definition after_fetch : world :=
  snd (FloodDatasetGenerator._load_image (gen "train_data.csv")
         FloodDatasetGenerator.S1 "b.tif" true true world0).

Definition after_fetch_builder : world :=
  snd (Sen1floods11Dataset.load_input (builder false)
         Sen1floods11Dataset.S1 "b.tif" false world0).

(** A heap with one mask. *)
Definition heap0 : gmap nat ndarray := {[ 0 := mask0 ]}.

(** A raster written with an upper-case header: it decodes to [image0],
    whose encoding is [img_raw] and not this blob. *)
Definition img_raw_upper : string := "F" ++ of_byte_values [0; 90; 100; 110]%Z.

(** A world whose local directory is still empty, below a context that
    exists, and whose remote store holds that raster. *)
Definition world_bare : world :=
  {| fs := {[ ["data"] := Dir ]};
     cwd := [];
     remote := {[ "/v1.1/data/flood_events/HandLabeled/S1Hand/c.tif" := img_raw_upper ]};
     fetched := [] |}.

(** A world with two pairs at hand whose images differ, and their
    manifest. *)
Definition img_raw_b : string := "f" ++ of_byte_values [100; 101]%Z.
Definition image_b : ndarray :=
  FloatArray float32 (List.map (of_Z float32) [0; 1]%Z).

Definition world_pairs : world :=
  {| fs := list_to_map
             [ (["data"; "pairs.csv"], File "a.tif,a_label.tif
b.tif,b_label.tif
");
               ((S1_dir ++ ["a.tif"])%list, File img_raw);
               ((LABELS_dir ++ ["a_label.tif"])%list, File msk_raw);
               ((S1_dir ++ ["b.tif"])%list, File img_raw_b);
               ((LABELS_dir ++ ["b_label.tif"])%list, File msk_raw) ];
     cwd := [];
     remote := ∅;
     fetched := [] |}.

(** A world in which the directory of the manifests of the framework is a
    regular file. *)
Definition world_blocked : world :=
  {| fs := {[ ["sen1floods11-dataset"] := File "" ]};
     cwd := [];
     remote := ∅;
     fetched := [] |}.

End Sample.

(** ** How the world changes *)

Module Frame.
Import LocalFS.

(** What a run does to the local side, from [w] to [w']: the working
    directory is the same, every file is still there with its content,
    every directory is still a directory, and the log of remote reads has
    only grown.  Nothing is said of the answers of the remote store. *)
Record grows (w w' : world) : Prop := {
  grows_cwd : cwd w' = cwd w;
  grows_files : ∀ k c, node_at w k = Some (File c) → node_at w' k = Some (File c);
  grows_dirs : ∀ k, is_dir w k = true → is_dir w' k = true;
  grows_log : ∃ calls, fetched w' = (fetched w ++ calls)%list;
}.

(** The same with the component [remote] of the model, which no operation
    of the model changes: the form in which the runs are followed. *)
Record evolves (w w' : world) : Prop := {
  evolves_cwd : cwd w' = cwd w;
  evolves_remote : remote w' = remote w;
  evolves_files : ∀ k c, node_at w k = Some (File c) → node_at w' k = Some (File c);
  evolves_dirs : ∀ k, is_dir w k = true → is_dir w' k = true;
  evolves_log : ∃ calls, fetched w' = (fetched w ++ calls)%list;
}.

(** No file of [w'] is new or has new content. *)
Definition no_new_file (w w' : world) : Prop :=
  ∀ k c, node_at w' k = Some (File c) → node_at w k = Some (File c).

(** The file system and all but the log of remote reads are the same. *)
Definition same_but_log (w w' : world) : Prop :=
  fs w' = fs w ∧ cwd w' = cwd w ∧ remote w' = remote w.

(** The remote paths a line of a manifest makes the adapter of the
    framework read when nothing is taken from the local directory: that of
    its image, then that of its mask. *)
Definition remote_paths_of_line (line : string) : list string :=
  match Str.split Sen1floods11Dataset.comma (Str.strip line) with
  | [image_name; mask_name] =>
      [ Resolver.dvc_path_str Sen1floods11Dataset.S1 image_name;
        Resolver.dvc_path_str Sen1floods11Dataset.LABELS mask_name ]
  | _ => []
  end.

(** What a read of the remote store returns, as the result of a
    resolution. *)
Definition fetched_result `{Libraries} (w : world) (path : string) : result Numpy.ndarray :=
  match remote w !! path with
  | Some raw => Resolver.decoded raw
  | None => Raise (RemoteReadError path)
  end.

End Frame.

(** ** Paths in normal form *)

Module Canonical.
Import PosixPath.

(** A name of a path: not empty, not ["."], without a separator. *)
Definition plain (n : string) : Prop :=
  is_name n = true ∧ Str.split sep n = [n].

(** A parsed path as [pathlib] keeps it. *)
Definition canonical (p : PurePath) : Prop :=
  (root p = "" ∨ root p = "/" ∨ root p = "//") ∧ Forall plain (names p).

End Canonical.

(** * Properties *)

Import PosixPath LocalFS RemoteStore Numpy Resolver.

(** ** The file system *)

Lemma is_file_node w k :
  is_file w k = true ↔ ∃ content, node_at w k = Some (File content).
Proof.
  unfold is_file. destruct (node_at w k) as [[c|]|]; split; try discriminate; eauto.
  - intros [c' Hc]; discriminate.
  - intros [c' Hc]; discriminate.
Qed.

Lemma is_file_not_dir w k : is_file w k = true → is_dir w k = false.
Proof.
  unfold is_file, is_dir. destruct (node_at w k) as [[c|]|]; congruence.
Qed.

Lemma read_file_file s w k content :
  node_at w k = Some (File content) → read_file s k w = (Ok content, w).
Proof. intros Hk. unfold read_file. by rewrite Hk. Qed.

Lemma node_at_set_fs w f k :
  k ≠ [] → node_at (set_fs w f) k = f !! k.
Proof. destruct k; [congruence | reflexivity]. Qed.

(** A file written is a file read back. *)
Lemma write_file_ok s k content w w' :
  write_file s k content w = (Ok (), w') →
  w' = set_fs w (<[k := File content]> (fs w)) ∧
  node_at w' k = Some (File content) ∧ is_dir w (removelast k) = true.
Proof.
  unfold write_file. intros Hw.
  destruct (is_dir w k) eqn:Hd; [discriminate|].
  destruct (is_dir w (removelast k)) eqn:Hp; simpl in Hw; [|discriminate].
  injection Hw as <-. split; [reflexivity|]. split; [|reflexivity].
  destruct k as [|x k]; [discriminate|].
  simpl. apply lookup_insert_eq.
Qed.

(** Directories created on the way to a key. *)
Lemma lookup_make_dirs (ds : list (list string)) (f : gmap (list string) node) d :
  foldr (λ d f, <[d := Dir]> f) f ds !! d
  = if bool_decide (d ∈ ds) then Some Dir else f !! d.
Proof.
  induction ds as [|x ds IH]; simpl.
  - reflexivity.
  - destruct (decide (x = d)) as [->|Hne].
    + rewrite lookup_insert_eq. rewrite bool_decide_eq_true_2; [done|]. left.
    + rewrite lookup_insert_ne by done. rewrite IH.
      destruct (decide (d ∈ ds)) as [Hin|Hin].
      * rewrite !bool_decide_eq_true_2; [done| by right | done].
      * rewrite !bool_decide_eq_false_2; [done| |done].
        intros Hd. apply elem_of_cons in Hd as [->|Hd]; [done|contradiction].
Qed.

Lemma prefixes_self (k : list string) : k ≠ [] → k ∈ prefixes k.
Proof.
  induction k as [|x k IH]; [done|]. intros _. simpl.
  destruct k as [|y k]; [left|].
  right. apply list_elem_of_In, in_map, list_elem_of_In, IH. done.
Qed.

Lemma mkdir_p_ok s k w w' :
  mkdir_p s k w = (Ok (), w') →
  w' = set_fs w (foldr (λ d f, <[d := Dir]> f) (fs w) (prefixes k)) ∧
  is_dir w' k = true.
Proof.
  unfold mkdir_p. destruct (existsb (is_file w) (prefixes k)); [discriminate|].
  intros [= <-]. split; [reflexivity|].
  unfold is_dir. destruct k as [|x k]; [reflexivity|].
  rewrite node_at_set_fs by done. rewrite lookup_make_dirs.
  rewrite bool_decide_eq_true_2; [done|]. by apply prefixes_self.
Qed.

(** Every directory on the way to the key has been made. *)
Lemma mkdir_p_makes_all s k w w' d :
  mkdir_p s k w = (Ok (), w') → d ∈ prefixes k → is_dir w' d = true.
Proof.
  intros Hmk Hd. apply mkdir_p_ok in Hmk as [-> _].
  unfold is_dir. destruct d as [|x d]; [reflexivity|].
  rewrite node_at_set_fs by done. rewrite lookup_make_dirs.
  by rewrite bool_decide_eq_true_2.
Qed.

(** A directory stays one when a file is written elsewhere. *)
Lemma write_file_keeps_dir s k content w w' d :
  write_file s k content w = (Ok (), w') → is_dir w d = true → is_dir w' d = true.
Proof.
  intros Hw Hd. unfold write_file in Hw.
  destruct (is_dir w k) eqn:Hk; [discriminate|].
  destruct (is_dir w (removelast k)); simpl in Hw; [|discriminate].
  injection Hw as <-. unfold is_dir in *.
  destruct d as [|x d]; [reflexivity|].
  rewrite node_at_set_fs by done. simpl in Hd.
  rewrite lookup_insert_ne; [done|].
  intros ->. simpl in Hk. rewrite Hk in Hd. discriminate.
Qed.

(** ** Resolution of a reference *)

Section Resolution.
Context `{Libraries}.

Lemma rasterio_open_decoded (content : string) (w : world) :
  bind (rasterio_open content) (λ src, ret (snd src)) w = (decoded content, w).
Proof.
  unfold bind, rasterio_open, decoded. by destruct (rio_read content).
Qed.

(** The branch of the local file, in the standalone adapter. *)
Lemma load_image_local self image_dir image_name stream stream_cache w content :
  node_at w (key_of w (local_path self image_dir image_name)) = Some (File content) →
  FloodDatasetGenerator._load_image self image_dir image_name stream stream_cache w
  = (decoded content, w).
Proof.
  intros Hnode.
  unfold FloodDatasetGenerator._load_image.
  fold (local_path self image_dir image_name).
  set (p := local_path self image_dir image_name) in *.
  assert (Hfile : is_file w (key_of w p) = true)
    by (apply is_file_node; eauto).
  unfold bind at 1. unfold path_is_file. rewrite Hfile.
  unfold bind at 1. unfold path_read.
  rewrite (read_file_file _ _ _ _ Hnode).
  apply rasterio_open_decoded.
Qed.

(** The same branch in the adapter of the framework. *)
Lemma load_input_local self input_path image_name w content :
  dir_only (local_path_str self input_path image_name) = false →
  node_at w (str_key w (local_path_str self input_path image_name)) = Some (File content) →
  Sen1floods11Dataset.load_input self input_path image_name false w
  = (decoded content, w).
Proof.
  intros Hd Hnode.
  unfold Sen1floods11Dataset.load_input.
  fold (local_path_str self input_path image_name).
  set (p := local_path_str self input_path image_name) in *.
  assert (Hfile : is_file w (str_key w p) = true)
    by (apply is_file_node; eauto).
  unfold bind at 1. unfold os_path_isfile, isfile_str. rewrite Hd, Hfile. simpl.
  unfold bind at 1. unfold str_read. rewrite Hd. simpl.
  rewrite (read_file_file _ _ _ _ Hnode).
  apply rasterio_open_decoded.
Qed.

(** What a fetch with caching went through when it returned, in the
    standalone adapter: the blob was there and is a raster, the parent
    directory could be made and the blob was written. *)
Lemma load_image_fetch_inv self image_dir image_name w img w' :
  is_file w (key_of w (local_path self image_dir image_name)) = false →
  FloodDatasetGenerator._load_image self image_dir image_name true true w = (Ok img, w') →
  let p := local_path self image_dir image_name in
  let w0 := log_call (dvc_path image_dir image_name) w in
  ∃ raw prof w1,
    remote w !! dvc_path image_dir image_name = Some raw ∧
    rio_read raw = Some (prof, img) ∧
    mkdir_p (to_str (parent p)) (key_of w (parent p)) w0 = (Ok (), w1) ∧
    write_file (to_str p) (key_of w p) raw w1 = (Ok (), w').
Proof.
  intros Hfile Hrun p w0.
  unfold FloodDatasetGenerator._load_image in Hrun.
  fold (local_path self image_dir image_name) in Hrun.
  fold (dvc_path image_dir image_name) in Hrun. fold p in Hrun, Hfile.
  unfold bind at 1 in Hrun. unfold path_is_file in Hrun. rewrite Hfile in Hrun.
  unfold bind at 1 in Hrun. unfold read_bytes in Hrun.
  destruct (remote w !! dvc_path image_dir image_name) as [raw|] eqn:Hraw;
    [|discriminate].
  fold w0 in Hrun.
  unfold bind at 1 in Hrun. unfold rasterio_open in Hrun.
  destruct (rio_read raw) as [[prof img0]|] eqn:Hdec; [|discriminate].
  unfold ret at 1 in Hrun. simpl snd in Hrun.
  unfold bind at 1 in Hrun. unfold bind at 1 in Hrun.
  unfold path_mkdir_parents in Hrun.
  change (key_of w0 (parent p)) with (key_of w (parent p)) in Hrun.
  destruct (mkdir_p (to_str (parent p)) (key_of w (parent p)) w0)
    as [[[]|e] w1] eqn:Hmk; [|discriminate].
  unfold path_write_bytes in Hrun.
  assert (Hcwd : key_of w1 p = key_of w p).
  { apply mkdir_p_ok in Hmk as [-> _]. reflexivity. }
  rewrite Hcwd in Hrun.
  destruct (write_file (to_str p) (key_of w p) raw w1) as [[[]|e] w2] eqn:Hwr;
    [|discriminate].
  unfold ret in Hrun. injection Hrun as <- <-.
  exists raw, prof, w1. done.
Qed.

(** The same for the adapter of the framework, which makes the directory
    first and writes what the raster library encodes. *)
Lemma load_input_fetch_inv self input_path image_name w img w' :
  isfile_str w (local_path_str self input_path image_name) = false →
  Sen1floods11Dataset.load_input self input_path image_name false w = (Ok img, w') →
  let p := local_path_str self input_path image_name in
  ∃ raw prof w1,
    os_makedirs (dirname p) w = (Ok (), w1) ∧
    remote w !! dvc_path_str input_path image_name = Some raw ∧
    rio_read raw = Some (prof, img) ∧
    str_write p (rio_write prof img)
      (log_call (dvc_path_str input_path image_name) w1) = (Ok (), w').
Proof.
  intros Hfile Hrun p.
  unfold Sen1floods11Dataset.load_input in Hrun.
  fold (local_path_str self input_path image_name) in Hrun.
  fold (dvc_path_str input_path image_name) in Hrun. fold p in Hrun.
  unfold bind at 1 in Hrun. unfold os_path_isfile in Hrun.
  fold p in Hfile. rewrite Hfile in Hrun. simpl in Hrun.
  unfold bind at 1 in Hrun.
  destruct (os_makedirs (dirname p) w) as [[[]|e] w1] eqn:Hmk; [|discriminate].
  assert (Hrem : remote w1 = remote w).
  { unfold os_makedirs in Hmk. destruct (bool_decide _); [discriminate|].
    destruct (_ && _); [discriminate|].
    apply mkdir_p_ok in Hmk as [-> _]. reflexivity. }
  unfold bind at 1 in Hrun. unfold read_bytes in Hrun. rewrite Hrem in Hrun.
  destruct (remote w !! dvc_path_str input_path image_name) as [raw|] eqn:Hraw;
    [|discriminate].
  unfold bind at 1 in Hrun. unfold rasterio_open in Hrun.
  destruct (rio_read raw) as [[prof img0]|] eqn:Hdec; [|discriminate].
  unfold ret at 1 in Hrun. simpl fst in Hrun. simpl snd in Hrun.
  unfold bind at 1 in Hrun.
  destruct (str_write p (rio_write prof img0) _) as [[[]|e] w2] eqn:Hwr;
    [|discriminate].
  unfold ret in Hrun. injection Hrun as <- <-.
  exists raw, prof, w1. done.
Qed.

Lemma str_write_ok s content w w' :
  str_write s content w = (Ok (), w') →
  dir_only s = false ∧ write_file s (str_key w s) content w = (Ok (), w').
Proof.
  unfold str_write. destruct (bool_decide (s = "")); [discriminate|].
  destruct (dir_only s); [discriminate|]. done.
Qed.

Lemma os_makedirs_ok s w w' :
  os_makedirs s w = (Ok (), w') → mkdir_p s (str_key w s) w = (Ok (), w').
Proof.
  unfold os_makedirs. destruct (bool_decide (s = "")); [discriminate|].
  by destruct (_ && _).
Qed.

Lemma prefixes_length (k d : list string) : d ∈ prefixes k → (length d ≤ length k)%nat.
Proof.
  revert d. induction k as [|x k IH]; intros d Hd; simpl in *.
  - by apply elem_of_nil in Hd.
  - apply elem_of_cons in Hd as [->|Hd]; [simpl; lia|].
    apply list_elem_of_In, in_map_iff in Hd as (d' & <- & Hd').
    apply list_elem_of_In, IH in Hd'. simpl. lia.
Qed.

(** Where nothing is at a key and no file is in the way to it, the
    directory of the key can be made and a file written at the key. *)
Lemma mkdir_then_write s s' (k : list string) content w :
  node_at w k = None →
  existsb (is_file w) (prefixes (removelast k)) = false →
  ∃ w1 w2,
    mkdir_p s (removelast k) w = (Ok (), w1) ∧
    write_file s' k content w1 = (Ok (), w2).
Proof.
  intros Hnone Hway.
  assert (Hk : k ≠ []) by (intros ->; discriminate).
  unfold mkdir_p. rewrite Hway. eexists _, _. split; [reflexivity|].
  set (w1 := set_fs w _).
  assert (Hparent : is_dir w1 (removelast k) = true).
  { apply (mkdir_p_ok s (removelast k) w). unfold mkdir_p. by rewrite Hway. }
  assert (Hself : is_dir w1 k = false).
  { unfold is_dir, w1. rewrite node_at_set_fs by done. rewrite lookup_make_dirs.
    rewrite bool_decide_eq_false_2.
    - destruct k; [done|]. simpl in Hnone. by rewrite Hnone.
    - intros Hin. apply prefixes_length in Hin.
      destruct k as [|x k] using rev_ind; [done|].
      rewrite removelast_last in Hin. rewrite length_app in Hin. simpl in Hin. lia. }
  unfold write_file. rewrite Hself, Hparent. reflexivity.
Qed.

Lemma write_file_logged s k content d w w' :
  write_file s k content w = (Ok (), w') →
  write_file s k content (log_call d w) = (Ok (), log_call d w').
Proof.
  unfold write_file.
  change (is_dir (log_call d w) k) with (is_dir w k).
  change (is_dir (log_call d w) (removelast k)) with (is_dir w (removelast k)).
  destruct (is_dir w k); [discriminate|].
  destruct (is_dir w (removelast k)); simpl; [|discriminate].
  by intros [= <-].
Qed.

(** A fetch with caching returns, in the standalone adapter, when the
    remote store holds a raster for the reference, nothing is at the local
    path and no file is in the way to it. *)
Lemma load_image_fetch_returns self image_dir image_name w raw prof img :
  let p := local_path self image_dir image_name in
  names p ≠ [] →
  node_at w (key_of w p) = None →
  existsb (is_file w) (prefixes (key_of w (parent p))) = false →
  remote w !! dvc_path image_dir image_name = Some raw →
  rio_read raw = Some (prof, img) →
  ∃ w', FloodDatasetGenerator._load_image self image_dir image_name true true w
        = (Ok img, w').
Proof.
  intros p Hnames Hnone Hway Hraw Hdec.
  assert (Hparent : key_of w (parent p) = removelast (key_of w p)).
  { unfold key_of, parent. simpl. by rewrite removelast_app. }
  rewrite Hparent in Hway.
  set (w0 := log_call (dvc_path image_dir image_name) w).
  destruct (mkdir_then_write (to_str (parent p)) (to_str p) (key_of w p) raw w0)
    as (w1 & w2 & Hmk & Hwr); [exact Hnone | exact Hway |].
  exists w2.
  unfold FloodDatasetGenerator._load_image.
  fold (local_path self image_dir image_name). fold (dvc_path image_dir image_name).
  fold p.
  unfold bind at 1. unfold path_is_file.
  assert (Hfile : is_file w (key_of w p) = false) by (unfold is_file; by rewrite Hnone).
  rewrite Hfile.
  unfold bind at 1. unfold read_bytes. rewrite Hraw. fold w0.
  unfold bind at 1. unfold rasterio_open. rewrite Hdec. unfold ret at 1. simpl snd.
  unfold bind at 1. unfold bind at 1. unfold path_mkdir_parents.
  change (key_of w0 (parent p)) with (key_of w (parent p)).
  rewrite Hparent, Hmk.
  unfold path_write_bytes.
  assert (Hcwd : key_of w1 p = key_of w p).
  { apply mkdir_p_ok in Hmk as [-> _]. reflexivity. }
  rewrite Hcwd, Hwr. reflexivity.
Qed.

(** The same for the adapter of the framework, for a local path that
    names a file below its directory. *)
Lemma load_input_fetch_returns self input_path image_name w raw prof img :
  let p := local_path_str self input_path image_name in
  dir_only p = false → p ≠ "" → dirname p ≠ "" →
  str_key w (dirname p) = removelast (str_key w p) →
  node_at w (str_key w p) = None →
  existsb (is_file w) (prefixes (str_key w (dirname p))) = false →
  remote w !! dvc_path_str input_path image_name = Some raw →
  rio_read raw = Some (prof, img) →
  ∃ w', Sen1floods11Dataset.load_input self input_path image_name false w
        = (Ok img, w').
Proof.
  intros p Hd Hp Hdir Hparent Hnone Hway Hraw Hdec.
  rewrite Hparent in Hway.
  destruct (mkdir_then_write (dirname p) p (str_key w p) (rio_write prof img) w)
    as (w1 & w2 & Hmk & Hwr); [exact Hnone | exact Hway |].
  exists (log_call (dvc_path_str input_path image_name) w2).
  unfold Sen1floods11Dataset.load_input.
  fold (local_path_str self input_path image_name).
  fold (dvc_path_str input_path image_name). fold p.
  unfold bind at 1. unfold os_path_isfile, isfile_str.
  assert (Hfile : is_file w (str_key w p) = false) by (unfold is_file; by rewrite Hnone).
  rewrite Hfile, Hd. simpl.
  unfold bind at 1. unfold os_makedirs.
  rewrite bool_decide_eq_false_2 by exact Hdir.
  rewrite Hparent, Hway. cbn [andb]. rewrite Hmk.
  assert (Hw1 : remote w1 = remote w ∧ str_key w1 p = str_key w p).
  { apply mkdir_p_ok in Hmk as [-> _]. done. }
  destruct Hw1 as [Hrem Hkey].
  unfold bind at 1. unfold read_bytes. rewrite Hrem, Hraw.
  unfold bind at 1. unfold rasterio_open. rewrite Hdec. unfold ret at 1.
  simpl fst. simpl snd.
  unfold bind at 1. unfold str_write.
  rewrite bool_decide_eq_false_2 by exact Hp. rewrite Hd.
  change (str_key (log_call (dvc_path_str input_path image_name) w1) p)
    with (str_key w1 p).
  rewrite Hkey in *.
  rewrite (write_file_logged _ _ _ _ _ _ Hwr). reflexivity.
Qed.

(** C1 (amended).  When the local path of a reference is a file, the
    standalone adapter returns what the raster library reads from the
    content of that file, whatever [stream] and [stream_cache] are, and
    leaves the world as it was: no remote read is made and nothing is
    written.  The adapter of the framework does the same when [no_cache] is
    off. *)
Theorem local_cache_precedence :
  (∀ self image_dir image_name stream stream_cache w content,
     node_at w (key_of w (local_path self image_dir image_name)) = Some (File content) →
     FloodDatasetGenerator._load_image self image_dir image_name stream stream_cache w
     = (decoded content, w))
  ∧
  (∀ self input_path image_name w content,
     isfile_str w (local_path_str self input_path image_name) = true →
     node_at w (str_key w (local_path_str self input_path image_name)) = Some (File content) →
     Sen1floods11Dataset.load_input self input_path image_name false w
     = (decoded content, w)).
Proof.
  split.
  - intros. by apply load_image_local.
  - intros self input_path image_name w content Hfile Hnode.
    apply load_input_local; [|done].
    apply andb_true_iff in Hfile as [Hd _]. by apply negb_true_iff in Hd.
Qed.

(** C4.  A reference that is not cached and is resolved with remote reads
    allowed and caching on: when the resolution returns, one remote read has
    been logged, and resolving the reference again returns what the raster
    library reads from the file now at the local path, in a world that stays
    as it is, so without a second remote read.  In the standalone adapter
    the second resolution returns the image of the first. *)
Theorem caching_is_idempotent :
  (∀ self image_dir image_name w img w1,
     is_file w (key_of w (local_path self image_dir image_name)) = false →
     FloodDatasetGenerator._load_image self image_dir image_name true true w = (Ok img, w1) →
     fetched w1 = (fetched w ++ [dvc_path image_dir image_name])%list ∧
     FloodDatasetGenerator._load_image self image_dir image_name true true w1 = (Ok img, w1))
  ∧
  (∀ self input_path image_name w img w1,
     isfile_str w (local_path_str self input_path image_name) = false →
     Sen1floods11Dataset.load_input self input_path image_name false w = (Ok img, w1) →
     fetched w1 = (fetched w ++ [dvc_path_str input_path image_name])%list ∧
     ∃ content,
       node_at w1 (str_key w1 (local_path_str self input_path image_name))
       = Some (File content) ∧
       Sen1floods11Dataset.load_input self input_path image_name false w1
       = (decoded content, w1)).
Proof.
  split.
  - intros self image_dir image_name w img w1 Hfile Hrun.
    destruct (load_image_fetch_inv _ _ _ _ _ _ Hfile Hrun)
      as (raw & prof & w0 & Hraw & Hdec & Hmk & Hwr).
    apply mkdir_p_ok in Hmk as [-> _].
    apply write_file_ok in Hwr as (-> & Hnode & _).
    split; [reflexivity|].
    rewrite (load_image_local _ _ _ _ _ _ raw).
    + unfold decoded. by rewrite Hdec.
    + exact Hnode.
  - intros self input_path image_name w img w1 Hfile Hrun.
    destruct (load_input_fetch_inv _ _ _ _ _ _ Hfile Hrun)
      as (raw & prof & w0 & Hmk & Hraw & Hdec & Hwr).
    apply os_makedirs_ok, mkdir_p_ok in Hmk as [-> _].
    apply str_write_ok in Hwr as [Hd Hwr].
    apply write_file_ok in Hwr as (-> & Hnode & _).
    split; [reflexivity|].
    exists (rio_write prof img). split; [exact Hnode|].
    apply load_input_local; [exact Hd | exact Hnode].
Qed.

(** C5.  When the local path of a reference is not a file, which is so in
    particular when nothing exists there, and [stream] is off, the
    standalone adapter raises the error whose message ends with the local
    path, and the world is as it was: nothing is written and no remote read
    is made. *)
Theorem missing_file_without_remote self image_dir image_name stream_cache w :
  is_file w (key_of w (local_path self image_dir image_name)) = false →
  FloodDatasetGenerator._load_image self image_dir image_name false stream_cache w
  = (Raise (RuntimeError
              ("File not accessible: " ++ to_str (local_path self image_dir image_name))),
     w).
Proof.
  intros Hfile.
  unfold FloodDatasetGenerator._load_image.
  fold (local_path self image_dir image_name).
  unfold bind, path_is_file. by rewrite Hfile.
Qed.

(** C7.  A fetch with caching, for a reference that the remote store
    holds as a raster, where nothing is at the local path and no file is on
    the way to it: the adapter of the framework returns the image and
    leaves the encoding of the decoded image under the profile of the
    fetched raster at the local path; the standalone adapter returns the
    image and leaves the fetched bytes themselves there.  Every directory
    on the way to the local path is a directory afterwards, whether it
    existed before or not.  And whenever a fetch with caching returns, the
    file at the local path is the one just described. *)
Theorem cache_file_content :
  (∀ self input_path image_name w raw prof img,
     let p := local_path_str self input_path image_name in
     dir_only p = false → p ≠ "" → dirname p ≠ "" →
     str_key w (dirname p) = removelast (str_key w p) →
     node_at w (str_key w p) = None →
     existsb (is_file w) (prefixes (str_key w (dirname p))) = false →
     remote w !! dvc_path_str input_path image_name = Some raw →
     rio_read raw = Some (prof, img) →
     ∃ w',
       Sen1floods11Dataset.load_input self input_path image_name false w = (Ok img, w') ∧
       node_at w' (str_key w p) = Some (File (rio_write prof img)) ∧
       Forall (λ d, is_dir w' d = true) (prefixes (str_key w (dirname p))))
  ∧
  (∀ self image_dir image_name w raw prof img,
     let p := local_path self image_dir image_name in
     names p ≠ [] →
     node_at w (key_of w p) = None →
     existsb (is_file w) (prefixes (key_of w (parent p))) = false →
     remote w !! dvc_path image_dir image_name = Some raw →
     rio_read raw = Some (prof, img) →
     ∃ w',
       FloodDatasetGenerator._load_image self image_dir image_name true true w
       = (Ok img, w') ∧
       node_at w' (key_of w p) = Some (File raw) ∧
       Forall (λ d, is_dir w' d = true) (prefixes (key_of w (parent p))))
  ∧
  (∀ self input_path image_name w img w',
     isfile_str w (local_path_str self input_path image_name) = false →
     Sen1floods11Dataset.load_input self input_path image_name false w = (Ok img, w') →
     ∃ raw prof,
       remote w !! dvc_path_str input_path image_name = Some raw ∧
       rio_read raw = Some (prof, img) ∧
       node_at w' (str_key w' (local_path_str self input_path image_name))
       = Some (File (rio_write prof img)) ∧
       is_dir w' (str_key w' (dirname (local_path_str self input_path image_name))) = true)
  ∧
  (∀ self image_dir image_name w img w',
     is_file w (key_of w (local_path self image_dir image_name)) = false →
     FloodDatasetGenerator._load_image self image_dir image_name true true w = (Ok img, w') →
     ∃ raw,
       remote w !! dvc_path image_dir image_name = Some raw ∧
       node_at w' (key_of w' (local_path self image_dir image_name)) = Some (File raw) ∧
       is_dir w' (key_of w' (parent (local_path self image_dir image_name))) = true).
Proof.
  split; [|split; [|split]].
  - intros self input_path image_name w raw prof img p Hd Hp Hdir Hparent Hnone Hway
      Hraw Hdec.
    destruct (load_input_fetch_returns self input_path image_name w raw prof img
                Hd Hp Hdir Hparent Hnone Hway Hraw Hdec) as [w' Hrun].
    exists w'. split; [exact Hrun|].
    assert (Hfile : isfile_str w p = false).
    { unfold isfile_str, is_file. by rewrite Hnone, andb_false_r. }
    destruct (load_input_fetch_inv _ _ _ _ _ _ Hfile Hrun)
      as (raw' & prof' & w0 & Hmk & Hraw' & Hdec' & Hwr).
    fold p in Hmk, Hwr.
    assert (raw' = raw) as -> by congruence.
    assert (prof' = prof) as -> by congruence.
    apply os_makedirs_ok in Hmk.
    apply str_write_ok in Hwr as [_ Hwr].
    assert (Hkey : str_key (log_call (dvc_path_str input_path image_name) w0) p
                   = str_key w p).
    { apply mkdir_p_ok in Hmk as [-> _]. reflexivity. }
    rewrite Hkey in Hwr. split.
    + by apply write_file_ok in Hwr as (_ & Hnode & _).
    + apply Forall_forall. intros d Hin.
      apply (write_file_keeps_dir _ _ _ _ _ d Hwr).
      change (is_dir (log_call (dvc_path_str input_path image_name) w0) d)
        with (is_dir w0 d).
      by apply (mkdir_p_makes_all _ _ _ _ d Hmk).
  - intros self image_dir image_name w raw prof img p Hnames Hnone Hway Hraw Hdec.
    destruct (load_image_fetch_returns self image_dir image_name w raw prof img
                Hnames Hnone Hway Hraw Hdec) as [w' Hrun].
    exists w'. split; [exact Hrun|].
    assert (Hfile : is_file w (key_of w p) = false)
      by (unfold is_file; by rewrite Hnone).
    destruct (load_image_fetch_inv _ _ _ _ _ _ Hfile Hrun)
      as (raw' & prof' & w0 & Hraw' & Hdec' & Hmk & Hwr).
    fold p in Hmk, Hwr.
    assert (raw' = raw) as -> by congruence.
    split.
    + by apply write_file_ok in Hwr as (_ & Hnode & _).
    + apply Forall_forall. intros d Hin.
      apply (write_file_keeps_dir _ _ _ _ _ d Hwr).
      by apply (mkdir_p_makes_all _ _ _ _ d Hmk).
  - intros self input_path image_name w img w' Hfile Hrun.
    destruct (load_input_fetch_inv _ _ _ _ _ _ Hfile Hrun)
      as (raw & prof & w0 & Hmk & Hraw & Hdec & Hwr).
    exists raw, prof. split; [done|]. split; [done|].
    apply os_makedirs_ok in Hmk. apply mkdir_p_ok in Hmk as [Hw0 Hdir].
    apply str_write_ok in Hwr as [Hd Hwr].
    pose proof (write_file_keeps_dir _ _ _ _ _
                  (str_key w (dirname (local_path_str self input_path image_name))) Hwr)
      as Hkeep.
    apply write_file_ok in Hwr as (Hw' & Hnode & _).
    assert (Hcwd0 : cwd w0 = cwd w) by (by rewrite Hw0).
    assert (Hcwd : cwd w' = cwd w) by (by rewrite Hw', Hw0).
    unfold str_key, key_of in *. simpl cwd in *.
    rewrite Hcwd. rewrite Hcwd0 in Hnode. split; [exact Hnode|].
    apply Hkeep. rewrite Hw0 in Hdir |- *. exact Hdir.
  - intros self image_dir image_name w img w' Hfile Hrun.
    destruct (load_image_fetch_inv _ _ _ _ _ _ Hfile Hrun)
      as (raw & prof & w0 & Hraw & Hdec & Hmk & Hwr).
    exists raw. split; [done|].
    apply mkdir_p_ok in Hmk as [Hw0 Hdir].
    pose proof (write_file_keeps_dir _ _ _ _ _
                  (key_of w (parent (local_path self image_dir image_name))) Hwr Hdir)
      as Hkeep.
    apply write_file_ok in Hwr as (Hw' & Hnode & _).
    assert (Hcwd : cwd w' = cwd w) by (by rewrite Hw', Hw0).
    unfold key_of in *. rewrite Hcwd. done.
Qed.

End Resolution.

(** ** The split table *)

(** C9.  A key that the split table does not hold is not refused: the
    generator returned reads the manifest named by the key itself. *)
Theorem unknown_split_is_its_own_manifest (self : DatasetLoader.t) (key : string) :
  DatasetLoader.SPLITS !! key = None →
  DatasetLoader.__getitem__ self key
  = {| FloodDatasetGenerator.context := DatasetLoader.context self;
       FloodDatasetGenerator.split := key |}.
Proof.
  intros Hkey. unfold DatasetLoader.__getitem__. by rewrite Hkey.
Qed.

(** ** Processing of the arrays *)

Lemma lookup_map {A B} (f : A → B) (l : list A) (i : nat) :
  List.map f l !! i = f <$> (l !! i).
Proof.
  revert i. induction l as [|x l IH]; intros [|i]; simpl; auto.
Qed.

(** C8.  The remapped mask has the elements of the mask, in the same
    number, except that an element equal to -1 has become 255. *)
Theorem mask_remapping :
  (∀ xs, ∃ ys,
     Sen1floods11Dataset.process_mask (IntArray xs) = IntArray ys ∧
     length ys = length xs ∧
     ∀ i x, xs !! i = Some x →
            ys !! i = Some (if bool_decide (x = -1)%Z then 255%Z else x))
  ∧
  (∀ t xs, ∃ ys,
     Sen1floods11Dataset.process_mask (FloatArray t xs) = FloatArray t ys ∧
     length ys = length xs ∧
     ∀ i x, xs !! i = Some x →
            ys !! i = Some (if SFeqb x (of_Z t (-1)) then of_Z t 255 else x)).
Proof.
  split.
  - intros xs. eexists. split; [reflexivity|]. split; [apply length_map|].
    intros i x Hx. rewrite lookup_map, Hx. simpl. f_equal.
    destruct (Z.eqb_spec x (-1)) as [->|Hne].
    + reflexivity.
    + by rewrite bool_decide_eq_false_2.
  - intros t xs. eexists. split; [reflexivity|]. split; [apply length_map|].
    intros i x Hx. by rewrite lookup_map, Hx.
Qed.

Lemma new_from_fresh (f : ndarray → ndarray) (l : nat) (h : gmap nat ndarray) a :
  h !! l = Some a →
  ∃ l', new_from f l h = Some (l', <[l' := f a]> h) ∧ h !! l' = None.
Proof.
  intros Hl. unfold new_from, alloc. rewrite Hl.
  exists (fresh (dom h)). split; [reflexivity|].
  apply not_elem_of_dom, is_fresh.
Qed.

(** C10.  The remapping of a mask returns the location it was given, and
    the array at that location, the one the caller holds, has changed in
    place: its elements are the same in number, an element equal to -1 is
    now 255 and every other element is as it was, so an integer mask that
    held a -1 is no longer the array it was; no other location has changed.
    The normalization of an image returns a location that held nothing
    before, where the normalized image now is, and every array that
    existed, the argument among them, is as it was. *)
Theorem processing_and_aliasing (h : gmap nat ndarray) (l : nat) (a : ndarray) :
  h !! l = Some a →
  (∃ h',
     Sen1floods11Dataset.process_mask_obj l h = Some (l, h') ∧
     (∀ k, k ≠ l → h' !! k = h !! k) ∧
     h' !! l
     = Some (match a with
             | IntArray xs =>
                 IntArray (List.map (λ x, if bool_decide (x = -1)%Z then 255%Z else x) xs)
             | FloatArray t xs =>
                 FloatArray t (List.map (λ x, if SFeqb x (of_Z t (-1)) then of_Z t 255
                                              else x) xs)
             end) ∧
     (∀ xs, a = IntArray xs → (-1)%Z ∈ xs → h' !! l ≠ h !! l))
  ∧
  ∃ l' h',
    Sen1floods11Dataset.process_image_obj l h = Some (l', h') ∧
    l' ≠ l ∧ h !! l' = None ∧
    h' !! l' = Some (Sen1floods11Dataset.process_image a) ∧
    h' !! l = Some a ∧
    ∀ k, is_Some (h !! k) → h' !! k = h !! k.
Proof.
  intros Hl. split.
  - assert (Hint : ∀ xs,
              List.map (λ x, if Z.eqb x (-1) then 255%Z else x) xs
              = List.map (λ x, if bool_decide (x = -1)%Z then 255%Z else x) xs).
    { intros xs. apply map_ext. intros x.
      destruct (Z.eqb_spec x (-1)) as [->|Hne]; [reflexivity|].
      by rewrite bool_decide_eq_false_2. }
    eexists. split; [|split; [|split]].
    + unfold Sen1floods11Dataset.process_mask_obj, update_at. rewrite Hl. reflexivity.
    + intros k Hk. by rewrite lookup_insert_ne.
    + rewrite lookup_insert_eq. f_equal. destruct a as [t xs|xs]; simpl.
      * reflexivity.
      * by rewrite Hint.
    + intros xs -> Hin. rewrite lookup_insert_eq, Hl. simpl. rewrite Hint.
      intros [= Heq].
      apply list_elem_of_lookup in Hin as [i Hi].
      assert (Hat : List.map (λ x, if bool_decide (x = -1)%Z then 255%Z else x) xs !! i
                    = Some 255%Z) by (by rewrite lookup_map, Hi).
      rewrite Heq, Hi in Hat. discriminate.
  - unfold Sen1floods11Dataset.process_image_obj.
    destruct (new_from_fresh nan_to_num l h a Hl) as (l1 & -> & Hl1). simpl.
    set (h1 := <[l1 := nan_to_num a]> h).
    assert (H1 : h1 !! l1 = Some (nan_to_num a)) by apply lookup_insert_eq.
    destruct (new_from_fresh (λ a, clip a (-50) 1) l1 h1 _ H1) as (l2 & -> & Hl2). simpl.
    set (h2 := <[l2 := clip (nan_to_num a) (-50) 1]> h1).
    assert (H2 : h2 !! l2 = Some (clip (nan_to_num a) (-50) 1)) by apply lookup_insert_eq.
    destruct (new_from_fresh (λ a, add_scalar a 50) l2 h2 _ H2) as (l3 & -> & Hl3). simpl.
    set (h3 := <[l3 := add_scalar (clip (nan_to_num a) (-50) 1) 50]> h2).
    assert (H3 : h3 !! l3 = Some (add_scalar (clip (nan_to_num a) (-50) 1) 50))
      by apply lookup_insert_eq.
    destruct (new_from_fresh (λ a, div_scalar a 51) l3 h3 _ H3) as (l4 & -> & Hl4). simpl.
    eexists _, _. split; [reflexivity|].
    assert (Hold : ∀ k, is_Some (h !! k) →
                        k ≠ l1 ∧ k ≠ l2 ∧ k ≠ l3 ∧ k ≠ l4).
    { intros k [b Hk].
      assert (k ≠ l1) by congruence.
      assert (Hk1 : h1 !! k = Some b) by (unfold h1; by rewrite lookup_insert_ne).
      assert (k ≠ l2) by congruence.
      assert (Hk2 : h2 !! k = Some b) by (unfold h2; by rewrite lookup_insert_ne).
      assert (k ≠ l3) by congruence.
      assert (Hk3 : h3 !! k = Some b) by (unfold h3; by rewrite lookup_insert_ne).
      assert (k ≠ l4) by congruence.
      done. }
    assert (Hkeep : ∀ k, is_Some (h !! k) →
              <[l4 := div_scalar (add_scalar (clip (nan_to_num a) (-50) 1) 50) 51]> h3 !! k
              = h !! k).
    { intros k Hk. destruct (Hold k Hk) as (? & ? & ? & ?).
      unfold h3, h2, h1. by rewrite !lookup_insert_ne. }
    destruct (Hold l (ex_intro _ a Hl)) as (? & ? & ? & ?).
    split; [done|].
    assert (Hl4h : h !! l4 = None).
    { destruct (h !! l4) as [b|] eqn:Hb; [|done].
      destruct (Hold l4 (ex_intro _ b Hb)) as (_ & _ & _ & Hne). done. }
    split; [done|]. split; [apply lookup_insert_eq|].
    split; [rewrite Hkeep; eauto | exact Hkeep].
Qed.

(** *** Normalization of an image *)

Import Normalize.

Lemma SFcompare_antisym (a b : spec_float) :
  SFcompare b a = option_map CompOpp (SFcompare a b).
Proof.
  destruct a as [sa|sa| |sa ma ea], b as [sb|sb| |sb mb eb]; simpl;
    try reflexivity;
    try (destruct sa; reflexivity);
    try (destruct sb; reflexivity);
    try (destruct sa, sb; reflexivity).
  pose proof (Pos.compare_cont_antisym ma mb Eq) as Hm. simpl in Hm.
  destruct sa, sb; simpl; try reflexivity;
    rewrite (Z.compare_antisym ea eb); destruct (ea ?= eb)%Z; simpl;
    try reflexivity; rewrite <- Hm;
    by destruct (Pos.compare_cont Eq ma mb).
Qed.

Lemma SFleb_not_ltb (a b : spec_float) : SFleb a b = true → SFltb b a = false.
Proof.
  unfold SFleb, SFltb. rewrite (SFcompare_antisym a b).
  by destruct (SFcompare a b) as [[]|].
Qed.

Lemma SFltb_not_ltb (a b : spec_float) : SFltb a b = true → SFltb b a = false.
Proof.
  unfold SFltb. rewrite (SFcompare_antisym a b).
  by destruct (SFcompare a b) as [[]|].
Qed.

Lemma process_image_float (t : float_dtype) (xs : list spec_float) :
  Sen1floods11Dataset.process_image (FloatArray t xs)
  = FloatArray t (List.map (normalize_elem t) xs).
Proof.
  unfold Sen1floods11Dataset.process_image. simpl. f_equal.
  rewrite !List.map_map. reflexivity.
Qed.

(** At or below the lower bound. *)
Lemma normalize_low (t : float_dtype) (x : spec_float) :
  SFleb x (of_Z t (-50)) = true → normalize_elem t x = S754_zero false.
Proof.
  intros Hle. unfold normalize_elem, clip_elem.
  assert (Hmax : npy_max (nan_to_num_elem t x) (of_Z t (-50)) = of_Z t (-50)).
  { destruct x as [s|[]| |s m e]; try (destruct t; discriminate).
    - destruct t; reflexivity.
    - unfold npy_max, nan_to_num_elem, isnan.
      by rewrite (SFleb_not_ltb _ _ Hle). }
  rewrite Hmax. destruct t; reflexivity.
Qed.

(** At or above the upper bound. *)
Lemma normalize_high (t : float_dtype) (x : spec_float) :
  SFleb (of_Z t 1) x = true → normalize_elem t x = of_Z t 1.
Proof.
  intros Hle. unfold normalize_elem, clip_elem.
  assert (Hmin : npy_min (npy_max (nan_to_num_elem t x) (of_Z t (-50))) (of_Z t 1)
                 = of_Z t 1).
  { destruct x as [s|[]| |[] m e]; try (destruct t; discriminate).
    - destruct t; reflexivity.
    - assert (Hmax : npy_max (S754_finite false m e) (of_Z t (-50))
                     = S754_finite false m e) by (destruct t; reflexivity).
      unfold nan_to_num_elem. rewrite Hmax.
      unfold npy_min, isnan. by rewrite (SFleb_not_ltb _ _ Hle). }
  rewrite Hmin. destruct t; reflexivity.
Qed.

(** Strictly between the bounds. *)
Lemma normalize_inside (t : float_dtype) (x : spec_float) :
  SFltb (of_Z t (-50)) x = true → SFltb x (of_Z t 1) = true →
  normalize_elem t x = fdiv t (fadd t x (of_Z t 50)) (of_Z t 51).
Proof.
  intros Hlo Hhi. unfold normalize_elem, clip_elem.
  assert (Hx : nan_to_num_elem t x = x ∧ isnan x = false).
  { destruct x as [s|[]| |s m e]; try done; destruct t; discriminate. }
  destruct Hx as [-> Hnan].
  unfold npy_max. rewrite Hnan, Hlo.
  unfold npy_min. by rewrite Hnan, Hhi.
Qed.

(** C2 (amended).  The normalization works element by element.  NaN counts
    as zero and gives the quotient of 50 by 51; plus infinity counts as the
    largest finite number and gives 1; minus infinity counts as the
    smallest and gives 0.  An element at or below -50, as -100 is, gives 0;
    one at or above 1, as 10 is, gives 1; one in between gives
    [(x + 50) / 51]. *)
Theorem image_normalization (t : float_dtype) :
  (∀ xs, Sen1floods11Dataset.process_image (FloatArray t xs)
         = FloatArray t (List.map (normalize_elem t) xs))
  ∧ normalize_elem t S754_nan = fdiv t (of_Z t 50) (of_Z t 51)
  ∧ normalize_elem t (S754_infinity false) = of_Z t 1
  ∧ normalize_elem t (S754_infinity true) = S754_zero false
  ∧ normalize_elem t (of_Z t (-100)) = S754_zero false
  ∧ normalize_elem t (of_Z t 10) = of_Z t 1
  ∧ (∀ x, SFleb x (of_Z t (-50)) = true → normalize_elem t x = S754_zero false)
  ∧ (∀ x, SFleb (of_Z t 1) x = true → normalize_elem t x = of_Z t 1)
  ∧ (∀ x, SFltb (of_Z t (-50)) x = true → SFltb x (of_Z t 1) = true →
          normalize_elem t x = fdiv t (fadd t x (of_Z t 50)) (of_Z t 51)).
Proof.
  split; [apply process_image_float|].
  split; [destruct t; reflexivity|].
  split; [apply normalize_high; destruct t; reflexivity|].
  split; [apply normalize_low; destruct t; reflexivity|].
  split; [apply normalize_low; destruct t; reflexivity|].
  split; [apply normalize_high; destruct t; reflexivity|].
  split; [apply normalize_low|].
  split; [apply normalize_high | apply normalize_inside].
Qed.

(** ** Iteration over a manifest *)

Section Iteration.
Context `{Libraries}.

Lemma for_each_app {R A} (body : R → M A) (pre post : list R) (w : world) :
  for_each body (pre ++ post) w
  = match stopped (fst (for_each body pre w)) with
    | Some _ => for_each body pre w
    | None =>
        let rest := for_each body post (snd (for_each body pre w)) in
        ({| yielded := (yielded (fst (for_each body pre w)) ++ yielded (fst rest))%list;
            stopped := stopped (fst rest) |}, snd rest)
    end.
Proof.
  revert w. induction pre as [|r pre IH]; intros w; simpl.
  - by destruct (for_each body post w) as [[ys st] w'].
  - destruct (body r w) as [[a|e] w1]; [|reflexivity].
    rewrite IH.
    destruct (for_each body pre w1) as [[ys [e|]] w2]; simpl; [reflexivity|].
    by destruct (for_each body post w2) as [[zs st] w3].
Qed.

(** The row at which the body raises ends the iteration. *)
Lemma for_each_stops_at {R A} (body : R → M A) (pre post : list R) r w e w1 :
  stopped (fst (for_each body pre w)) = None →
  body r (snd (for_each body pre w)) = (Raise e, w1) →
  for_each body (pre ++ r :: post) w
  = ({| yielded := yielded (fst (for_each body pre w)); stopped := Some e |}, w1).
Proof.
  intros Hpre Hr. rewrite for_each_app, Hpre. simpl. rewrite Hr. simpl.
  by rewrite app_nil_r.
Qed.

Lemma for_each_count {R A} (body : R → M A) (rows : list R) (w : world) :
  stopped (fst (for_each body rows w)) = None →
  length (yielded (fst (for_each body rows w))) = length rows.
Proof.
  revert w. induction rows as [|r rows IH]; intros w; simpl; [done|].
  destruct (body r w) as [[a|e] w1]; [|discriminate].
  specialize (IH w1). destruct (for_each body rows w1) as [[ys st] w2].
  simpl in *. intros Hst. by rewrite IH.
Qed.

Lemma for_each_Forall {R A} (P : A → Prop) (body : R → M A) (rows : list R) (w : world) :
  (∀ r w a w', body r w = (Ok a, w') → P a) →
  Forall P (yielded (fst (for_each body rows w))).
Proof.
  intros Hbody. revert w. induction rows as [|r rows IH]; intros w; simpl.
  - constructor.
  - destruct (body r w) as [[a|e] w1] eqn:Hr; [|constructor].
    specialize (IH w1). destruct (for_each body rows w1) as [[ys st] w2].
    simpl in *. constructor; eauto.
Qed.

(** A body that returns on every row without touching the world. *)
Lemma for_each_completes {R A} (body : R → M A) (rows : list R) (w : world) :
  Forall (λ r, ∃ a, body r w = (Ok a, w)) rows →
  stopped (fst (for_each body rows w)) = None ∧ snd (for_each body rows w) = w.
Proof.
  induction 1 as [|r rows [a Hr] _ IH]; simpl; [done|].
  rewrite Hr. destruct (for_each body rows w) as [[ys st] w2]. simpl in *. done.
Qed.

End Iteration.

Section Manifests.
Context `{Libraries}.

Lemma call_runs_rows self shuffle stream stream_cache process_func w text :
  path_read (manifest_path self) w = (Ok text, w) →
  FloodDatasetGenerator.__call__ self shuffle stream stream_cache process_func w
  = for_each (FloodDatasetGenerator.example_of_row self stream stream_cache process_func)
      (rows_read shuffle text) w.
Proof.
  intros Hread. unfold FloodDatasetGenerator.__call__, generator.
  fold (manifest_path self). unfold bind. rewrite Hread. reflexivity.
Qed.

Lemma generate_runs_lines self csv_file w text :
  str_read csv_file w = (Ok text, w) →
  Sen1floods11Dataset._generate_examples self csv_file w
  = for_each (Sen1floods11Dataset.example_of_line self)
      (numbered 0 (Str.text_lines text)) w.
Proof.
  intros Hread. unfold Sen1floods11Dataset._generate_examples, generator.
  unfold bind. rewrite Hread. reflexivity.
Qed.

Lemma numbered_app first (pre post : list string) :
  numbered first (pre ++ post)
  = (numbered first pre ++ numbered (first + length pre) post)%list.
Proof.
  unfold numbered. rewrite imap_app. f_equal.
  apply imap_ext. intros i x _. simpl. f_equal. lia.
Qed.

(** A line that does not split into two fields cannot be unpacked. *)
Lemma bad_line_raises self idx line w :
  field_count line ≠ 2 →
  Sen1floods11Dataset.example_of_line self (idx, line) w = (Raise ValueError, w).
Proof.
  unfold field_count, Sen1floods11Dataset.example_of_line.
  destruct (Str.split _ _) as [|a [|b [|c l]]]; simpl; try done.
Qed.

(** A row without a second field cannot be indexed at 1, and one without
    any field not at 0. *)
Lemma short_row_raises self stream stream_cache process_func row w :
  length row < 2 →
  ∃ e w',
    FloodDatasetGenerator.example_of_row self stream stream_cache process_func row w
    = (Raise e, w') ∧
    (e = IndexError ∨
     ∃ image_name,
       row = [image_name] ∧
       fst (FloodDatasetGenerator._load_image self FloodDatasetGenerator.S1 image_name
              stream stream_cache w) = Raise e) ∧
    (row = [] → e = IndexError ∧ w' = w).
Proof.
  intros Hlen. unfold FloodDatasetGenerator.example_of_row.
  destruct row as [|f0 [|f1 row]]; simpl in Hlen; [| |lia].
  - exists IndexError, w. split; [reflexivity|]. split; [by left|done].
  - unfold bind at 1. unfold getitem at 1. simpl. unfold ret at 1.
    unfold bind at 1.
    destruct (FloodDatasetGenerator._load_image self _ f0 stream stream_cache w)
      as [[img|e] w1] eqn:Hload.
    + exists IndexError, w1. split; [reflexivity|]. split; [by left|done].
    + exists e, w1. split; [reflexivity|]. split; [|done].
      right. exists f0. by rewrite Hload.
Qed.

(** C3 (amended).  In the adapter of the framework a line whose number of
    fields is not two raises before anything of it is loaded: the iteration
    yields what the lines before it yield and stops there, unless it had
    stopped before.  In the standalone adapter a row with fewer than two
    fields stops the iteration in the same way, with the error of the
    failed indexing unless the image of its only field could not be loaded;
    a row with more than two fields is read as the row of its first two
    fields. *)
Theorem malformed_rows :
  (∀ self csv_file w text pre line post,
     str_read csv_file w = (Ok text, w) →
     Str.text_lines text = (pre ++ line :: post)%list →
     field_count line ≠ 2 →
     let before := for_each (Sen1floods11Dataset.example_of_line self) (numbered 0 pre) w in
     Sen1floods11Dataset._generate_examples self csv_file w
     = match stopped (fst before) with
       | Some _ => before
       | None =>
           ({| yielded := yielded (fst before); stopped := Some ValueError |}, snd before)
       end)
  ∧
  (∀ self shuffle stream stream_cache process_func w text pre row post,
     path_read (manifest_path self) w = (Ok text, w) →
     rows_read shuffle text = (pre ++ row :: post)%list →
     length row < 2 →
     let body := FloodDatasetGenerator.example_of_row self stream stream_cache process_func in
     let before := for_each body pre w in
     let run := FloodDatasetGenerator.__call__ self shuffle stream stream_cache process_func w in
     yielded (fst run) = yielded (fst before) ∧
     is_Some (stopped (fst run)) ∧
     (stopped (fst before) = None →
      ∃ e, stopped (fst run) = Some e ∧
           (e = IndexError ∨
            ∃ image_name,
              row = [image_name] ∧
              fst (FloodDatasetGenerator._load_image self FloodDatasetGenerator.S1
                     image_name stream stream_cache (snd before)) = Raise e)))
  ∧
  (∀ self stream stream_cache process_func image_name mask_name extra w,
     FloodDatasetGenerator.example_of_row self stream stream_cache process_func
       (image_name :: mask_name :: extra) w
     = FloodDatasetGenerator.example_of_row self stream stream_cache process_func
         [image_name; mask_name] w).
Proof.
  split; [|split].
  - intros self csv_file w text pre line post Hread Hlines Hbad before.
    rewrite (generate_runs_lines _ _ _ _ Hread), Hlines, numbered_app.
    destruct (stopped (fst before)) as [e|] eqn:Hst.
    + rewrite for_each_app. fold before. by rewrite Hst.
    + unfold numbered at 2. rewrite imap_cons.
      apply for_each_stops_at; [exact Hst|]. by apply bad_line_raises.
  - intros self shuffle stream stream_cache process_func w text pre row post
           Hread Hrows Hshort body before run.
    unfold run. rewrite (call_runs_rows _ _ _ _ _ _ _ Hread), Hrows. fold body.
    destruct (short_row_raises self stream stream_cache process_func row (snd before) Hshort)
      as (e & w' & Hrow & He & _).
    destruct (stopped (fst before)) as [e0|] eqn:Hst.
    + rewrite for_each_app. fold before. rewrite Hst.
      split; [reflexivity|]. split; [by rewrite Hst|]. discriminate.
    + rewrite (for_each_stops_at body pre post row w e w' Hst Hrow). simpl.
      split; [reflexivity|]. split; [by eexists|]. intros _. by exists e.
  - reflexivity.
Qed.

End Manifests.

Section Examples.
Context `{Libraries}.

Lemma rows_read_length shuffle text :
  length (rows_read shuffle text) = length (csv_reader text).
Proof.
  unfold rows_read. destruct shuffle; [|reflexivity].
  apply Permutation_length, random_shuffle_perm.
Qed.

Lemma example_keys_dom (image mask : ndarray) :
  dom ({[ "image" := image; "mask" := mask ]} : gmap string ndarray) = example_keys.
Proof.
  unfold example_keys. rewrite dom_insert_L, dom_singleton_L. reflexivity.
Qed.

Lemma example_of_row_keys self stream stream_cache row w d w' :
  FloodDatasetGenerator.example_of_row self stream stream_cache None row w = (Ok d, w') →
  dom d = example_keys.
Proof.
  unfold FloodDatasetGenerator.example_of_row, bind.
  destruct (getitem row 0 w) as [[f0|] w0]; [|discriminate].
  destruct (FloodDatasetGenerator._load_image self _ f0 _ _ w0) as [[img|] w1];
    [|discriminate].
  destruct (getitem row 1 w1) as [[f1|] w2]; [|discriminate].
  destruct (FloodDatasetGenerator._load_image self _ f1 _ _ w2) as [[msk|] w3];
    [|discriminate].
  unfold ret. intros [= <- _]. apply example_keys_dom.
Qed.

Lemma example_of_line_keys self numbered_line w ex w' :
  Sen1floods11Dataset.example_of_line self numbered_line w = (Ok ex, w') →
  fst ex = fst numbered_line ∧ dom (snd ex) = example_keys.
Proof.
  destruct numbered_line as [idx line].
  unfold Sen1floods11Dataset.example_of_line.
  destruct (Str.split _ _) as [|f0 [|f1 [|f2 l]]]; try discriminate.
  unfold bind.
  destruct (Sen1floods11Dataset.load_input self _ f0 _ w) as [[img|] w1];
    [|discriminate].
  destruct (Sen1floods11Dataset.load_input self _ f1 _ w1) as [[msk|] w2];
    [|discriminate].
  unfold ret. intros [= <- _]. split; [reflexivity|]. apply example_keys_dom.
Qed.

Lemma available_decoded w k :
  available w k →
  ∃ content img, node_at w k = Some (File content) ∧ decoded content = Ok img.
Proof.
  intros (content & Hnode & [[prof img] Hdec]).
  exists content, img. split; [done|]. unfold decoded. by rewrite Hdec.
Qed.

(** A row whose two rasters are at hand gives its example and leaves the
    world as it is. *)
Lemma row_at_hand_returns self stream stream_cache w row :
  row_at_hand self w row →
  ∃ d, FloodDatasetGenerator.example_of_row self stream stream_cache None row w = (Ok d, w).
Proof.
  intros (f0 & f1 & -> & Hi & Hm).
  apply available_decoded in Hi as (ci & img & Hi & Himg).
  apply available_decoded in Hm as (cm & msk & Hm & Hmsk).
  unfold FloodDatasetGenerator.example_of_row.
  unfold bind at 1. unfold getitem at 1. simpl. unfold ret at 1.
  unfold bind at 1.
  rewrite (load_image_local _ _ _ _ _ _ _ Hi), Himg.
  unfold bind at 1. unfold getitem at 1. simpl.
  unfold bind at 1.
  rewrite (load_image_local _ _ _ _ _ _ _ Hm), Hmsk.
  by eexists.
Qed.

Lemma line_at_hand_returns self idx w line :
  Sen1floods11Dataset.no_cache (Sen1floods11Dataset.config self) = false →
  line_at_hand self w line →
  ∃ ex, Sen1floods11Dataset.example_of_line self (idx, line) w = (Ok ex, w).
Proof.
  intros Hcache (f0 & f1 & Hsplit & Hdi & Hi & Hdm & Hm).
  apply available_decoded in Hi as (ci & img & Hi & Himg).
  apply available_decoded in Hm as (cm & msk & Hm & Hmsk).
  unfold Sen1floods11Dataset.example_of_line. rewrite Hsplit, Hcache.
  unfold bind at 1.
  rewrite (load_input_local _ _ _ _ _ Hdi Hi), Himg.
  unfold bind at 1.
  rewrite (load_input_local _ _ _ _ _ Hdm Hm), Hmsk.
  by eexists.
Qed.

(** C6.  The length of a generator is the number of rows of its manifest.
    An iteration that comes to its end without an exception has yielded one
    example per row, each with the keys [image] and [mask] when no
    [process_func] replaces it; and the iteration does come to its end when
    each row has two fields whose rasters are at hand in the local
    directory.  The same holds, line by line, for the adapter of the
    framework. *)
Theorem length_and_examples :
  (∀ self w text,
     path_read (manifest_path self) w = (Ok text, w) →
     FloodDatasetGenerator.__len__ self w = (Ok (length (csv_reader text)), w))
  ∧
  (∀ self shuffle stream stream_cache process_func w text,
     path_read (manifest_path self) w = (Ok text, w) →
     let run := FloodDatasetGenerator.__call__ self shuffle stream stream_cache process_func w in
     stopped (fst run) = None →
     length (yielded (fst run)) = length (csv_reader text) ∧
     (process_func = None → Forall (λ d, dom d = example_keys) (yielded (fst run))))
  ∧
  (∀ self shuffle stream stream_cache w text,
     path_read (manifest_path self) w = (Ok text, w) →
     Forall (row_at_hand self w) (csv_reader text) →
     stopped (fst (FloodDatasetGenerator.__call__ self shuffle stream stream_cache None w))
     = None)
  ∧
  (∀ self csv_file w text,
     str_read csv_file w = (Ok text, w) →
     let run := Sen1floods11Dataset._generate_examples self csv_file w in
     stopped (fst run) = None →
     length (yielded (fst run)) = length (Str.text_lines text) ∧
     Forall (λ ex, dom (snd ex) = example_keys) (yielded (fst run)))
  ∧
  (∀ self csv_file w text,
     Sen1floods11Dataset.no_cache (Sen1floods11Dataset.config self) = false →
     str_read csv_file w = (Ok text, w) →
     Forall (line_at_hand self w) (Str.text_lines text) →
     stopped (fst (Sen1floods11Dataset._generate_examples self csv_file w)) = None).
Proof.
  split; [|split; [|split; [|split]]].
  - intros self w text Hread. unfold FloodDatasetGenerator.__len__.
    fold (manifest_path self). unfold bind. by rewrite Hread.
  - intros self shuffle stream stream_cache process_func w text Hread run Hend.
    unfold run in *. rewrite (call_runs_rows _ _ _ _ _ _ _ Hread) in *.
    split.
    + rewrite (for_each_count _ _ _ Hend). apply rows_read_length.
    + intros ->. apply for_each_Forall.
      intros r w0 d w1. apply example_of_row_keys.
  - intros self shuffle stream stream_cache w text Hread Hrows.
    rewrite (call_runs_rows _ _ _ _ _ _ _ Hread).
    apply for_each_completes.
    assert (Hall : Forall (row_at_hand self w) (rows_read shuffle text)).
    { unfold rows_read. destruct shuffle; [|exact Hrows].
      eapply Permutation_Forall; [|exact Hrows].
      apply Permutation_sym, random_shuffle_perm. }
    eapply Forall_impl; [exact Hall|].
    intros row. apply row_at_hand_returns.
  - intros self csv_file w text Hread run Hend.
    unfold run in *. rewrite (generate_runs_lines _ _ _ _ Hread) in *.
    split.
    + rewrite (for_each_count _ _ _ Hend). unfold numbered. apply length_imap.
    + apply for_each_Forall.
      intros r w0 ex w1 Hex. by apply example_of_line_keys in Hex as [_ ?].
  - intros self csv_file w text Hcache Hread Hlines.
    rewrite (generate_runs_lines _ _ _ _ Hread).
    apply for_each_completes.
    generalize 0 as first.
    induction Hlines as [|line lines Hline _ IH]; intros first.
    + constructor.
    + unfold numbered. rewrite imap_cons. constructor.
      * by apply line_at_hand_returns.
      * specialize (IH (S first)). unfold numbered in IH.
        erewrite imap_ext; [exact IH|]. intros i x _. simpl. f_equal. lia.
Qed.

End Examples.

(** * The statements at work on the small instance *)

Import Sample.

Lemma run_eta {A B} (x : A * B) (a : A) : fst x = a → x = (a, snd x).
Proof. intros <-. by destruct x. Qed.

Lemma path_read_file p w content :
  node_at w (key_of w p) = Some (File content) → path_read p w = (Ok content, w).
Proof. apply read_file_file. Qed.

Lemma str_read_file s w content :
  dir_only s = false →
  node_at w (str_key w s) = Some (File content) →
  str_read s w = (Ok content, w).
Proof.
  intros Hd Hnode. unfold str_read. rewrite Hd. simpl. by apply read_file_file.
Qed.

Lemma local_cache_precedence_witness :
  FloodDatasetGenerator._load_image (gen "train_data.csv") FloodDatasetGenerator.S1
    "a.tif" true true world0 = (Ok image0, world0)
  ∧
  Sen1floods11Dataset.load_input (builder false) Sen1floods11Dataset.S1
    "a.tif" false world0 = (Ok image0, world0).
Proof.
  assert (Hd : decoded img_raw = Ok image0) by (vm_compute; reflexivity).
  rewrite <- Hd. split.
  - apply (proj1 local_cache_precedence (gen "train_data.csv") FloodDatasetGenerator.S1
             "a.tif" true true world0 img_raw).
    vm_compute. reflexivity.
  - apply (proj2 local_cache_precedence (builder false) Sen1floods11Dataset.S1
             "a.tif" world0 img_raw).
    + vm_compute. reflexivity.
    + vm_compute. reflexivity.
Defined.

(** C1, as stated, fails: with [no_cache] on, the adapter of the framework
    reads from the remote store although the local file is there. *)
Lemma local_cache_bypassed_by_no_cache :
  isfile_str world0 (local_path_str (builder true) Sen1floods11Dataset.S1 "a.tif") = true
  ∧
  fetched (snd (Sen1floods11Dataset.load_input (builder true) Sen1floods11Dataset.S1
                  "a.tif" true world0))
  = ["/v1.1/data/flood_events/HandLabeled/S1Hand/a.tif"]
  ∧ fetched world0 = [].
Proof.
  split; [|split]; vm_compute; reflexivity.
Qed.

Lemma image_normalization_witness :
  SFltb (of_Z float32 (-50)) (of_Z float32 (-3)) = true ∧
  SFltb (of_Z float32 (-3)) (of_Z float32 1) = true ∧
  normalize_elem float32 (of_Z float32 (-3))
  = fdiv float32 (fadd float32 (of_Z float32 (-3)) (of_Z float32 50)) (of_Z float32 51) ∧
  normalize_elem float32 (of_Z float32 (-60)) = S754_zero false ∧
  normalize_elem float32 (of_Z float32 7) = of_Z float32 1.
Proof.
  destruct (image_normalization float32)
    as (_ & _ & _ & _ & _ & _ & Hlow & Hhigh & Hin).
  split; [reflexivity|]. split; [reflexivity|].
  split; [apply Hin; reflexivity|].
  split; [apply Hlow; reflexivity | apply Hhigh; reflexivity].
Defined.

(** C2, as stated, fails: plus infinity does not count as zero, it is
    normalized to 1 and not to what zero is normalized to. *)
Lemma infinity_not_normalized_as_zero :
  Sen1floods11Dataset.process_image (FloatArray float32 [S754_infinity false])
  = FloatArray float32 [of_Z float32 1]
  ∧
  Sen1floods11Dataset.process_image (FloatArray float32 [S754_infinity false])
  ≠ FloatArray float32 (List.map (normalize_as_specified float32) [S754_infinity false]).
Proof.
  split; [reflexivity|]. vm_compute. discriminate.
Qed.

Lemma malformed_rows_witness :
  Sen1floods11Dataset._generate_examples (builder false) "/data/wide.csv" world0
  = ({| yielded := []; stopped := Some ValueError |}, world0)
  ∧
  (yielded (fst (FloodDatasetGenerator.__call__ (gen "short.csv") false false true None
                   world0)) = [] ∧
   is_Some (stopped (fst (FloodDatasetGenerator.__call__ (gen "short.csv") false false true
                            None world0))))
  ∧
  FloodDatasetGenerator.example_of_row (gen "wide.csv") false true None
    ["a.tif"; "a_label.tif"; "extra"] world0
  = FloodDatasetGenerator.example_of_row (gen "wide.csv") false true None
      ["a.tif"; "a_label.tif"] world0.
Proof.
  destruct malformed_rows as (Hline & Hshort & Hwide).
  split; [|split].
  - apply (Hline (builder false) "/data/wide.csv" world0
             "a.tif,a_label.tif,extra
" [] "a.tif,a_label.tif,extra
" []).
    + apply str_read_file; vm_compute; reflexivity.
    + vm_compute. reflexivity.
    + vm_compute. discriminate.
  - destruct (Hshort (gen "short.csv") false false true None world0
                "a.tif
" [] ["a.tif"] []) as (Hy & Hs & _).
    + apply path_read_file. vm_compute. reflexivity.
    + vm_compute. reflexivity.
    + simpl. lia.
    + split; [exact Hy | exact Hs].
  - apply Hwide.
Defined.

(** C3, as stated, fails: the standalone adapter reads a row of three
    fields as a row of its first two and yields its example. *)
Lemma row_of_three_fields_is_accepted :
  csv_reader "a.tif,a_label.tif,extra
" = [["a.tif"; "a_label.tif"; "extra"]]
  ∧
  stopped (fst (FloodDatasetGenerator.__call__ (gen "wide.csv") false false true None
                  world0)) = None
  ∧
  List.map (λ d, (d !! "image", d !! "mask"))
    (yielded (fst (FloodDatasetGenerator.__call__ (gen "wide.csv") false false true None
                     world0)))
  = [(Some image0, Some mask0)].
Proof.
  split; [|split]; vm_compute; reflexivity.
Qed.

Lemma caching_is_idempotent_witness :
  (fetched after_fetch = ["/v1.1/data/flood_events/HandLabeled/S1Hand/b.tif"] ∧
   FloodDatasetGenerator._load_image (gen "train_data.csv") FloodDatasetGenerator.S1
     "b.tif" true true after_fetch = (Ok image0, after_fetch))
  ∧
  (fetched after_fetch_builder = ["/v1.1/data/flood_events/HandLabeled/S1Hand/b.tif"] ∧
   ∃ content,
     node_at after_fetch_builder
       (str_key after_fetch_builder
          (local_path_str (builder false) Sen1floods11Dataset.S1 "b.tif"))
     = Some (File content) ∧
     Sen1floods11Dataset.load_input (builder false) Sen1floods11Dataset.S1 "b.tif" false
       after_fetch_builder = (decoded content, after_fetch_builder)).
Proof.
  destruct caching_is_idempotent as [Hgen Hbuilder].
  assert (Hlog : (fetched world0 ++ [dvc_path FloodDatasetGenerator.S1 "b.tif"])%list
                 = ["/v1.1/data/flood_events/HandLabeled/S1Hand/b.tif"])
    by (vm_compute; reflexivity).
  assert (Hlog' : (fetched world0 ++ [dvc_path_str Sen1floods11Dataset.S1 "b.tif"])%list
                  = ["/v1.1/data/flood_events/HandLabeled/S1Hand/b.tif"])
    by (vm_compute; reflexivity).
  rewrite <- Hlog at 1. rewrite <- Hlog'. split.
  - apply (Hgen (gen "train_data.csv") FloodDatasetGenerator.S1 "b.tif" world0
             image0 after_fetch).
    + vm_compute. reflexivity.
    + unfold after_fetch, after_fetch_builder. apply run_eta. vm_compute. reflexivity.
  - apply (Hbuilder (builder false) Sen1floods11Dataset.S1 "b.tif" world0
             image0 after_fetch_builder).
    + vm_compute. reflexivity.
    + unfold after_fetch, after_fetch_builder. apply run_eta. vm_compute. reflexivity.
Defined.

Lemma missing_file_without_remote_witness :
  is_file world0
    (key_of world0 (local_path (gen "train_data.csv") FloodDatasetGenerator.S1 "b.tif"))
  = false
  ∧
  FloodDatasetGenerator._load_image (gen "train_data.csv") FloodDatasetGenerator.S1
    "b.tif" false true world0
  = (Raise (RuntimeError
       "File not accessible: /data/v1.1/data/flood_events/HandLabeled/S1Hand/b.tif"),
     world0).
Proof.
  assert (Hmsg : "File not accessible: "
                 ++ to_str (local_path (gen "train_data.csv") FloodDatasetGenerator.S1 "b.tif")
                 = "File not accessible: /data/v1.1/data/flood_events/HandLabeled/S1Hand/b.tif")
    by (vm_compute; reflexivity).
  rewrite <- Hmsg.
  split; [vm_compute; reflexivity|].
  apply (missing_file_without_remote (gen "train_data.csv") FloodDatasetGenerator.S1
           "b.tif" true world0).
  vm_compute. reflexivity.
Defined.

Lemma length_and_examples_witness :
  FloodDatasetGenerator.__len__ (gen "two.csv") world0 = (Ok 2, world0)
  ∧
  (stopped (fst (FloodDatasetGenerator.__call__ (gen "train_data.csv") true false true
                   None world0)) = None ∧
   length (yielded (fst (FloodDatasetGenerator.__call__ (gen "train_data.csv") true false
                           true None world0))) = 1)
  ∧
  (stopped (fst (Sen1floods11Dataset._generate_examples (builder false)
                   "/data/train_data.csv" world0)) = None ∧
   length (yielded (fst (Sen1floods11Dataset._generate_examples (builder false)
                           "/data/train_data.csv" world0))) = 1).
Proof.
  destruct length_and_examples as (Hlen & Hcount & Hend & Hcount' & Hend').
  assert (Hi : available world0
                 (key_of world0 (local_path (gen "train_data.csv")
                                   FloodDatasetGenerator.S1 "a.tif"))).
  { exists img_raw. split; [vm_compute; reflexivity|].
    exists ("f", image0). vm_compute. reflexivity. }
  assert (Hm : available world0
                 (key_of world0 (local_path (gen "train_data.csv")
                                   FloodDatasetGenerator.LABELS "a_label.tif"))).
  { exists msk_raw. split; [vm_compute; reflexivity|].
    exists ("i", mask0). vm_compute. reflexivity. }
  assert (Hi' : available world0
                  (str_key world0 (local_path_str (builder false)
                                     Sen1floods11Dataset.S1 "a.tif"))).
  { exists img_raw. split; [vm_compute; reflexivity|].
    exists ("f", image0). vm_compute. reflexivity. }
  assert (Hm' : available world0
                  (str_key world0 (local_path_str (builder false)
                                     Sen1floods11Dataset.LABELS "a_label.tif"))).
  { exists msk_raw. split; [vm_compute; reflexivity|].
    exists ("i", mask0). vm_compute. reflexivity. }
  assert (Hrow : row_at_hand (gen "train_data.csv") world0 ["a.tif"; "a_label.tif"]).
  { exists "a.tif", "a_label.tif". split; [reflexivity|]. split; assumption. }
  assert (Hline : line_at_hand (builder false) world0 "a.tif,a_label.tif
").
  { exists "a.tif", "a_label.tif". split; [vm_compute; reflexivity|].
    split; [vm_compute; reflexivity|]. split; [assumption|].
    split; [vm_compute; reflexivity | assumption]. }
  assert (Hread : path_read (manifest_path (gen "train_data.csv")) world0
                  = (Ok "a.tif,a_label.tif
", world0)) by (apply path_read_file; vm_compute; reflexivity).
  assert (Hread' : str_read "/data/train_data.csv" world0
                   = (Ok "a.tif,a_label.tif
", world0)) by (apply str_read_file; vm_compute; reflexivity).
  assert (Hrows : csv_reader "a.tif,a_label.tif
" = [["a.tif"; "a_label.tif"]]) by (vm_compute; reflexivity).
  assert (Hlines : Str.text_lines "a.tif,a_label.tif
" = ["a.tif,a_label.tif
"]) by (vm_compute; reflexivity).
  split; [|split].
  - assert (Htwo : length (csv_reader "a.tif,a_label.tif
b.tif,b_label.tif
") = 2) by (vm_compute; reflexivity).
    rewrite <- Htwo.
    apply (Hlen (gen "two.csv") world0). apply path_read_file. vm_compute. reflexivity.
  - assert (Hstop : stopped (fst (FloodDatasetGenerator.__call__ (gen "train_data.csv")
                                    true false true None world0)) = None).
    { apply (Hend (gen "train_data.csv") true false true world0 _ Hread).
      rewrite Hrows. repeat constructor. exact Hrow. }
    split; [exact Hstop|].
    destruct (Hcount (gen "train_data.csv") true false true None world0 _ Hread Hstop)
      as [Hn _].
    rewrite Hn, Hrows. reflexivity.
  - assert (Hstop : stopped (fst (Sen1floods11Dataset._generate_examples (builder false)
                                    "/data/train_data.csv" world0)) = None).
    { apply (Hend' (builder false) "/data/train_data.csv" world0 _ eq_refl Hread').
      rewrite Hlines. repeat constructor. exact Hline. }
    split; [exact Hstop|].
    destruct (Hcount' (builder false) "/data/train_data.csv" world0 _ Hread' Hstop)
      as [Hn _].
    rewrite Hn, Hlines. reflexivity.
Defined.

Lemma cache_file_content_witness :
  is_dir world_bare S1_dir = false
  ∧
  (∃ w',
     Sen1floods11Dataset.load_input (builder false) Sen1floods11Dataset.S1 "c.tif" false
       world_bare = (Ok image0, w') ∧
     node_at w' (S1_dir ++ ["c.tif"])%list = Some (File img_raw) ∧
     is_dir w' S1_dir = true)
  ∧
  (∃ w',
     FloodDatasetGenerator._load_image (gen "train_data.csv") FloodDatasetGenerator.S1
       "c.tif" true true world_bare = (Ok image0, w') ∧
     node_at w' (S1_dir ++ ["c.tif"])%list = Some (File img_raw_upper) ∧
     is_dir w' S1_dir = true)
  ∧
  img_raw ≠ img_raw_upper.
Proof.
  destruct cache_file_content as (Hbuilder & Hgen & _ & _).
  assert (Hself : S1_dir ∈ prefixes S1_dir) by (apply prefixes_self; discriminate).
  split; [vm_compute; reflexivity|]. split; [|split].
  - destruct (Hbuilder (builder false) Sen1floods11Dataset.S1 "c.tif" world_bare
                img_raw_upper "f" image0) as (w' & Hrun & Hnode & Hdirs).
    + vm_compute. reflexivity.
    + vm_compute. discriminate.
    + vm_compute. discriminate.
    + vm_compute. reflexivity.
    + vm_compute. reflexivity.
    + vm_compute. reflexivity.
    + vm_compute. reflexivity.
    + vm_compute. reflexivity.
    + exists w'. split; [exact Hrun|]. split; [exact Hnode|].
      rewrite Forall_forall in Hdirs. exact (Hdirs S1_dir Hself).
  - destruct (Hgen (gen "train_data.csv") FloodDatasetGenerator.S1 "c.tif" world_bare
                img_raw_upper "f" image0) as (w' & Hrun & Hnode & Hdirs).
    + vm_compute. discriminate.
    + vm_compute. reflexivity.
    + vm_compute. reflexivity.
    + vm_compute. reflexivity.
    + vm_compute. reflexivity.
    + exists w'. split; [exact Hrun|]. split; [exact Hnode|].
      rewrite Forall_forall in Hdirs. exact (Hdirs S1_dir Hself).
  - vm_compute. discriminate.
Defined.

Lemma mask_remapping_witness :
  Sen1floods11Dataset.process_mask (IntArray [-1; 0; 1; 255]%Z)
  = IntArray [255; 0; 1; 255]%Z
  ∧
  ∃ ys, Sen1floods11Dataset.process_mask (IntArray [-1; 0; 1; 255]%Z) = IntArray ys ∧
        ys !! 0 = Some 255%Z ∧ ys !! 1 = Some 0%Z.
Proof.
  split; [reflexivity|].
  destruct (proj1 mask_remapping [-1; 0; 1; 255]%Z) as (ys & Hys & _ & Hat).
  exists ys. split; [exact Hys|]. split.
  - apply (Hat 0 (-1)%Z). reflexivity.
  - apply (Hat 1 0%Z). reflexivity.
Defined.

Lemma unknown_split_is_its_own_manifest_witness :
  DatasetLoader.SPLITS !! "holdout.csv" = None
  ∧
  DatasetLoader.__getitem__ {| DatasetLoader.context := parse "/data" |} "holdout.csv"
  = gen "holdout.csv".
Proof.
  split; [vm_compute; reflexivity|].
  apply (unknown_split_is_its_own_manifest
           {| DatasetLoader.context := parse "/data" |} "holdout.csv").
  vm_compute. reflexivity.
Defined.

Lemma processing_and_aliasing_witness :
  heap0 !! 0 = Some (IntArray [-1; 0; 1]%Z)
  ∧
  (∃ h',
     Sen1floods11Dataset.process_mask_obj 0 heap0 = Some (0, h') ∧
     h' !! 0 = Some (IntArray [255; 0; 1]%Z) ∧
     h' !! 0 ≠ heap0 !! 0)
  ∧
  ∃ l' h',
    Sen1floods11Dataset.process_image_obj 0 heap0 = Some (l', h') ∧
    l' ≠ 0 ∧ h' !! 0 = Some mask0.
Proof.
  assert (H0 : heap0 !! 0 = Some mask0) by reflexivity.
  destruct (processing_and_aliasing heap0 0 mask0 H0)
    as ((hm & Hmask & _ & Hat & Hchanged)
        & l' & h' & Himage & Hne & _ & _ & Hkeep & _).
  split; [exact H0|]. split.
  - exists hm. split; [exact Hmask|]. split; [exact Hat|].
    apply (Hchanged [-1; 0; 1]%Z); [reflexivity|]. constructor.
  - exists l', h'. done.
Defined.

(** * How resolution and iteration change the world *)

Import Frame.

Lemma evolves_refl w : evolves w w.
Proof. split; auto. exists []. by rewrite app_nil_r. Qed.

Lemma evolves_trans w1 w2 w3 : evolves w1 w2 → evolves w2 w3 → evolves w1 w3.
Proof.
  intros [Hc Hr Hf Hd [l Hl]] [Hc' Hr' Hf' Hd' [l' Hl']]. split.
  - congruence.
  - congruence.
  - auto.
  - auto.
  - exists (l ++ l')%list. by rewrite Hl', Hl, app_assoc.
Qed.

Lemma log_call_evolves path w : evolves w (log_call path w).
Proof. split; auto. by exists [path]. Qed.

(** Making directories touches no file. *)
Lemma mkdir_p_same_files s k w r w' :
  mkdir_p s k w = (r, w') → ∀ k', is_file w' k' = is_file w k'.
Proof.
  unfold mkdir_p. destruct (existsb (is_file w) (prefixes k)) eqn:Hway.
  - by intros [= _ <-].
  - intros [= _ <-] k'. unfold is_file.
    destruct k' as [|x k']; [reflexivity|].
    rewrite node_at_set_fs by done. rewrite lookup_make_dirs.
    destruct (decide ((x :: k') ∈ prefixes k)) as [Hin|Hin].
    + rewrite bool_decide_eq_true_2 by done.
      assert (Hnf : is_file w (x :: k') = false).
      { destruct (is_file w (x :: k')) eqn:Hf; [|done].
        assert (existsb (is_file w) (prefixes k) = true); [|congruence].
        apply existsb_exists. exists (x :: k'). split; [|done].
        by apply list_elem_of_In. }
      unfold is_file in Hnf. simpl in *. by rewrite Hnf.
    + by rewrite bool_decide_eq_false_2.
Qed.

Lemma mkdir_p_evolves s k w r w' : mkdir_p s k w = (r, w') → evolves w w'.
Proof.
  intros Hmk. pose proof (mkdir_p_same_files _ _ _ _ _ Hmk) as Hsame.
  unfold mkdir_p in Hmk.
  destruct (existsb (is_file w) (prefixes k)) eqn:Hway.
  - injection Hmk as _ <-. apply evolves_refl.
  - injection Hmk as _ <-. split; try reflexivity.
    + intros k' c Hk'.
      assert (Hf : is_file w k' = true) by (apply is_file_node; eauto).
      rewrite <- Hsame in Hf. apply is_file_node in Hf as [c' Hc'].
      rewrite Hc'. do 2 f_equal.
      destruct k' as [|x k']; [discriminate|].
      rewrite node_at_set_fs in Hc' by done. rewrite lookup_make_dirs in Hc'.
      destruct (bool_decide _); [discriminate|]. simpl in Hk'. congruence.
    + intros k' Hd. unfold is_dir in *.
      destruct k' as [|x k']; [reflexivity|].
      rewrite node_at_set_fs by done. rewrite lookup_make_dirs.
      destruct (bool_decide _); [reflexivity|]. exact Hd.
    + exists []. by rewrite app_nil_r.
Qed.

(** Writing where no file is changes no file that was there. *)
Lemma write_file_evolves s k content w r w' :
  is_file w k = false → write_file s k content w = (r, w') → evolves w w'.
Proof.
  intros Hnf. unfold write_file.
  destruct (is_dir w k) eqn:Hd; [intros [= _ <-]; apply evolves_refl|].
  destruct (is_dir w (removelast k)); simpl; [|intros [= _ <-]; apply evolves_refl].
  intros [= _ <-]. split; try reflexivity.
  - intros k' c Hk'. destruct k' as [|x k']; [discriminate|].
    rewrite node_at_set_fs by done. rewrite lookup_insert_ne; [exact Hk'|].
    intros ->. unfold is_file in Hnf. by rewrite Hk' in Hnf.
  - intros k' Hk'. unfold is_dir in *. destruct k' as [|x k']; [reflexivity|].
    rewrite node_at_set_fs by done. rewrite lookup_insert_ne; [exact Hk'|].
    intros ->. simpl in *. congruence.
  - exists []. by rewrite app_nil_r.
Qed.

Section ResolutionFrame.
Context `{Libraries}.

(** After the directories are made there is still no file at a key where
    there was none. *)
Lemma mkdir_p_keeps_absent s k w r w' k' :
  mkdir_p s k w = (r, w') → is_file w k' = false → is_file w' k' = false.
Proof. intros Hmk Hf. by rewrite (mkdir_p_same_files _ _ _ _ _ Hmk). Qed.

Lemma mkdir_p_key s k w r w' p : mkdir_p s k w = (r, w') → key_of w' p = key_of w p.
Proof. intros Hmk. unfold key_of. by rewrite (evolves_cwd _ _ (mkdir_p_evolves _ _ _ _ _ Hmk)). Qed.

(** Whatever the flags and the outcome, a resolution by the standalone
    adapter only adds to the world. *)
Lemma load_image_evolves self image_dir image_name stream stream_cache w r w' :
  FloodDatasetGenerator._load_image self image_dir image_name stream stream_cache w
  = (r, w') →
  evolves w w'.
Proof.
  unfold FloodDatasetGenerator._load_image.
  fold (local_path self image_dir image_name). fold (dvc_path image_dir image_name).
  set (p := local_path self image_dir image_name).
  set (dvc := dvc_path image_dir image_name).
  unfold bind at 1. unfold path_is_file.
  destruct (is_file w (key_of w p)) eqn:Hfile.
  - unfold bind, path_read, read_file, rasterio_open, ret, raise.
    destruct (node_at w (key_of w p)) as [[c|]|];
      [destruct (rio_read c)| |]; intros [= _ <-]; apply evolves_refl.
  - destruct stream; [|intros [= _ <-]; apply evolves_refl].
    unfold bind at 1. unfold read_bytes.
    destruct (remote w !! dvc) as [raw|];
      [|intros [= _ <-]; apply log_call_evolves].
    set (w0 := log_call dvc w).
    assert (H0 : evolves w w0) by apply log_call_evolves.
    unfold bind at 1. unfold rasterio_open.
    destruct (rio_read raw) as [[prof img]|];
      [|unfold raise; intros [= _ <-]; exact H0].
    unfold ret at 1. simpl snd.
    destruct stream_cache; [|unfold bind, ret; intros [= _ <-]; exact H0].
    unfold bind at 1. unfold bind at 1. unfold path_mkdir_parents.
    destruct (mkdir_p (to_str (parent p)) (key_of w0 (parent p)) w0)
      as [[[]|e] w1] eqn:Hmk.
    + unfold path_write_bytes.
      rewrite (mkdir_p_key _ _ _ _ _ p Hmk).
      change (key_of w0 p) with (key_of w p).
      destruct (write_file (to_str p) (key_of w p) raw w1) as [[[]|e] w2] eqn:Hwr;
        unfold ret; intros [= _ <-];
        (eapply evolves_trans; [exact H0|]);
        (eapply evolves_trans; [exact (mkdir_p_evolves _ _ _ _ _ Hmk)|]);
        (eapply write_file_evolves; [|exact Hwr]);
        (eapply mkdir_p_keeps_absent; [exact Hmk | exact Hfile]).
    + intros [= _ <-]. eapply evolves_trans; [exact H0|].
      exact (mkdir_p_evolves _ _ _ _ _ Hmk).
Qed.

(** The same for the adapter of the framework. *)
Lemma load_input_evolves self input_path image_name no_cache w r w' :
  Sen1floods11Dataset.load_input self input_path image_name no_cache w = (r, w') →
  evolves w w'.
Proof.
  unfold Sen1floods11Dataset.load_input.
  fold (local_path_str self input_path image_name).
  fold (dvc_path_str input_path image_name).
  set (p := local_path_str self input_path image_name).
  set (dvc := dvc_path_str input_path image_name).
  destruct no_cache.
  - unfold bind at 1. unfold read_bytes.
    destruct (remote w !! dvc) as [raw|];
      [|intros [= _ <-]; apply log_call_evolves].
    unfold bind, rasterio_open, ret, raise.
    destruct (rio_read raw); intros [= _ <-]; apply log_call_evolves.
  - unfold bind at 1. unfold os_path_isfile.
    destruct (isfile_str w p) eqn:Hfile; simpl.
    + unfold bind, str_read, read_file, rasterio_open, ret, raise.
      destruct (dir_only p && is_file w (str_key w p));
        [intros [= _ <-]; apply evolves_refl|].
      destruct (node_at w (str_key w p)) as [[c|]|];
        [destruct (rio_read c)| |]; intros [= _ <-]; apply evolves_refl.
    + unfold bind at 1. unfold os_makedirs.
      destruct (bool_decide (dirname p = ""));
        [intros [= _ <-]; apply evolves_refl|].
      destruct (_ && _); [intros [= _ <-]; apply evolves_refl|].
      destruct (mkdir_p (dirname p) (str_key w (dirname p)) w)
        as [[[]|e] w1] eqn:Hmk;
        [|intros [= _ <-]; exact (mkdir_p_evolves _ _ _ _ _ Hmk)].
      pose proof (mkdir_p_evolves _ _ _ _ _ Hmk) as H1.
      unfold bind at 1. unfold read_bytes.
      destruct (remote w1 !! dvc) as [raw|];
        [|intros [= _ <-]; eapply evolves_trans; [exact H1 | apply log_call_evolves]].
      set (w2 := log_call dvc w1).
      assert (H2 : evolves w w2)
        by (eapply evolves_trans; [exact H1 | apply log_call_evolves]).
      unfold bind at 1. unfold rasterio_open.
      destruct (rio_read raw) as [[prof img]|];
        [|unfold raise; intros [= _ <-]; exact H2].
      unfold ret at 1. simpl fst. simpl snd.
      unfold bind at 1. unfold str_write.
      destruct (bool_decide (p = "")); [intros [= _ <-]; exact H2|].
      destruct (dir_only p) eqn:Hd; [intros [= _ <-]; exact H2|].
      assert (Hnf : is_file w2 (str_key w2 p) = false).
      { unfold isfile_str in Hfile. rewrite Hd in Hfile. simpl in Hfile.
        change (is_file w2 (str_key w2 p)) with (is_file w1 (str_key w1 p)).
        unfold str_key. rewrite (mkdir_p_key _ _ _ _ _ _ Hmk).
        eapply mkdir_p_keeps_absent; [exact Hmk | exact Hfile]. }
      destruct (write_file p (str_key w2 p) (rio_write prof img) w2)
        as [[[]|e] w3] eqn:Hwr;
        unfold ret; intros [= _ <-];
        (eapply evolves_trans; [exact H2|]);
        exact (write_file_evolves _ _ _ _ _ _ Hnf Hwr).
Qed.

End ResolutionFrame.

Section IterationFrame.
Context `{Libraries}.

(** A property of worlds that every step of the body keeps is kept by the
    iteration. *)
Lemma for_each_invariant {R A} (P : world → world → Prop) (body : R → M A)
    (rows : list R) (w : world) :
  (∀ w, P w w) → (∀ w1 w2 w3, P w1 w2 → P w2 w3 → P w1 w3) →
  (∀ r w, P w (snd (body r w))) →
  P w (snd (for_each body rows w)).
Proof.
  intros Hrefl Htrans Hbody. revert w.
  induction rows as [|r rows IH]; intros w; simpl; [apply Hrefl|].
  pose proof (Hbody r w) as Hr.
  destruct (body r w) as [[a|e] w1]; simpl in *; [|exact Hr].
  specialize (IH w1). destruct (for_each body rows w1) as [t w2]. simpl in *.
  eapply Htrans; eauto.
Qed.

Lemma generator_invariant {R A} (P : world → world → Prop) (setup : M (list R))
    (body : R → M A) (w : world) :
  (∀ w, P w w) → (∀ w1 w2 w3, P w1 w2 → P w2 w3 → P w1 w3) →
  P w (snd (setup w)) →
  (∀ r w, P w (snd (body r w))) →
  P w (snd (generator setup body w)).
Proof.
  intros Hrefl Htrans Hsetup Hbody. unfold generator.
  destruct (setup w) as [[rows|e] w1]; simpl in *; [|exact Hsetup].
  eapply Htrans; [exact Hsetup|]. by apply for_each_invariant.
Qed.

Lemma path_read_world p w : snd (path_read p w) = w.
Proof.
  unfold path_read, read_file. by destruct (node_at w (key_of w p)) as [[c|]|].
Qed.

Lemma str_read_world s w : snd (str_read s w) = w.
Proof.
  unfold str_read, read_file.
  destruct (dir_only s && is_file w (str_key w s)); [reflexivity|].
  by destruct (node_at w (str_key w s)) as [[c|]|].
Qed.

(** A computation that reads and then only computes. *)
Lemma bind_ret_world {A B} (m : M A) (f : A → B) (w : world) :
  snd (m w) = w → snd (bind m (λ x, ret (f x)) w) = w.
Proof. unfold bind, ret. by destruct (m w) as [[a|e] w1]. Qed.

Lemma example_of_row_evolves self stream stream_cache process_func row w :
  evolves w (snd (FloodDatasetGenerator.example_of_row self stream stream_cache
                    process_func row w)).
Proof.
  unfold FloodDatasetGenerator.example_of_row.
  unfold bind at 1. unfold getitem at 1.
  destruct (row !! 0) as [f0|]; [|apply evolves_refl]. unfold ret at 1.
  unfold bind at 1.
  destruct (FloodDatasetGenerator._load_image self _ f0 _ _ w) as [[img|e] w1] eqn:H1;
    apply load_image_evolves in H1; [|exact H1].
  unfold bind at 1. unfold getitem at 1.
  destruct (row !! 1) as [f1|]; [|exact H1]. unfold ret at 1.
  unfold bind at 1.
  destruct (FloodDatasetGenerator._load_image self _ f1 _ _ w1) as [[msk|e] w2] eqn:H2;
    apply load_image_evolves in H2;
    [|eapply evolves_trans; eassumption].
  assert (H12 : evolves w w2) by (eapply evolves_trans; eassumption).
  destruct process_func as [f|]; [unfold lift | unfold ret]; exact H12.
Qed.

Lemma example_of_line_evolves self numbered_line w :
  evolves w (snd (Sen1floods11Dataset.example_of_line self numbered_line w)).
Proof.
  destruct numbered_line as [idx line].
  unfold Sen1floods11Dataset.example_of_line.
  destruct (Str.split _ _) as [|f0 [|f1 [|f2 l]]]; try apply evolves_refl.
  unfold bind at 1.
  destruct (Sen1floods11Dataset.load_input self _ f0 _ w) as [[img|e] w1] eqn:H1;
    apply load_input_evolves in H1; [|exact H1].
  unfold bind at 1.
  destruct (Sen1floods11Dataset.load_input self _ f1 _ w1) as [[msk|e] w2] eqn:H2;
    apply load_input_evolves in H2; simpl;
    eapply evolves_trans; eassumption.
Qed.

Lemma evolves_grows w w' : evolves w w' → grows w w'.
Proof. intros [Hcwd _ Hfiles Hdirs Hlog]. by split. Qed.

(** X1.  Resolving a reference and iterating over a manifest only add to
    the local side of the world, in both adapters and whatever the flags
    and the outcome: every file that was there is still there with its
    content, every directory is still a directory, the working directory is
    the same, and the log of remote reads has only grown. *)
Theorem world_only_grows :
  (∀ self image_dir image_name stream stream_cache w,
     grows w (snd (FloodDatasetGenerator._load_image self image_dir image_name
                     stream stream_cache w)))
  ∧
  (∀ self input_path image_name no_cache w,
     grows w (snd (Sen1floods11Dataset.load_input self input_path image_name
                     no_cache w)))
  ∧
  (∀ self shuffle stream stream_cache process_func w,
     grows w (snd (FloodDatasetGenerator.__call__ self shuffle stream stream_cache
                     process_func w)))
  ∧
  (∀ self csv_file w,
     grows w (snd (Sen1floods11Dataset._generate_examples self csv_file w))).
Proof.
  split; [|split; [|split]].
  - intros. eapply evolves_grows, load_image_evolves. apply surjective_pairing.
  - intros. eapply evolves_grows, load_input_evolves. apply surjective_pairing.
  - intros. apply evolves_grows. unfold FloodDatasetGenerator.__call__.
    apply generator_invariant.
    + apply evolves_refl.
    + apply evolves_trans.
    + cbv zeta. rewrite bind_ret_world by apply path_read_world. apply evolves_refl.
    + intros. apply example_of_row_evolves.
  - intros. apply evolves_grows. unfold Sen1floods11Dataset._generate_examples.
    apply generator_invariant.
    + apply evolves_refl.
    + apply evolves_trans.
    + rewrite bind_ret_world by apply str_read_world. apply evolves_refl.
    + intros. apply example_of_line_evolves.
Qed.

End IterationFrame.

Section Writes.
Context `{Libraries}.

Lemma same_but_log_refl w : same_but_log w w.
Proof. by repeat split. Qed.

Lemma same_but_log_trans w1 w2 w3 :
  same_but_log w1 w2 → same_but_log w2 w3 → same_but_log w1 w3.
Proof. intros (? & ? & ?) (? & ? & ?). repeat split; congruence. Qed.

Lemma same_but_log_call path w : same_but_log w (log_call path w).
Proof. by repeat split. Qed.

(** With [stream] on and [stream_cache] off a reference that is not a local
    file is fetched and nothing else happens. *)
Lemma load_image_transient self image_dir image_name w :
  is_file w (key_of w (local_path self image_dir image_name)) = false →
  FloodDatasetGenerator._load_image self image_dir image_name true false w
  = (fetched_result w (dvc_path image_dir image_name),
     log_call (dvc_path image_dir image_name) w).
Proof.
  intros Hfile. unfold FloodDatasetGenerator._load_image.
  fold (local_path self image_dir image_name). fold (dvc_path image_dir image_name).
  unfold bind at 1. unfold path_is_file. rewrite Hfile.
  unfold bind at 1. unfold read_bytes, fetched_result.
  destruct (remote w !! dvc_path image_dir image_name) as [raw|]; [|reflexivity].
  unfold bind, rasterio_open, decoded, ret, raise.
  by destruct (rio_read raw) as [[prof img]|].
Qed.

Lemma load_image_offline self image_dir image_name stream_cache w :
  snd (FloodDatasetGenerator._load_image self image_dir image_name false stream_cache w)
  = w.
Proof.
  unfold FloodDatasetGenerator._load_image.
  unfold bind at 1. unfold path_is_file.
  destruct (is_file w _); [|reflexivity].
  unfold bind, path_read, read_file, rasterio_open, ret, raise.
  destruct (node_at w _) as [[c|]|]; [destruct (rio_read c)| |]; reflexivity.
Qed.

Lemma load_image_without_caching self image_dir image_name stream stream_cache w :
  stream && stream_cache = false →
  same_but_log w (snd (FloodDatasetGenerator._load_image self image_dir image_name
                         stream stream_cache w)).
Proof.
  intros Hflags. destruct stream.
  - destruct stream_cache; [discriminate|].
    destruct (is_file w (key_of w (local_path self image_dir image_name))) eqn:Hfile.
    + apply is_file_node in Hfile as [c Hc].
      rewrite (load_image_local _ _ _ _ _ _ _ Hc). apply same_but_log_refl.
    + rewrite (load_image_transient _ _ _ _ Hfile). apply same_but_log_call.
  - rewrite load_image_offline. apply same_but_log_refl.
Qed.

Lemma example_of_row_frame (P : world → world → Prop) self stream stream_cache
    process_func :
  (∀ w, P w w) → (∀ w1 w2 w3, P w1 w2 → P w2 w3 → P w1 w3) →
  (∀ image_dir image_name w,
     P w (snd (FloodDatasetGenerator._load_image self image_dir image_name
                 stream stream_cache w))) →
  ∀ row w,
    P w (snd (FloodDatasetGenerator.example_of_row self stream stream_cache
                process_func row w)).
Proof.
  intros Hrefl Htrans Hload row w.
  unfold FloodDatasetGenerator.example_of_row.
  unfold bind at 1. unfold getitem at 1.
  destruct (row !! 0) as [f0|]; [|apply Hrefl]. unfold ret at 1.
  unfold bind at 1.
  pose proof (Hload FloodDatasetGenerator.S1 f0 w) as H1.
  destruct (FloodDatasetGenerator._load_image self _ f0 _ _ w) as [[img|e] w1];
    simpl in H1; [|exact H1].
  unfold bind at 1. unfold getitem at 1.
  destruct (row !! 1) as [f1|]; [|exact H1]. unfold ret at 1.
  unfold bind at 1.
  pose proof (Hload FloodDatasetGenerator.LABELS f1 w1) as H2.
  destruct (FloodDatasetGenerator._load_image self _ f1 _ _ w1) as [[msk|e] w2];
    simpl in H2; [|eapply Htrans; eassumption].
  assert (H12 : P w w2) by (eapply Htrans; eassumption).
  destruct process_func as [f|]; [unfold lift | unfold ret]; exact H12.
Qed.

(** X2.  The standalone adapter writes to the local file system only when
    [stream] and [stream_cache] are both on: otherwise an iteration leaves
    the file system as it is, whatever the manifest and the outcome.  With
    [stream] off it makes no remote read either: the world is left as it
    is.  With [stream] on and [stream_cache] off, a reference that is not a
    local file is read from the remote store at each resolution. *)
Theorem writes_need_stream_and_cache :
  (∀ self shuffle stream stream_cache process_func w,
     stream && stream_cache = false →
     same_but_log w (snd (FloodDatasetGenerator.__call__ self shuffle stream stream_cache
                            process_func w)))
  ∧
  (∀ self shuffle stream_cache process_func w,
     snd (FloodDatasetGenerator.__call__ self shuffle false stream_cache process_func w)
     = w)
  ∧
  (∀ self image_dir image_name w,
     is_file w (key_of w (local_path self image_dir image_name)) = false →
     FloodDatasetGenerator._load_image self image_dir image_name true false w
     = (fetched_result w (dvc_path image_dir image_name),
        log_call (dvc_path image_dir image_name) w)).
Proof.
  split; [|split].
  - intros self shuffle stream stream_cache process_func w Hflags.
    unfold FloodDatasetGenerator.__call__. apply generator_invariant.
    + apply same_but_log_refl.
    + apply same_but_log_trans.
    + cbv zeta. rewrite bind_ret_world by apply path_read_world.
      apply same_but_log_refl.
    + apply example_of_row_frame.
      * apply same_but_log_refl.
      * apply same_but_log_trans.
      * intros. by apply load_image_without_caching.
  - intros self shuffle stream_cache process_func w.
    unfold FloodDatasetGenerator.__call__.
    apply (generator_invariant (λ w w', w' = w)).
    + done.
    + congruence.
    + cbv zeta. apply bind_ret_world, path_read_world.
    + apply (example_of_row_frame (λ w w', w' = w)).
      * done.
      * congruence.
      * intros. apply load_image_offline.
  - apply load_image_transient.
Qed.

End Writes.

Section NoCache.
Context `{Libraries}.

Lemma numbered_cons first line (lines : list string) :
  numbered first (line :: lines) = (first, line) :: numbered (S first) lines.
Proof.
  unfold numbered. rewrite imap_cons. f_equal.
  - f_equal. lia.
  - apply imap_ext. intros i x _. simpl. f_equal. lia.
Qed.

(** With [no_cache] on, a resolution is a read of the remote store and
    nothing else. *)
Lemma load_input_no_cache self input_path image_name w :
  Sen1floods11Dataset.load_input self input_path image_name true w
  = (fetched_result w (dvc_path_str input_path image_name),
     log_call (dvc_path_str input_path image_name) w).
Proof.
  unfold Sen1floods11Dataset.load_input.
  fold (dvc_path_str input_path image_name).
  unfold bind at 1. unfold read_bytes, fetched_result.
  destruct (remote w !! dvc_path_str input_path image_name) as [raw|]; [|reflexivity].
  unfold bind, rasterio_open, decoded, ret, raise.
  by destruct (rio_read raw) as [[prof img]|].
Qed.

Lemma example_of_line_frame (P : world → world → Prop) self :
  (∀ w, P w w) → (∀ w1 w2 w3, P w1 w2 → P w2 w3 → P w1 w3) →
  (∀ input_path image_name w,
     P w (snd (Sen1floods11Dataset.load_input self input_path image_name
                 (Sen1floods11Dataset.no_cache (Sen1floods11Dataset.config self)) w))) →
  ∀ numbered_line w,
    P w (snd (Sen1floods11Dataset.example_of_line self numbered_line w)).
Proof.
  intros Hrefl Htrans Hload [idx line] w.
  unfold Sen1floods11Dataset.example_of_line.
  destruct (Str.split _ _) as [|f0 [|f1 [|f2 l]]]; try apply Hrefl.
  unfold bind at 1.
  pose proof (Hload Sen1floods11Dataset.S1 f0 w) as H1.
  destruct (Sen1floods11Dataset.load_input self _ f0 _ w) as [[img|e] w1];
    simpl in H1; [|exact H1].
  unfold bind at 1.
  pose proof (Hload Sen1floods11Dataset.LABELS f1 w1) as H2.
  destruct (Sen1floods11Dataset.load_input self _ f1 _ w1) as [[msk|e] w2];
    simpl in *; eapply Htrans; eassumption.
Qed.

Lemma for_each_cons {R A} (body : R → M A) (r : R) (rows : list R) (w : world) :
  for_each body (r :: rows) w
  = match body r w with
    | (Ok a, w1) =>
        ({| yielded := a :: yielded (fst (for_each body rows w1));
            stopped := stopped (fst (for_each body rows w1)) |},
         snd (for_each body rows w1))
    | (Raise e, w1) => ({| yielded := []; stopped := Some e |}, w1)
    end.
Proof.
  simpl. destruct (body r w) as [[a|e] w1]; [|reflexivity].
  by destruct (for_each body rows w1).
Qed.

Lemma no_cache_log self (lines : list string) first w :
  Sen1floods11Dataset.no_cache (Sen1floods11Dataset.config self) = true →
  stopped (fst (for_each (Sen1floods11Dataset.example_of_line self)
                  (numbered first lines) w)) = None →
  fetched (snd (for_each (Sen1floods11Dataset.example_of_line self)
                  (numbered first lines) w))
  = (fetched w ++ flat_map remote_paths_of_line lines)%list.
Proof.
  intros Hcache. revert first w.
  induction lines as [|line lines IH]; intros first w.
  - intros _. simpl. by rewrite app_nil_r.
  - rewrite numbered_cons.
    set (body := Sen1floods11Dataset.example_of_line self).
    rewrite for_each_cons.
    destruct (body (first, line) w) as [[ex|e] w1] eqn:Hb;
      [|simpl; intros; discriminate].
    assert (Hw1 : fetched w1 = (fetched w ++ remote_paths_of_line line)%list).
    { unfold body, Sen1floods11Dataset.example_of_line in Hb.
      unfold remote_paths_of_line.
      destruct (Str.split _ _) as [|f0 [|f1 [|f2 l]]]; try discriminate.
      rewrite Hcache in Hb.
      unfold bind at 1 in Hb. rewrite load_input_no_cache in Hb.
      destruct (fetched_result w _) as [img|e]; [|discriminate].
      unfold bind at 1 in Hb. rewrite load_input_no_cache in Hb.
      destruct (fetched_result _ _) as [msk|e]; [|discriminate].
      unfold ret in Hb. injection Hb as _ <-. simpl.
      by rewrite <- app_assoc. }
    specialize (IH (S first) w1). fold body in IH. simpl.
    intros Hend. rewrite (IH Hend), Hw1. by rewrite <- app_assoc.
Qed.

(** X3.  With [no_cache] on, the adapter of the framework never looks at
    the local directory: a resolution returns what the remote store gives
    and logs the read; a generation leaves the local file system as it is;
    and one that ends without an exception has made, line after line, the
    read of the image and then that of the mask, and no other. *)
Theorem no_cache_reads_remote_only :
  (∀ self input_path image_name w,
     Sen1floods11Dataset.load_input self input_path image_name true w
     = (fetched_result w (dvc_path_str input_path image_name),
        log_call (dvc_path_str input_path image_name) w))
  ∧
  (∀ self csv_file w,
     Sen1floods11Dataset.no_cache (Sen1floods11Dataset.config self) = true →
     same_but_log w (snd (Sen1floods11Dataset._generate_examples self csv_file w)))
  ∧
  (∀ self csv_file w text,
     Sen1floods11Dataset.no_cache (Sen1floods11Dataset.config self) = true →
     str_read csv_file w = (Ok text, w) →
     stopped (fst (Sen1floods11Dataset._generate_examples self csv_file w)) = None →
     fetched (snd (Sen1floods11Dataset._generate_examples self csv_file w))
     = (fetched w ++ flat_map remote_paths_of_line (Str.text_lines text))%list).
Proof.
  split; [|split].
  - apply load_input_no_cache.
  - intros self csv_file w Hcache.
    unfold Sen1floods11Dataset._generate_examples. apply generator_invariant.
    + apply same_but_log_refl.
    + apply same_but_log_trans.
    + rewrite bind_ret_world by apply str_read_world. apply same_but_log_refl.
    + apply example_of_line_frame.
      * apply same_but_log_refl.
      * apply same_but_log_trans.
      * intros. rewrite Hcache, load_input_no_cache. apply same_but_log_call.
  - intros self csv_file w text Hcache Hread.
    rewrite (generate_runs_lines _ _ _ _ Hread). by apply no_cache_log.
Qed.

End NoCache.

Section Failures.
Context `{Libraries}.

Lemma mkdir_p_fetched s k w r w' : mkdir_p s k w = (r, w') → fetched w' = fetched w.
Proof.
  unfold mkdir_p. by destruct (existsb _ _); intros [= _ <-].
Qed.

Lemma write_file_fetched s k content w r w' :
  write_file s k content w = (r, w') → fetched w' = fetched w.
Proof.
  unfold write_file. destruct (is_dir w k); [by intros [= _ <-]|].
  by destruct (is_dir w (removelast k)); simpl; intros [= _ <-].
Qed.

Lemma write_file_raise s k content w e w' :
  write_file s k content w = (Raise e, w') → w' = w.
Proof.
  unfold write_file. destruct (is_dir w k); [by intros [= _ <-]|].
  by destruct (is_dir w (removelast k)); simpl; intros [= <-].
Qed.

(** Where the same keys are files, no file is new. *)
Lemma no_new_file_of_same_files w w' :
  evolves w w' → (∀ k, is_file w' k = is_file w k) → no_new_file w w'.
Proof.
  intros Hev Hsame k c Hk.
  assert (Hf : is_file w' k = true) by (apply is_file_node; eauto).
  rewrite Hsame in Hf. apply is_file_node in Hf as [c' Hc'].
  pose proof (evolves_files _ _ Hev _ _ Hc') as Hk'. congruence.
Qed.

Lemma load_image_trace self image_dir image_name stream stream_cache w r w' :
  FloodDatasetGenerator._load_image self image_dir image_name stream stream_cache w
  = (r, w') →
  (fetched w' = fetched w ∨
   fetched w' = (fetched w ++ [dvc_path image_dir image_name])%list) ∧
  ((∃ e, r = Raise e) → ∀ k, is_file w' k = is_file w k).
Proof.
  unfold FloodDatasetGenerator._load_image.
  fold (local_path self image_dir image_name). fold (dvc_path image_dir image_name).
  set (p := local_path self image_dir image_name).
  set (dvc := dvc_path image_dir image_name).
  unfold bind at 1. unfold path_is_file.
  destruct (is_file w (key_of w p)) eqn:Hfile.
  - unfold bind, path_read, read_file, rasterio_open, ret, raise.
    destruct (node_at w (key_of w p)) as [[c|]|];
      [destruct (rio_read c)| |]; intros [= _ <-]; auto.
  - destruct stream; [|intros [= _ <-]; auto].
    unfold bind at 1. unfold read_bytes.
    destruct (remote w !! dvc) as [raw|]; [|intros [= _ <-]; auto].
    set (w0 := log_call dvc w).
    unfold bind at 1. unfold rasterio_open.
    destruct (rio_read raw) as [[prof img]|];
      [|unfold raise; intros [= _ <-]; auto].
    unfold ret at 1. simpl snd.
    destruct stream_cache; [|unfold bind, ret; intros [= _ <-]; auto].
    unfold bind at 1. unfold bind at 1. unfold path_mkdir_parents.
    destruct (mkdir_p (to_str (parent p)) (key_of w0 (parent p)) w0)
      as [[[]|e] w1] eqn:Hmk.
    + unfold path_write_bytes.
      destruct (write_file (to_str p) (key_of w1 p) raw w1) as [[[]|e] w2] eqn:Hwr;
        unfold ret; intros [= <- <-].
      * split; [|intros [e He]; discriminate].
        right. rewrite (write_file_fetched _ _ _ _ _ _ Hwr).
        by rewrite (mkdir_p_fetched _ _ _ _ _ Hmk).
      * apply write_file_raise in Hwr as ->. split.
        -- right. by rewrite (mkdir_p_fetched _ _ _ _ _ Hmk).
        -- intros _ k. by rewrite (mkdir_p_same_files _ _ _ _ _ Hmk).
    + intros [= <- <-]. split.
      * right. by rewrite (mkdir_p_fetched _ _ _ _ _ Hmk).
      * intros _ k. by rewrite (mkdir_p_same_files _ _ _ _ _ Hmk).
Qed.

Lemma load_input_trace self input_path image_name no_cache w r w' :
  Sen1floods11Dataset.load_input self input_path image_name no_cache w = (r, w') →
  (fetched w' = fetched w ∨
   fetched w' = (fetched w ++ [dvc_path_str input_path image_name])%list) ∧
  ((∃ e, r = Raise e) → ∀ k, is_file w' k = is_file w k).
Proof.
  unfold Sen1floods11Dataset.load_input.
  fold (local_path_str self input_path image_name).
  fold (dvc_path_str input_path image_name).
  set (p := local_path_str self input_path image_name).
  set (dvc := dvc_path_str input_path image_name).
  destruct no_cache.
  - unfold bind at 1. unfold read_bytes.
    destruct (remote w !! dvc) as [raw|]; [|intros [= _ <-]; auto].
    unfold bind, rasterio_open, ret, raise.
    destruct (rio_read raw); intros [= _ <-]; auto.
  - unfold bind at 1. unfold os_path_isfile.
    destruct (isfile_str w p) eqn:Hfile; simpl.
    + unfold bind, str_read, read_file, rasterio_open, ret, raise.
      destruct (dir_only p && is_file w (str_key w p)); [intros [= _ <-]; auto|].
      destruct (node_at w (str_key w p)) as [[c|]|];
        [destruct (rio_read c)| |]; intros [= _ <-]; auto.
    + unfold bind at 1. unfold os_makedirs.
      destruct (bool_decide (dirname p = "")); [intros [= _ <-]; auto|].
      destruct (_ && _); [intros [= _ <-]; auto|].
      destruct (mkdir_p (dirname p) (str_key w (dirname p)) w)
        as [[[]|e] w1] eqn:Hmk.
      2:{ intros [= _ <-]. split.
          - left. exact (mkdir_p_fetched _ _ _ _ _ Hmk).
          - intros _ k. exact (mkdir_p_same_files _ _ _ _ _ Hmk k). }
      pose proof (mkdir_p_fetched _ _ _ _ _ Hmk) as Hlog.
      pose proof (mkdir_p_same_files _ _ _ _ _ Hmk) as Hsame.
      pose proof (evolves_remote _ _ (mkdir_p_evolves _ _ _ _ _ Hmk)) as Hrem.
      unfold bind at 1. unfold read_bytes.
      destruct (remote w1 !! dvc) as [raw|].
      2:{ intros [= _ <-]. split; [right; simpl; by rewrite Hlog|].
          intros _ k. exact (Hsame k). }
      set (w2 := log_call dvc w1).
      assert (Hlog2 : fetched w2 = (fetched w ++ [dvc])%list)
        by (simpl; by rewrite Hlog).
      unfold bind at 1. unfold rasterio_open.
      destruct (rio_read raw) as [[prof img]|].
      2:{ unfold raise. intros [= _ <-]. split; [by right|].
          intros _ k. exact (Hsame k). }
      unfold ret at 1. simpl fst. simpl snd.
      unfold bind at 1. unfold str_write.
      destruct (bool_decide (p = "")).
      { intros [= _ <-]. split; [by right|]. intros _ k. exact (Hsame k). }
      destruct (dir_only p).
      { intros [= _ <-]. split; [by right|]. intros _ k. exact (Hsame k). }
      destruct (write_file p (str_key w2 p) (rio_write prof img) w2)
        as [[[]|e] w3] eqn:Hwr; unfold ret; intros [= <- <-].
      * split; [|intros [e He]; discriminate].
        right. by rewrite (write_file_fetched _ _ _ _ _ _ Hwr).
      * apply write_file_raise in Hwr as ->. split; [by right|].
        intros _ k. exact (Hsame k).
Qed.

(** X4.  A resolution makes at most one remote read, of the remote path of
    its reference, and there is no second attempt.  When it raises, no file
    is new and no file has changed: a failed fetch leaves nothing at the
    local path, although the adapter of the framework may have made the
    directories on the way to it. *)
Theorem one_read_and_no_file_on_failure :
  (∀ self image_dir image_name stream stream_cache w r w',
     FloodDatasetGenerator._load_image self image_dir image_name stream stream_cache w
     = (r, w') →
     (fetched w' = fetched w ∨
      fetched w' = (fetched w ++ [dvc_path image_dir image_name])%list) ∧
     ((∃ e, r = Raise e) → no_new_file w w'))
  ∧
  (∀ self input_path image_name no_cache w r w',
     Sen1floods11Dataset.load_input self input_path image_name no_cache w = (r, w') →
     (fetched w' = fetched w ∨
      fetched w' = (fetched w ++ [dvc_path_str input_path image_name])%list) ∧
     ((∃ e, r = Raise e) → no_new_file w w')).
Proof.
  split.
  - intros self image_dir image_name stream stream_cache w r w' Hrun.
    destruct (load_image_trace _ _ _ _ _ _ _ _ Hrun) as [Hlog Hfail].
    split; [exact Hlog|]. intros Hr.
    apply no_new_file_of_same_files; [|auto].
    by eapply load_image_evolves.
  - intros self input_path image_name no_cache w r w' Hrun.
    destruct (load_input_trace _ _ _ _ _ _ _ Hrun) as [Hlog Hfail].
    split; [exact Hlog|]. intros Hr.
    apply no_new_file_of_same_files; [|auto].
    by eapply load_input_evolves.
Qed.

End Failures.

Section ManifestEdges.
Context `{Libraries}.

(** The string of a parsed path is not empty. *)
Lemma to_str_parse_not_empty (s : string) : to_str (parse s) ≠ "".
Proof.
  unfold to_str, parse. destruct (splitroot s) as [rt rel] eqn:Hs. simpl.
  assert (Hnames : Forall (λ n, n ≠ "") (List.filter is_name (Str.split sep rel))).
  { apply Forall_forall. intros n Hn.
    apply list_elem_of_In, filter_In in Hn as [_ Hn].
    unfold is_name in Hn. apply andb_true_iff in Hn as [Hn _].
    apply negb_true_iff in Hn. by apply bool_decide_eq_false_1 in Hn. }
  destruct rt as [|c rt].
  - destruct (List.filter is_name (Str.split sep rel)) as [|n ns]; [discriminate|].
    apply Forall_cons in Hnames as [Hn _].
    destruct n as [|a n]; [done|]. simpl. destruct ns; discriminate.
  - discriminate.
Qed.

(** X5.  A manifest that is not a regular file: the length of the
    generator raises and an iteration yields nothing and stops with the
    same exception, which names the path of the manifest and says what is
    at its place: a directory, a file on the way to it, or nothing.  For
    the adapter of the framework likewise, with the path string it was
    given, where a file whose name is followed by a separator also counts
    as a file on the way and the empty string names nothing.  Nothing is
    read from the remote store and the world is as it was.  An empty
    manifest gives the adapter of the framework an iteration that yields
    nothing and ends without an exception. *)
Theorem manifest_not_readable :
  (∀ self w,
     is_file w (key_of w (manifest_path self)) = false →
     ∃ e,
       e = (if is_dir w (key_of w (manifest_path self))
            then IsADirectoryError (to_str (manifest_path self))
            else if through_file w (key_of w (manifest_path self))
            then NotADirectoryError (to_str (manifest_path self))
            else FileNotFoundError (to_str (manifest_path self))) ∧
       FloodDatasetGenerator.__len__ self w = (Raise e, w) ∧
       ∀ shuffle stream stream_cache process_func,
         FloodDatasetGenerator.__call__ self shuffle stream stream_cache process_func w
         = ({| yielded := []; stopped := Some e |}, w))
  ∧
  (∀ self csv_file w,
     isfile_str w csv_file = false →
     ∃ e,
       e = (if is_dir w (str_key w csv_file)
            then (if bool_decide (csv_file = "") then FileNotFoundError csv_file
                  else IsADirectoryError csv_file)
            else if is_file w (str_key w csv_file) || through_file w (str_key w csv_file)
            then NotADirectoryError csv_file
            else FileNotFoundError csv_file) ∧
       Sen1floods11Dataset._generate_examples self csv_file w
       = ({| yielded := []; stopped := Some e |}, w))
  ∧
  (∀ self csv_file w,
     str_read csv_file w = (Ok "", w) →
     Sen1floods11Dataset._generate_examples self csv_file w
     = ({| yielded := []; stopped := None |}, w)).
Proof.
  split; [|split].
  - intros self w Hfile. eexists. split; [reflexivity|].
    assert (Hread : path_read (manifest_path self) w
                    = (Raise (if is_dir w (key_of w (manifest_path self))
                              then IsADirectoryError (to_str (manifest_path self))
                              else if through_file w (key_of w (manifest_path self))
                              then NotADirectoryError (to_str (manifest_path self))
                              else FileNotFoundError (to_str (manifest_path self))), w)).
    { unfold path_read, read_file, unreachable, is_file, is_dir in *.
      destruct (node_at w (key_of w (manifest_path self))) as [[c|]|];
        [discriminate| |reflexivity].
      rewrite bool_decide_eq_false_2; [reflexivity|].
      apply to_str_parse_not_empty. }
    split.
    + unfold FloodDatasetGenerator.__len__. fold (manifest_path self).
      unfold bind. by rewrite Hread.
    + intros. unfold FloodDatasetGenerator.__call__, generator.
      fold (manifest_path self). unfold bind. by rewrite Hread.
  - intros self csv_file w Hfile. eexists. split; [reflexivity|].
    assert (Hread : str_read csv_file w
                    = (Raise (if is_dir w (str_key w csv_file)
                              then (if bool_decide (csv_file = "")
                                    then FileNotFoundError csv_file
                                    else IsADirectoryError csv_file)
                              else if is_file w (str_key w csv_file)
                                      || through_file w (str_key w csv_file)
                              then NotADirectoryError csv_file
                              else FileNotFoundError csv_file), w)).
    { unfold isfile_str in Hfile.
      unfold str_read, read_file, unreachable, is_file, is_dir in *.
      destruct (node_at w (str_key w csv_file)) as [[c|]|].
      - destruct (dir_only csv_file); [reflexivity|discriminate].
      - by rewrite andb_false_r.
      - by rewrite andb_false_r. }
    unfold Sen1floods11Dataset._generate_examples, generator, bind.
    by rewrite Hread.
  - intros self csv_file w Hread.
    unfold Sen1floods11Dataset._generate_examples, generator, bind.
    by rewrite Hread.
Qed.

End ManifestEdges.

Section SecondPass.
Context `{Libraries}.

Lemma evolves_key w w' p : evolves w w' → key_of w' p = key_of w p.
Proof. intros Hev. unfold key_of. by rewrite (evolves_cwd _ _ Hev). Qed.

(** Without [stream], what is not a local file is refused. *)
Lemma load_image_refused self image_dir image_name stream_cache w :
  is_file w (key_of w (local_path self image_dir image_name)) = false →
  ∃ e, FloodDatasetGenerator._load_image self image_dir image_name false stream_cache w
       = (Raise e, w).
Proof.
  intros Hfile. unfold FloodDatasetGenerator._load_image.
  fold (local_path self image_dir image_name).
  unfold bind, path_is_file. rewrite Hfile. by eexists.
Qed.

(** A resolution with caching that returns leaves at the local path a file
    from which the raster library reads the image returned. *)
Lemma load_image_leaves_file self image_dir image_name stream w img w' :
  FloodDatasetGenerator._load_image self image_dir image_name stream true w = (Ok img, w') →
  ∃ content,
    node_at w' (key_of w' (local_path self image_dir image_name)) = Some (File content) ∧
    decoded content = Ok img.
Proof.
  intros Hrun.
  destruct (is_file w (key_of w (local_path self image_dir image_name))) eqn:Hfile.
  - apply is_file_node in Hfile as [c Hc].
    rewrite (load_image_local _ _ _ _ _ _ _ Hc) in Hrun.
    injection Hrun as Hdec <-. eauto.
  - destruct stream.
    + destruct (load_image_fetch_inv _ _ _ _ _ _ Hfile Hrun)
        as (raw & prof & w1 & Hraw & Hdec & Hmk & Hwr).
      exists raw. split.
      * apply mkdir_p_ok in Hmk as [-> _].
        apply write_file_ok in Hwr as (-> & Hnode & _). exact Hnode.
      * unfold decoded. by rewrite Hdec.
    + destruct (load_image_refused self image_dir image_name true w Hfile) as [e He].
      rewrite He in Hrun. discriminate.
Qed.

(** What a row gave with caching, it gives again in any later world, from
    the local directory and whatever the flags. *)
Lemma example_of_row_again self stream process_func row w d w1 :
  FloodDatasetGenerator.example_of_row self stream true process_func row w = (Ok d, w1) →
  ∀ w2 stream' stream_cache',
    evolves w1 w2 →
    FloodDatasetGenerator.example_of_row self stream' stream_cache' process_func row w2
    = (Ok d, w2).
Proof.
  unfold FloodDatasetGenerator.example_of_row at 1.
  unfold bind at 1. unfold getitem at 1.
  destruct (row !! 0) as [f0|] eqn:Hf0; [|discriminate]. unfold ret at 1.
  unfold bind at 1.
  destruct (FloodDatasetGenerator._load_image self _ f0 _ _ w) as [[img|e] wa] eqn:Hi;
    [|discriminate].
  unfold bind at 1. unfold getitem at 1.
  destruct (row !! 1) as [f1|] eqn:Hf1; [|discriminate]. unfold ret at 1.
  unfold bind at 1.
  destruct (FloodDatasetGenerator._load_image self _ f1 _ _ wa) as [[msk|e] wb] eqn:Hm;
    [|discriminate].
  intros Hdata w2 stream' stream_cache' Hev.
  assert (Hw1 : wb = w1).
  { destruct process_func as [f|]; [unfold lift in Hdata | unfold ret in Hdata];
      by injection Hdata. }
  subst wb.
  pose proof (load_image_evolves _ _ _ _ _ _ _ _ Hm) as Hab.
  destruct (load_image_leaves_file _ _ _ _ _ _ _ Hi) as (ci & Hci & Hdi).
  destruct (load_image_leaves_file _ _ _ _ _ _ _ Hm) as (cm & Hcm & Hdm).
  assert (Ha2 : evolves wa w2) by (eapply evolves_trans; eassumption).
  apply (evolves_files _ _ Ha2) in Hci. rewrite <- (evolves_key _ _ _ Ha2) in Hci.
  apply (evolves_files _ _ Hev) in Hcm. rewrite <- (evolves_key _ _ _ Hev) in Hcm.
  unfold FloodDatasetGenerator.example_of_row.
  unfold bind at 1. unfold getitem at 1. rewrite Hf0. unfold ret at 1.
  unfold bind at 1. rewrite (load_image_local _ _ _ _ _ _ _ Hci), Hdi.
  unfold bind at 1. unfold getitem at 1. rewrite Hf1. unfold ret at 1.
  unfold bind at 1. rewrite (load_image_local _ _ _ _ _ _ _ Hcm), Hdm.
  destruct process_func as [f|].
  - unfold lift in *. by injection Hdata as ->.
  - unfold ret in *. by injection Hdata as ->.
Qed.

Lemma for_each_again self stream process_func (rows : list (list string)) w :
  stopped (fst (for_each (FloodDatasetGenerator.example_of_row self stream true
                            process_func) rows w)) = None →
  ∀ w2 stream' stream_cache',
    evolves (snd (for_each (FloodDatasetGenerator.example_of_row self stream true
                              process_func) rows w)) w2 →
    for_each (FloodDatasetGenerator.example_of_row self stream' stream_cache'
                process_func) rows w2
    = (fst (for_each (FloodDatasetGenerator.example_of_row self stream true
                        process_func) rows w), w2).
Proof.
  revert w. induction rows as [|row rows IH]; intros w.
  - reflexivity.
  - rewrite !for_each_cons.
    destruct (FloodDatasetGenerator.example_of_row self stream true process_func row w)
      as [[d|e] wa] eqn:Hrow; [|simpl; intros; discriminate].
    simpl. intros Hend w2 stream' stream_cache' Hev.
    assert (Ha2 : evolves wa w2).
    { eapply evolves_trans; [|exact Hev].
      apply (for_each_invariant evolves).
      - apply evolves_refl.
      - apply evolves_trans.
      - intros. apply example_of_row_evolves. }
    rewrite (example_of_row_again _ _ _ _ _ _ _ Hrow w2 stream' stream_cache' Ha2).
    rewrite (IH wa Hend w2 stream' stream_cache' Hev). reflexivity.
Qed.

(** X6.  After an iteration of the standalone adapter with [stream_cache]
    on that ended without an exception, everything it needed is in the
    local directory: a second iteration, in the world the first one left
    and whatever its [stream] and [stream_cache], yields the same examples
    in the same order, ends without an exception and leaves the world as it
    is, so it makes no remote read. *)
Theorem second_pass_is_local self stream process_func w :
  let first := FloodDatasetGenerator.__call__ self false stream true process_func w in
  stopped (fst first) = None →
  ∀ stream' stream_cache',
    FloodDatasetGenerator.__call__ self false stream' stream_cache' process_func
      (snd first)
    = (fst first, snd first).
Proof.
  intros first Hend stream' stream_cache'. unfold first in *. clear first.
  destruct (path_read (manifest_path self) w) as [[text|e] w0] eqn:Hread.
  2:{ exfalso. unfold FloodDatasetGenerator.__call__, generator in Hend.
      fold (manifest_path self) in Hend. unfold bind in Hend.
      rewrite Hread in Hend. discriminate. }
  assert (Hw0 : w0 = w).
  { pose proof (path_read_world (manifest_path self) w) as Hw. by rewrite Hread in Hw. }
  subst w0.
  rewrite (call_runs_rows _ _ _ _ _ _ _ Hread) in *.
  set (body := FloodDatasetGenerator.example_of_row self stream true process_func) in *.
  set (rows := rows_read false text) in *.
  assert (Hev : evolves w (snd (for_each body rows w))).
  { apply (for_each_invariant evolves).
    - apply evolves_refl.
    - apply evolves_trans.
    - intros. apply example_of_row_evolves. }
  assert (Hread' : path_read (manifest_path self) (snd (for_each body rows w))
                   = (Ok text, snd (for_each body rows w))).
  { unfold path_read, read_file in *.
    destruct (node_at w (key_of w (manifest_path self))) as [[c|]|] eqn:Hnode;
      try discriminate.
    injection Hread as ->.
    rewrite (evolves_key _ _ _ Hev).
    by rewrite (evolves_files _ _ Hev _ _ Hnode). }
  rewrite (call_runs_rows _ _ _ _ _ _ _ Hread'). fold rows.
  apply for_each_again; [exact Hend | apply evolves_refl].
Qed.

End SecondPass.

(** * The two adapters and one local directory *)

Import Canonical.

Lemma split_nonempty c s : ∃ f rest, Str.split c s = f :: rest.
Proof.
  induction s as [|a s (f & rest & IH)]; simpl; [eauto|].
  destruct (bool_decide (a = c)); [eauto|]. rewrite IH. eauto.
Qed.

(** Splitting at a separator splits the text before it and the text after
    it. *)
Lemma split_app_sep c a b :
  Str.split c (a ++ String c b) = (Str.split c a ++ Str.split c b)%list.
Proof.
  induction a as [|x a IH]; simpl.
  - by rewrite bool_decide_eq_true_2.
  - destruct (bool_decide (x = c)); [by rewrite IH|].
    rewrite IH. by destruct (split_nonempty c a) as (f & rest & ->).
Qed.

(** The fields of a split hold no separator. *)
Lemma split_fields_plain c s : Forall (λ f, Str.split c f = [f]) (Str.split c s).
Proof.
  induction s as [|a s IH]; simpl.
  - by constructor.
  - destruct (bool_decide (a = c)) eqn:Hac; [by constructor|].
    destruct (Str.split c s) as [|f rest]; [by constructor; [simpl; rewrite Hac|]|].
    inversion IH as [|? ? Hf Hrest]; subst. constructor; [|done].
    simpl. by rewrite Hac, Hf.
Qed.

Lemma plain_not_sep_first n : plain n → starts_with_sep n = false.
Proof.
  intros [Hname Hsplit]. destruct n as [|a n]; [done|]. simpl in *.
  destruct (bool_decide (a = sep)) eqn:Ha; [|done].
  injection Hsplit as Hbad _. discriminate.
Qed.

Lemma plain_not_empty n : plain n → n ≠ "".
Proof. intros [Hname _] ->. discriminate. Qed.

Lemma parse_canonical s : canonical (parse s).
Proof.
  unfold parse. destruct (splitroot s) as [rt rel] eqn:Hroot. split; simpl.
  - unfold splitroot in Hroot.
    destruct s as [|a r]; [injection Hroot as <- _; auto|].
    destruct (bool_decide (a = sep)); [|injection Hroot as <- _; auto].
    destruct r as [|b r']; [injection Hroot as <- _; auto|].
    destruct (bool_decide (b = sep)); [|injection Hroot as <- _; auto].
    destruct (starts_with_sep r'); injection Hroot as <- _; auto.
  - pose proof (split_fields_plain sep rel) as Hall.
    induction Hall as [|f fs Hf _ IH]; simpl; [constructor|].
    destruct (is_name f) eqn:Hn; [|exact IH].
    constructor; [by split | exact IH].
Qed.

Lemma starts_with_sep_app a b : a ≠ "" → starts_with_sep (a ++ b) = starts_with_sep a.
Proof. by destruct a. Qed.

Lemma split_concat (ns : list string) :
  Forall plain ns → ns ≠ [] → Str.split sep (String.concat "/" ns) = ns.
Proof.
  induction 1 as [|n ns Hn Hns IH]; [done|]. intros _.
  destruct ns as [|m ns].
  - simpl. apply Hn.
  - change (String.concat "/" (n :: m :: ns))
      with (n ++ String sep (String.concat "/" (m :: ns))).
    rewrite split_app_sep, IH by done. destruct Hn as [_ ->]. reflexivity.
Qed.

Lemma concat_not_sep_first (ns : list string) :
  Forall plain ns → starts_with_sep (String.concat "/" ns) = false.
Proof.
  destruct 1 as [|n ns Hn Hns]; [reflexivity|].
  destruct ns as [|m ns].
  - simpl. by apply plain_not_sep_first.
  - change (String.concat "/" (n :: m :: ns))
      with (n ++ String sep (String.concat "/" (m :: ns))).
    rewrite starts_with_sep_app by (by apply plain_not_empty).
    by apply plain_not_sep_first.
Qed.

Lemma filter_plain (ns : list string) : Forall plain ns → List.filter is_name ns = ns.
Proof.
  induction 1 as [|n ns [Hn _] _ IH]; simpl; [done|]. by rewrite Hn, IH.
Qed.

Lemma names_of_concat (ns : list string) :
  Forall plain ns → List.filter is_name (Str.split sep (String.concat "/" ns)) = ns.
Proof.
  intros Hns. destruct ns as [|n ns]; [reflexivity|].
  rewrite split_concat by done. by apply filter_plain.
Qed.

Lemma splitroot_relative s : starts_with_sep s = false → splitroot s = ("", s).
Proof.
  destruct s as [|a s]; [done|]. simpl. by intros ->.
Qed.

(** Writing a path and parsing it again gives the path back. *)
Lemma parse_to_str p : canonical p → parse (to_str p) = p.
Proof.
  destruct p as [rt ns]. intros [Hrt Hns]. simpl in *.
  pose proof (concat_not_sep_first ns Hns) as Hfirst.
  pose proof (names_of_concat ns Hns) as Hnames.
  destruct Hrt as [->|[->| ->]]; unfold to_str, parse; simpl root; simpl names.
  - destruct ns as [|n ns]; [reflexivity|].
    change (splitroot _) with (splitroot (String.concat "/" (n :: ns))).
    rewrite (splitroot_relative _ Hfirst). by rewrite Hnames.
  - change (splitroot _) with (splitroot (String sep (String.concat "/" ns))).
    assert (Hroot : splitroot (String sep (String.concat "/" ns))
                    = ("/", String.concat "/" ns)).
    { simpl. destruct (String.concat "/" ns) as [|b r]; [reflexivity|].
      simpl in Hfirst. by rewrite Hfirst. }
    rewrite Hroot. by rewrite Hnames.
  - change (splitroot _)
      with (splitroot (String sep (String sep (String.concat "/" ns)))).
    assert (Hroot : splitroot (String sep (String sep (String.concat "/" ns)))
                    = ("//", String.concat "/" ns)).
    { simpl. by rewrite Hfirst. }
    rewrite Hroot. by rewrite Hnames.
Qed.

Lemma append_cons x (a b : string) : String x a ++ b = String x (a ++ b).
Proof. reflexivity. Qed.

Lemma append_assoc (a b c : string) : (a ++ b) ++ c = a ++ (b ++ c).
Proof.
  induction a as [|x a IH]; [reflexivity|]. by rewrite !append_cons, IH.
Qed.

Lemma ends_with_sep_cons x r : r ≠ "" → ends_with_sep (String x r) = ends_with_sep r.
Proof. by destruct r. Qed.

(** A text that ends with a separator is a text followed by one. *)
Lemma ends_with_sep_inv s : ends_with_sep s = true → ∃ s', s = s' ++ "/".
Proof.
  induction s as [|x s IH]; [discriminate|].
  destruct s as [|y s].
  - simpl. intros Hx. apply bool_decide_eq_true in Hx. subst x.
    exists "". reflexivity.
  - rewrite ends_with_sep_cons by discriminate. intros Hs.
    destruct (IH Hs) as [s' Hs']. exists (String x s'). by rewrite append_cons, <- Hs'.
Qed.

Lemma splitroot_app x y :
  x ≠ "" → (ends_with_sep x = true → starts_with_sep y = false) →
  splitroot (x ++ y) = (fst (splitroot x), snd (splitroot x) ++ y).
Proof.
  intros Hx Hy. destruct x as [|a r]; [done|]. rewrite append_cons. simpl.
  destruct (bool_decide (a = sep)) eqn:Ha; [|reflexivity].
  destruct r as [|b r'].
  - simpl in Hy. rewrite Ha in Hy. specialize (Hy eq_refl).
    change ("" ++ y) with y. destruct y as [|c y]; [reflexivity|].
    simpl in Hy. by rewrite Hy.
  - rewrite append_cons.
    destruct (bool_decide (b = sep)) eqn:Hb; [|reflexivity].
    destruct r' as [|c r''].
    + simpl in Hy. rewrite Hb in Hy. specialize (Hy eq_refl).
      change ("" ++ y) with y. by rewrite Hy.
    + rewrite append_cons. simpl.
      destruct (bool_decide (c = sep)); reflexivity.
Qed.

Lemma splitroot_rel_end x :
  ends_with_sep x = true →
  snd (splitroot x) = "" ∨ ends_with_sep (snd (splitroot x)) = true.
Proof.
  destruct x as [|a r]; [discriminate|]. intros Hend. simpl.
  destruct (bool_decide (a = sep)) eqn:Ha; [|by right].
  destruct r as [|b r']; [by left|].
  rewrite ends_with_sep_cons in Hend by discriminate.
  destruct (bool_decide (b = sep)) eqn:Hb; [|by right].
  destruct (starts_with_sep r') eqn:Hr'; [by right|].
  destruct r' as [|c r'']; [by left|].
  rewrite ends_with_sep_cons in Hend by discriminate. by right.
Qed.

Lemma names_app_end rel n :
  rel = "" ∨ ends_with_sep rel = true →
  List.filter is_name (Str.split sep (rel ++ n))
  = (List.filter is_name (Str.split sep rel) ++ List.filter is_name (Str.split sep n))%list.
Proof.
  intros [->|Hend]; [reflexivity|].
  destruct (ends_with_sep_inv _ Hend) as [rel' ->].
  rewrite append_assoc.
  change ("/" ++ n) with (String sep n). change "/" with (String sep "").
  rewrite !split_app_sep, !List.filter_app. simpl. by rewrite app_nil_r.
Qed.

(** Joining a relative text to a path text appends its names. *)
Lemma parse_join_relative x n :
  starts_with_sep n = false →
  parse (join x n)
  = {| root := root (parse x);
       names := (names (parse x) ++ List.filter is_name (Str.split sep n))%list |}.
Proof.
  intros Hn. unfold join. rewrite Hn.
  destruct (bool_decide (x = "")) eqn:Hx.
  - apply bool_decide_eq_true in Hx as ->. simpl orb. cbv iota.
    change ("" ++ n) with n. unfold parse.
    rewrite (splitroot_relative _ Hn). reflexivity.
  - apply bool_decide_eq_false in Hx. simpl orb.
    destruct (ends_with_sep x) eqn:Hend.
    + unfold parse. rewrite splitroot_app by auto.
      pose proof (splitroot_rel_end x Hend) as Hrel.
      destruct (splitroot x) as [rt rel]. simpl in *.
      by rewrite names_app_end.
    + unfold parse. rewrite splitroot_app; [|done|intros; congruence].
      destruct (splitroot x) as [rt rel]. simpl fst. simpl snd.
      change ("/" ++ n) with (String sep n).
      by rewrite split_app_sep, List.filter_app.
Qed.

(** What a join parses to depends on its left operand only through what
    that operand parses to. *)
Lemma parse_join_congruence x x' n :
  parse x = parse x' → parse (join x n) = parse (join x' n).
Proof.
  intros Hxx. destruct (starts_with_sep n) eqn:Hn.
  - unfold join. by rewrite Hn.
  - by rewrite !parse_join_relative, Hxx.
Qed.

Lemma parse_join_normal a b : parse (join (to_str (parse a)) b) = parse (join a b).
Proof.
  apply parse_join_congruence, parse_to_str, parse_canonical.
Qed.

(** The local path of the standalone adapter is the parsed local path of
    the adapter of the framework. *)
Lemma local_path_parsed c image_dir image_name :
  truediv (truediv (parse c) image_dir) image_name
  = parse (join (join c image_dir) image_name).
Proof.
  unfold truediv. rewrite parse_join_normal.
  apply parse_join_congruence, parse_join_normal.
Qed.

Lemma remote_paths_agree (dir_names : list string) (n : string) :
  Forall plain dir_names → plain n →
  let image_dir := String.concat "/" dir_names ++ "/" in
  dir_names ≠ [] →
  dvc_path image_dir n = dvc_path_str image_dir n.
Proof.
  intros Hdir Hn image_dir Hne.
  unfold dvc_path, dvc_path_str.
  set (p := {| root := "/"; names := (dir_names ++ [n])%list |}).
  assert (Hparse : parse ("/" ++ image_dir ++ n) = p).
  { unfold image_dir.
    change ("/" ++ (String.concat "/" dir_names ++ "/") ++ n)
      with (String sep ((String.concat "/" dir_names ++ "/") ++ n)).
    rewrite append_assoc. change ("/" ++ n) with (String sep n).
    unfold parse.
    assert (Hroot : splitroot (String sep (String.concat "/" dir_names ++ String sep n))
                    = ("/", String.concat "/" dir_names ++ String sep n)).
    { pose proof (concat_not_sep_first dir_names Hdir) as Hfirst.
      destruct dir_names as [|d ds]; [done|].
      assert (Hd : String.concat "/" (d :: ds) ≠ "").
      { inversion Hdir as [|? ? Hpd _]; subst.
        destruct ds; simpl; [by apply plain_not_empty|].
        pose proof (plain_not_empty _ Hpd). by destruct d. }
      destruct (String.concat "/" (d :: ds)) as [|b r]; [done|].
      rewrite append_cons. simpl. simpl in Hfirst. by rewrite Hfirst. }
    rewrite Hroot. rewrite split_app_sep, List.filter_app.
    rewrite names_of_concat by done.
    destruct Hn as [Hname Hsplit]. rewrite Hsplit. simpl. by rewrite Hname. }
  assert (Hjoin : join (join "/" image_dir) n = "/" ++ image_dir ++ n).
  { assert (Hdir0 : starts_with_sep image_dir = false).
    { unfold image_dir. destruct dir_names as [|d ds]; [done|].
      rewrite starts_with_sep_app.
      - by apply concat_not_sep_first.
      - inversion Hdir as [|? ? Hpd _]; subst.
        pose proof (plain_not_empty _ Hpd).
        destruct ds; simpl; [done|]. by destruct d. }
    assert (H1 : join "/" image_dir = "/" ++ image_dir).
    { unfold join. by rewrite Hdir0. }
    rewrite H1. unfold join. rewrite (plain_not_sep_first _ Hn).
    assert (Hend : ends_with_sep ("/" ++ image_dir) = true).
    { unfold image_dir. change ("/" ++ String.concat "/" dir_names ++ "/")
        with (String sep (String.concat "/" dir_names ++ "/")).
      rewrite ends_with_sep_cons.
      - clear. induction (String.concat "/" dir_names) as [|x s IH]; [reflexivity|].
        rewrite append_cons, ends_with_sep_cons; [exact IH|]. by destruct s.
      - by destruct (String.concat "/" dir_names). }
    rewrite Hend, orb_true_r. by rewrite append_assoc. }
  rewrite Hjoin, Hparse.
  assert (Hstr : to_str p = "/" ++ image_dir ++ n).
  { unfold to_str, p. simpl root. simpl names. cbv iota. cbv beta.
    unfold image_dir. clear -Hne.
    change ("/" ++ String.concat "/" (dir_names ++ [n])
            = "/" ++ (String.concat "/" dir_names ++ "/") ++ n).
    f_equal. induction dir_names as [|d ds IH]; [done|].
    destruct ds as [|d' ds].
    - simpl. by rewrite append_assoc.
    - change (String.concat "/" ((d :: d' :: ds) ++ [n]))
        with (d ++ "/" ++ String.concat "/" ((d' :: ds) ++ [n])).
      rewrite IH by done.
      change (String.concat "/" (d :: d' :: ds))
        with (d ++ "/" ++ String.concat "/" (d' :: ds)).
      by rewrite !append_assoc. }
  exact Hstr.
Qed.

Section SharedDirectory.
Context `{Libraries}.

(** X7.  A generator of the standalone adapter and a builder of the
    framework whose contexts are the same path address the same place of
    the local directory for every reference.  So what the first has cached
    the second, with [no_cache] off, reads from the local directory: it
    returns the same image and the world stays as it is.  For a file name
    that is a single plain name both also read the same remote path. *)
Theorem adapters_share_the_local_directory :
  (∀ generator builder,
     FloodDatasetGenerator.context generator
     = parse (Sen1floods11Dataset.context (Sen1floods11Dataset.config builder)) →
     ∀ image_dir image_name w,
       key_of w (local_path generator image_dir image_name)
       = str_key w (local_path_str builder image_dir image_name))
  ∧
  (∀ generator builder,
     FloodDatasetGenerator.context generator
     = parse (Sen1floods11Dataset.context (Sen1floods11Dataset.config builder)) →
     ∀ image_dir image_name stream w img w',
       FloodDatasetGenerator._load_image generator image_dir image_name stream true w
       = (Ok img, w') →
       dir_only (local_path_str builder image_dir image_name) = false →
       Sen1floods11Dataset.load_input builder image_dir image_name false w'
       = (Ok img, w'))
  ∧
  (∀ image_name,
     plain image_name →
     dvc_path FloodDatasetGenerator.S1 image_name
     = dvc_path_str Sen1floods11Dataset.S1 image_name ∧
     dvc_path FloodDatasetGenerator.LABELS image_name
     = dvc_path_str Sen1floods11Dataset.LABELS image_name).
Proof.
  assert (Hkey : ∀ generator builder,
            FloodDatasetGenerator.context generator
            = parse (Sen1floods11Dataset.context (Sen1floods11Dataset.config builder)) →
            ∀ image_dir image_name w,
              key_of w (local_path generator image_dir image_name)
              = str_key w (local_path_str builder image_dir image_name)).
  { intros generator builder Hctx image_dir image_name w.
    unfold local_path, local_path_str, str_key. rewrite Hctx.
    by rewrite local_path_parsed. }
  split; [exact Hkey|]. split.
  - intros generator builder Hctx image_dir image_name stream w img w' Hrun Hd.
    destruct (load_image_leaves_file _ _ _ _ _ _ _ Hrun) as (content & Hnode & Hdec).
    rewrite (Hkey generator builder Hctx) in Hnode.
    rewrite (load_input_local _ _ _ _ _ Hd Hnode). by rewrite Hdec.
  - intros image_name Hn.
    split.
    + apply (remote_paths_agree ["v1.1"; "data"; "flood_events"; "HandLabeled"; "S1Hand"]);
        [|done|done].
      repeat constructor.
    + apply (remote_paths_agree
               ["v1.1"; "data"; "flood_events"; "HandLabeled"; "LabelHand"]);
        [|done|done].
      repeat constructor.
Qed.

End SharedDirectory.

Section SecondGeneration.
Context `{Libraries}.

Lemma evolves_str_key w w' s : evolves w w' → str_key w' s = str_key w s.
Proof. intros Hev. unfold str_key. by apply evolves_key. Qed.

(** With [no_cache] off, a resolution that returns leaves a file at the
    local path. *)
Lemma load_input_leaves_file self input_path image_name w img w' :
  Sen1floods11Dataset.load_input self input_path image_name false w = (Ok img, w') →
  dir_only (local_path_str self input_path image_name) = false ∧
  ∃ content,
    node_at w' (str_key w' (local_path_str self input_path image_name))
    = Some (File content).
Proof.
  intros Hrun.
  destruct (isfile_str w (local_path_str self input_path image_name)) eqn:Hfile.
  - unfold isfile_str in Hfile. apply andb_true_iff in Hfile as [Hd Hf].
    apply negb_true_iff in Hd. apply is_file_node in Hf as [c Hc].
    rewrite (load_input_local _ _ _ _ _ Hd Hc) in Hrun.
    injection Hrun as _ <-. eauto.
  - destruct (load_input_fetch_inv _ _ _ _ _ _ Hfile Hrun)
      as (raw & prof & w1 & Hmk & Hraw & Hdec & Hwr).
    apply str_write_ok in Hwr as [Hd Hwr]. split; [exact Hd|].
    apply os_makedirs_ok, mkdir_p_ok in Hmk as [-> _].
    apply write_file_ok in Hwr as (-> & Hnode & _). eauto.
Qed.

(** A line whose two rasters are files of the local directory is
    processed without a change of the world, whether its rasters can be
    read or not. *)
Lemma example_of_line_local self numbered_line f0 f1 c0 c1 w :
  Sen1floods11Dataset.no_cache (Sen1floods11Dataset.config self) = false →
  Str.split Sen1floods11Dataset.comma (Str.strip (snd numbered_line)) = [f0; f1] →
  dir_only (local_path_str self Sen1floods11Dataset.S1 f0) = false →
  node_at w (str_key w (local_path_str self Sen1floods11Dataset.S1 f0)) = Some (File c0) →
  dir_only (local_path_str self Sen1floods11Dataset.LABELS f1) = false →
  node_at w (str_key w (local_path_str self Sen1floods11Dataset.LABELS f1))
  = Some (File c1) →
  snd (Sen1floods11Dataset.example_of_line self numbered_line w) = w.
Proof.
  intros Hcache Hsplit Hd0 Hc0 Hd1 Hc1. destruct numbered_line as [idx line].
  unfold Sen1floods11Dataset.example_of_line. simpl in Hsplit.
  rewrite Hsplit, Hcache.
  unfold bind at 1. rewrite (load_input_local _ _ _ _ _ Hd0 Hc0).
  destruct (decoded c0) as [img|e]; [|reflexivity].
  unfold bind at 1. rewrite (load_input_local _ _ _ _ _ Hd1 Hc1).
  by destruct (decoded c1) as [msk|e].
Qed.

Lemma for_each_line_again self (lines : list (nat * string)) w :
  Sen1floods11Dataset.no_cache (Sen1floods11Dataset.config self) = false →
  stopped (fst (for_each (Sen1floods11Dataset.example_of_line self) lines w)) = None →
  ∀ w2,
    evolves (snd (for_each (Sen1floods11Dataset.example_of_line self) lines w)) w2 →
    snd (for_each (Sen1floods11Dataset.example_of_line self) lines w2) = w2.
Proof.
  intros Hcache. revert w. induction lines as [|line lines IH]; intros w.
  - reflexivity.
  - rewrite for_each_cons.
    destruct (Sen1floods11Dataset.example_of_line self line w) as [[ex|e] wa] eqn:Hline;
      [|simpl; intros; discriminate].
    cbn [fst snd stopped]. intros Hend w2 Hev. rewrite for_each_cons.
    assert (Ha2 : evolves wa w2).
    { eapply evolves_trans; [|exact Hev].
      apply (for_each_invariant evolves).
      - apply evolves_refl.
      - apply evolves_trans.
      - intros. apply example_of_line_evolves. }
    assert (Hlocal : snd (Sen1floods11Dataset.example_of_line self line w2) = w2).
    { destruct line as [idx text].
      unfold Sen1floods11Dataset.example_of_line in Hline.
      destruct (Str.split _ _) as [|f0 [|f1 [|f2 l]]] eqn:Hsplit; try discriminate.
      rewrite Hcache in Hline. unfold bind at 1 in Hline.
      destruct (Sen1floods11Dataset.load_input self _ f0 _ w) as [[img|e] wi] eqn:Hi;
        [|discriminate].
      unfold bind at 1 in Hline.
      destruct (Sen1floods11Dataset.load_input self _ f1 _ wi) as [[msk|e] wm] eqn:Hm;
        [|discriminate].
      unfold ret in Hline. injection Hline as _ <-.
      destruct (load_input_leaves_file _ _ _ _ _ _ Hi) as (Hd0 & c0 & Hc0).
      destruct (load_input_leaves_file _ _ _ _ _ _ Hm) as (Hd1 & c1 & Hc1).
      pose proof (load_input_evolves _ _ _ _ _ _ _ Hm) as Him.
      assert (Hi2 : evolves wi w2) by (eapply evolves_trans; eassumption).
      apply (evolves_files _ _ Hi2) in Hc0.
      rewrite <- (evolves_str_key _ _ _ Hi2) in Hc0.
      apply (evolves_files _ _ Ha2) in Hc1.
      rewrite <- (evolves_str_key _ _ _ Ha2) in Hc1.
      by apply (example_of_line_local self (idx, text) f0 f1 c0 c1). }
    destruct (Sen1floods11Dataset.example_of_line self line w2) as [[ex2|e2] w2'];
      simpl in Hlocal; subst w2'; [|reflexivity].
    simpl. exact (IH wa Hend w2 Hev).
Qed.

(** X8.  After a generation by the adapter of the framework with
    [no_cache] off that ended without an exception, a second generation
    over the same manifest, in the world the first one left, leaves the
    world as it is: it makes no remote read and writes nothing, whatever it
    yields. *)
Theorem second_generation_is_offline self csv_file w :
  Sen1floods11Dataset.no_cache (Sen1floods11Dataset.config self) = false →
  let first := Sen1floods11Dataset._generate_examples self csv_file w in
  stopped (fst first) = None →
  snd (Sen1floods11Dataset._generate_examples self csv_file (snd first)) = snd first.
Proof.
  intros Hcache first Hend. unfold first in *. clear first.
  destruct (str_read csv_file w) as [[text|e] w0] eqn:Hread.
  2:{ exfalso. unfold Sen1floods11Dataset._generate_examples, generator, bind in Hend.
      rewrite Hread in Hend. discriminate. }
  assert (Hw0 : w0 = w).
  { pose proof (str_read_world csv_file w) as Hw. by rewrite Hread in Hw. }
  subst w0.
  rewrite (generate_runs_lines _ _ _ _ Hread) in *.
  set (body := Sen1floods11Dataset.example_of_line self) in *.
  set (lines := numbered 0 (Str.text_lines text)) in *.
  assert (Hev : evolves w (snd (for_each body lines w))).
  { apply (for_each_invariant evolves).
    - apply evolves_refl.
    - apply evolves_trans.
    - intros. apply example_of_line_evolves. }
  assert (Hread' : str_read csv_file (snd (for_each body lines w))
                   = (Ok text, snd (for_each body lines w))).
  { unfold str_read, read_file in *.
    destruct (dir_only csv_file) eqn:Hd; simpl in *.
    - unfold is_file in *. rewrite (evolves_str_key _ _ _ Hev).
      destruct (node_at w (str_key w csv_file)) as [[c|]|] eqn:Hnode; discriminate.
    - rewrite (evolves_str_key _ _ _ Hev).
      destruct (node_at w (str_key w csv_file)) as [[c|]|] eqn:Hnode; try discriminate.
      injection Hread as ->. by rewrite (evolves_files _ _ Hev _ _ Hnode). }
  rewrite (generate_runs_lines _ _ _ _ Hread'). fold lines.
  apply (for_each_line_again self lines w Hcache Hend). apply evolves_refl.
Qed.

End SecondGeneration.

(** * The loader *)

Lemma collapse_step_Forall (P : string → Prop) (ns acc : list string) :
  Forall P ns → Forall (λ n, P n ∧ n ≠ "..") acc →
  Forall (λ n, P n ∧ n ≠ "..")
    (fold_left (λ acc n, if bool_decide (n = "..") then tail acc else n :: acc) ns acc).
Proof.
  intros Hns. revert acc. induction Hns as [|n ns Hn _ IH]; intros acc Hacc; simpl.
  - exact Hacc.
  - apply IH. destruct (decide (n = "..")) as [->|Hne].
    + rewrite bool_decide_eq_true_2 by done.
      destruct Hacc; [constructor|assumption].
    + rewrite bool_decide_eq_false_2 by done. by constructor.
Qed.

Lemma collapse_Forall (P : string → Prop) (ns : list string) :
  Forall P ns → Forall (λ n, P n ∧ n ≠ "..") (collapse ns).
Proof.
  intros Hns. unfold collapse. apply Forall_rev.
  apply collapse_step_Forall; [exact Hns | constructor].
Qed.

Lemma key_of_plain w p :
  Forall plain (cwd w) → canonical p → Forall plain (key_of w p).
Proof.
  intros Hcwd [_ Hns]. unfold key_of. apply Forall_app. split; [|exact Hns].
  destruct (bool_decide (root p = "")); [exact Hcwd | constructor].
Qed.

Lemma resolve_canonical w p :
  Forall plain (cwd w) → canonical p →
  canonical (resolve w p) ∧ ".." ∉ names (resolve w p).
Proof.
  intros Hcwd Hp.
  pose proof (collapse_Forall plain _ (key_of_plain w p Hcwd Hp)) as Hall.
  split; [split|].
  - simpl. auto.
  - simpl. eapply Forall_impl; [exact Hall|]. by intros n [Hn _].
  - simpl. intros Hin. rewrite Forall_forall in Hall.
    by destruct (Hall _ Hin) as [_ Hne].
Qed.

Lemma parent_canonical p : canonical p → canonical (parent p).
Proof.
  intros [Hroot Hns]. split; [exact Hroot|]. simpl.
  induction Hns as [|n ns Hn Hns IH]; simpl; [constructor|].
  destruct ns; [constructor|]. by constructor.
Qed.

Lemma parse_root_absolute s : starts_with_sep s = true → root (parse s) ≠ "".
Proof.
  unfold parse. destruct s as [|a r]; [discriminate|]. simpl. intros ->.
  destruct r as [|b r']; [discriminate|].
  destruct (bool_decide (b = sep)); [|discriminate].
  destruct (starts_with_sep r'); discriminate.
Qed.

(** Below an absolute path every path is absolute. *)
Lemma truediv_absolute p s : canonical p → root p ≠ "" → root (truediv p s) ≠ "".
Proof.
  intros Hp Hroot. unfold truediv.
  destruct (starts_with_sep s) eqn:Hs.
  - unfold join. rewrite Hs. by apply parse_root_absolute.
  - rewrite parse_join_relative by done. simpl. by rewrite parse_to_str.
Qed.

Lemma key_of_absolute w p : root p ≠ "" → key_of w p = names p.
Proof. intros Hroot. unfold key_of. by rewrite bool_decide_eq_false_2. Qed.

(** X9.  The context of a loader is an absolute path without [".."],
    whatever context it was given and wherever it was made, so every
    generator it returns reads its manifest and its rasters at places that
    do not depend on the working directory of the moment. *)
Theorem loader_context_is_pinned file context w :
  Forall plain (cwd w) →
  let loader := DatasetLoader.__init__ file context w in
  root (DatasetLoader.context loader) = "/" ∧
  (".." ∉ names (DatasetLoader.context loader)) ∧
  ∀ key image_dir image_name w1 w2,
    key_of w1 (local_path (DatasetLoader.__getitem__ loader key) image_dir image_name)
    = key_of w2 (local_path (DatasetLoader.__getitem__ loader key) image_dir image_name)
    ∧
    key_of w1 (manifest_path (DatasetLoader.__getitem__ loader key))
    = key_of w2 (manifest_path (DatasetLoader.__getitem__ loader key)).
Proof.
  intros Hcwd loader.
  assert (Hctx : canonical (DatasetLoader.context loader) ∧
                 root (DatasetLoader.context loader) = "/" ∧
                 ".." ∉ names (DatasetLoader.context loader)).
  { unfold loader, DatasetLoader.__init__. simpl. destruct context as [c|].
    - destruct (resolve_canonical w (parse c) Hcwd (parse_canonical c)) as [Hc Hdots].
      done.
    - destruct (resolve_canonical w (parse file) Hcwd (parse_canonical file))
        as [Hc Hdots].
      split; [by apply parent_canonical|]. split; [reflexivity|].
      simpl. intros Hin. apply Hdots. simpl.
      clear -Hin. induction (collapse (key_of w (parse file))) as [|n ns IH];
        [done|].
      simpl in Hin. destruct ns as [|m ns]; [by apply elem_of_nil in Hin|].
      apply elem_of_cons in Hin as [->|Hin]; [left|right; by apply IH]. }
  destruct Hctx as (Hcan & Hroot & Hdots).
  split; [exact Hroot|]. split; [exact Hdots|].
  intros key image_dir image_name w1 w2.
  assert (Habs : root (DatasetLoader.context loader) ≠ "") by (rewrite Hroot; discriminate).
  split.
  - unfold local_path. simpl.
    assert (Hr : root (truediv (truediv (DatasetLoader.context loader) image_dir)
                         image_name) ≠ "").
    { apply truediv_absolute; [apply parse_canonical|].
      by apply truediv_absolute. }
    by rewrite !key_of_absolute.
  - unfold manifest_path. simpl.
    assert (Hr : root (truediv (DatasetLoader.context loader)
                         (default key (DatasetLoader.SPLITS !! key))) ≠ "")
      by (by apply truediv_absolute).
    by rewrite !key_of_absolute.
Qed.

(** X10.  The loader as a mapping: the keys it iterates over are the keys
    of its table, each once, as many as its length says, and the generator
    it returns for such a key reads the manifest the table names. *)
Theorem loader_is_its_table (self : DatasetLoader.t) :
  DatasetLoader.SPLITS = list_to_map DatasetLoader.SPLITS_items ∧
  NoDup (DatasetLoader.__iter__ self) ∧
  length (DatasetLoader.__iter__ self) = DatasetLoader.__len__ self ∧
  (∀ key, key ∈ DatasetLoader.__iter__ self ↔ is_Some (DatasetLoader.SPLITS !! key)) ∧
  (∀ key file,
     (key, file) ∈ DatasetLoader.SPLITS_items →
     FloodDatasetGenerator.split (DatasetLoader.__getitem__ self key) = file).
Proof.
  assert (Htable : DatasetLoader.SPLITS = list_to_map DatasetLoader.SPLITS_items)
    by reflexivity.
  assert (Hnodup : NoDup (DatasetLoader.SPLITS_items.*1)).
  { unfold DatasetLoader.SPLITS_items. simpl.
    repeat (constructor; [rewrite ?elem_of_cons, elem_of_nil; intros H;
                          repeat destruct H as [H|H]; discriminate || done|]).
    constructor. }
  split; [exact Htable|]. split; [exact Hnodup|].
  split; [reflexivity|]. split.
  - intros key. unfold DatasetLoader.__iter__. rewrite Htable. split.
    + intros Hin. destruct (list_to_map DatasetLoader.SPLITS_items !! key)
        as [file|] eqn:Hkey; [eauto|].
      by apply not_elem_of_list_to_map in Hkey.
    + intros [file Hkey]. apply elem_of_list_to_map in Hkey; [|exact Hnodup].
      apply list_elem_of_fmap. by exists (key, file).
  - intros key file Hin. unfold DatasetLoader.__getitem__. simpl.
    rewrite Htable. by rewrite (elem_of_list_to_map_1 _ _ _ Hnodup Hin).
Qed.

(** * Processing, once more *)

(** X11.  Remapping a mask twice is remapping it once, and a remapped mask
    holds no -1: an integer mask has no element -1 and a float mask no
    element that compares equal to -1. *)
Theorem mask_remapping_is_idempotent :
  (∀ mask,
     Sen1floods11Dataset.process_mask (Sen1floods11Dataset.process_mask mask)
     = Sen1floods11Dataset.process_mask mask)
  ∧
  (∀ xs ys,
     Sen1floods11Dataset.process_mask (IntArray xs) = IntArray ys → (-1)%Z ∉ ys)
  ∧
  (∀ t xs ys,
     Sen1floods11Dataset.process_mask (FloatArray t xs) = FloatArray t ys →
     Forall (λ y, SFeqb y (of_Z t (-1)) = false) ys).
Proof.
  assert (Hfloat : ∀ t x,
            SFeqb (if SFeqb x (of_Z t (-1)) then of_Z t 255 else x) (of_Z t (-1)) = false).
  { intros t x. destruct (SFeqb x (of_Z t (-1))) eqn:Hx; [|exact Hx].
    destruct t; reflexivity. }
  assert (Hint : ∀ x : Z, ((if Z.eqb x (-1) then 255 else x) =? -1)%Z = false).
  { intros x. destruct (Z.eqb_spec x (-1)); [reflexivity|]. by apply Z.eqb_neq. }
  split; [|split].
  - intros [t xs|xs]; unfold Sen1floods11Dataset.process_mask, setitem_where_eq; f_equal.
    + rewrite List.map_map. apply List.map_ext. intros x. by rewrite Hfloat.
    + rewrite List.map_map. apply List.map_ext. intros x. by rewrite Hint.
  - intros xs ys [= <-] Hin.
    apply list_elem_of_In, in_map_iff in Hin as (x & Hx & _).
    pose proof (Hint x) as Hx'. rewrite Hx in Hx'. discriminate.
  - intros t xs ys Hys. injection Hys as <-.
    apply Forall_forall. intros y Hin.
    apply list_elem_of_In, in_map_iff in Hin as (x & <- & _). apply Hfloat.
Qed.

(** * The lines of a manifest *)

Lemma concat_split c s : String.concat (String c "") (Str.split c s) = s.
Proof.
  induction s as [|a s IH]; [reflexivity|]. simpl.
  destruct (split_nonempty c s) as (f & rest & Hs). rewrite Hs in *.
  destruct (bool_decide (a = c)) eqn:Hac.
  - apply bool_decide_eq_true in Hac as ->.
    change (String.concat (String c "") ("" :: f :: rest))
      with (String c (String.concat (String c "") (f :: rest))).
    by rewrite IH.
  - destruct rest as [|g rest].
    + simpl in *. by rewrite IH.
    + change (String.concat (String c "") (String a f :: g :: rest))
        with (String a (String.concat (String c "") (f :: g :: rest))).
      by rewrite IH.
Qed.

Section Lines.
Context `{Libraries}.

(** X12.  The adapter of the framework takes a line as a pair of names
    exactly when the line, stripped of the white space at its ends, is a
    text, a comma and a text with no other comma.  The names are these two
    texts as they stand: a blank next to the comma belongs to the name, and
    there is no quoting. *)
Theorem line_fields :
  (∀ line a b,
     Str.split Sen1floods11Dataset.comma (Str.strip line) = [a; b] ↔
     Str.strip line = a ++ String Sen1floods11Dataset.comma b ∧
     Str.split Sen1floods11Dataset.comma a = [a] ∧
     Str.split Sen1floods11Dataset.comma b = [b])
  ∧
  (∀ self idx line a b w,
     Str.strip line = a ++ String Sen1floods11Dataset.comma b →
     Str.split Sen1floods11Dataset.comma a = [a] →
     Str.split Sen1floods11Dataset.comma b = [b] →
     Sen1floods11Dataset.example_of_line self (idx, line) w
     = bind (Sen1floods11Dataset.load_input self Sen1floods11Dataset.S1 a
               (Sen1floods11Dataset.no_cache (Sen1floods11Dataset.config self)))
         (λ image,
            bind (Sen1floods11Dataset.load_input self Sen1floods11Dataset.LABELS b
                    (Sen1floods11Dataset.no_cache (Sen1floods11Dataset.config self)))
              (λ mask,
                 ret (idx,
                      ({[ "image" := Sen1floods11Dataset.process_image image;
                          "mask" := Sen1floods11Dataset.process_mask mask ]}
                       : gmap string ndarray)))) w).
Proof.
  assert (Hsplit : ∀ s a b,
            s = a ++ String Sen1floods11Dataset.comma b →
            Str.split Sen1floods11Dataset.comma a = [a] →
            Str.split Sen1floods11Dataset.comma b = [b] →
            Str.split Sen1floods11Dataset.comma s = [a; b]).
  { intros s a b -> Ha Hb. by rewrite split_app_sep, Ha, Hb. }
  split.
  - intros line a b. split.
    + intros Hab.
      pose proof (concat_split Sen1floods11Dataset.comma (Str.strip line)) as Hcat.
      pose proof (split_fields_plain Sen1floods11Dataset.comma (Str.strip line)) as Hall.
      rewrite Hab in Hcat, Hall.
      inversion Hall as [|? ? Ha Hrest]; subst.
      inversion Hrest as [|? ? Hb _]; subst.
      split; [|done]. rewrite <- Hcat. reflexivity.
    + intros (Hline & Ha & Hb). by apply Hsplit.
  - intros self idx line a b w Hline Ha Hb.
    unfold Sen1floods11Dataset.example_of_line.
    by rewrite (Hsplit _ _ _ Hline Ha Hb).
Qed.

End Lines.

(** * Order of the rows *)

Section Shuffle.
Context `{Libraries}.

(** Where the body returns on every row without touching the world, the
    iteration yields what it returns, row by row. *)
Lemma for_each_pure {R A} (body : R → M A) (f : R → A) (rows : list R) (w : world) :
  Forall (λ r, body r w = (Ok (f r), w)) rows →
  for_each body rows w = ({| yielded := List.map f rows; stopped := None |}, w).
Proof.
  induction 1 as [|r rows Hr _ IH]; [reflexivity|].
  rewrite for_each_cons, Hr, IH. reflexivity.
Qed.

(** X13.  When the rasters of every row are at hand in the local
    directory, shuffling changes the order of the examples and nothing
    else: the examples of an iteration with [shuffle] are a rearrangement
    of those of an iteration without. *)
Theorem shuffle_permutes_examples self stream stream_cache w text :
  path_read (manifest_path self) w = (Ok text, w) →
  Forall (row_at_hand self w) (csv_reader text) →
  Permutation
    (yielded (fst (FloodDatasetGenerator.__call__ self true stream stream_cache None w)))
    (yielded (fst (FloodDatasetGenerator.__call__ self false stream stream_cache None w))).
Proof.
  intros Hread Hrows.
  rewrite !(call_runs_rows _ _ _ _ _ _ _ Hread).
  set (body := FloodDatasetGenerator.example_of_row self stream stream_cache None).
  set (f := λ row, match fst (body row w) with Ok d => d | Raise _ => ∅ end).
  assert (Hbody : ∀ rows, Forall (row_at_hand self w) rows →
                          Forall (λ r, body r w = (Ok (f r), w)) rows).
  { intros rows Hall. eapply Forall_impl; [exact Hall|].
    intros row Hrow.
    destruct (row_at_hand_returns self stream stream_cache w row Hrow) as [d Hd].
    unfold f. fold body in Hd. by rewrite Hd. }
  assert (Hperm : Permutation (rows_read true text) (rows_read false text))
    by apply random_shuffle_perm.
  rewrite (for_each_pure body f (rows_read false text) w) by (by apply Hbody).
  rewrite (for_each_pure body f (rows_read true text) w).
  - simpl. by apply Permutation_map.
  - apply Hbody. eapply Permutation_Forall; [|exact Hrows].
    by apply Permutation_sym.
Qed.

End Shuffle.

(** * The manifests of the framework *)

Section FrameworkManifests.
Context `{Libraries}.

(** X14.  The manifest of each split of the adapter of the framework is a
    relative path: it is looked up below the working directory, in the
    directory [sen1floods11-dataset], and the context of the configuration,
    below which the rasters are looked up, plays no part.  Where nothing is
    at that place the generation yields nothing and stops with an error
    that names the manifest: [NotADirectoryError] when a file is on the
    way, [sen1floods11-dataset] itself or a directory of the working
    directory, and [FileNotFoundError] otherwise. *)
Theorem framework_manifests_are_relative self split csv_file w :
  (split, csv_file) ∈ Sen1floods11Dataset._split_generators →
  ∃ file,
    csv_file = "sen1floods11-dataset/" ++ file ∧
    str_key w csv_file = (cwd w ++ ["sen1floods11-dataset"; file])%list ∧
    dir_only csv_file = false ∧
    (node_at w (cwd w ++ ["sen1floods11-dataset"; file])%list = None →
     Sen1floods11Dataset._generate_examples self csv_file w
     = ({| yielded := [];
           stopped :=
             Some (if existsb (is_file w) (prefixes (cwd w ++ ["sen1floods11-dataset"]))
                   then NotADirectoryError csv_file
                   else FileNotFoundError csv_file) |}, w)).
Proof.
  intros Hin.
  assert (Hmissing : ∀ csv file,
            str_key w csv = (cwd w ++ ["sen1floods11-dataset"; file])%list →
            dir_only csv = false →
            node_at w (cwd w ++ ["sen1floods11-dataset"; file])%list = None →
            Sen1floods11Dataset._generate_examples self csv w
            = ({| yielded := [];
                  stopped :=
                    Some (if existsb (is_file w)
                               (prefixes (cwd w ++ ["sen1floods11-dataset"]))
                          then NotADirectoryError csv
                          else FileNotFoundError csv) |}, w)).
  { intros csv file Hk Hd Hnone.
    unfold Sen1floods11Dataset._generate_examples, generator, bind, str_read, read_file.
    rewrite Hd, Hk, Hnone. unfold unreachable, through_file.
    replace (removelast (cwd w ++ ["sen1floods11-dataset"; file]))
      with (cwd w ++ ["sen1floods11-dataset"])%list; [reflexivity|].
    change (cwd w ++ ["sen1floods11-dataset"; file])%list
      with (cwd w ++ ["sen1floods11-dataset"] ++ [file])%list.
    by rewrite app_assoc, removelast_last. }
  unfold Sen1floods11Dataset._split_generators in Hin.
  apply elem_of_cons in Hin as [Hin|Hin]; [|apply elem_of_cons in Hin as [Hin|Hin];
    [|apply elem_of_cons in Hin as [Hin|Hin]; [|by apply elem_of_nil in Hin]]];
    injection Hin as -> ->.
  - exists "flood_train_data.csv". split; [reflexivity|].
    assert (Hk : str_key w ("sen1floods11-dataset" ++ "/flood_train_data.csv")
                 = (cwd w ++ ["sen1floods11-dataset"; "flood_train_data.csv"])%list)
      by reflexivity.
    split; [exact Hk|]. split; [reflexivity|]. by apply Hmissing.
  - exists "flood_valid_data.csv". split; [reflexivity|].
    assert (Hk : str_key w ("sen1floods11-dataset" ++ "/flood_valid_data.csv")
                 = (cwd w ++ ["sen1floods11-dataset"; "flood_valid_data.csv"])%list)
      by reflexivity.
    split; [exact Hk|]. split; [reflexivity|]. by apply Hmissing.
  - exists "flood_test_data.csv". split; [reflexivity|].
    assert (Hk : str_key w ("sen1floods11-dataset" ++ "/flood_test_data.csv")
                 = (cwd w ++ ["sen1floods11-dataset"; "flood_test_data.csv"])%list)
      by reflexivity.
    split; [exact Hk|]. split; [reflexivity|]. by apply Hmissing.
Qed.

End FrameworkManifests.

(** * Images of integers *)

Lemma quotient_in_unit_range (k : Z) :
  (0 ≤ k ≤ 51)%Z →
  SFleb (S754_zero false) (fdiv float64 (of_Z float64 k) (of_Z float64 51)) = true ∧
  SFleb (fdiv float64 (of_Z float64 k) (of_Z float64 51)) (of_Z float64 1) = true.
Proof.
  intros Hk.
  assert (Hall : forallb (λ n, SFleb (S754_zero false)
                                 (fdiv float64 (of_Z float64 (Z.of_nat n))
                                    (of_Z float64 51))
                               && SFleb (fdiv float64 (of_Z float64 (Z.of_nat n))
                                           (of_Z float64 51))
                                    (of_Z float64 1))
                   (seq 0 52) = true) by (vm_compute; reflexivity).
  rewrite forallb_forall in Hall.
  specialize (Hall (Z.to_nat k)).
  rewrite Z2Nat.id in Hall by lia.
  apply andb_true_iff, Hall, in_seq. lia.
Qed.

(** X15.  The normalization of an image of integers gives, element by
    element, the [float64] quotient by 51 of the element clipped to the
    range from -50 to 1 and raised by 50, a number from 0 to 1. *)
Theorem integer_image_range (xs : list Z) :
  ∃ ys,
    Sen1floods11Dataset.process_image (IntArray xs) = FloatArray float64 ys ∧
    length ys = length xs ∧
    (∀ i x, xs !! i = Some x →
            ys !! i = Some (fdiv float64
                              (of_Z float64 (Z.min (Z.max x (-50)) 1 + 50))
                              (of_Z float64 51))) ∧
    Forall (λ y, SFleb (S754_zero false) y = true ∧ SFleb y (of_Z float64 1) = true) ys.
Proof.
  eexists. split; [reflexivity|]. split; [by rewrite !length_map|]. split.
  - intros i x Hx. rewrite !lookup_map, Hx. reflexivity.
  - rewrite !List.map_map. apply Forall_forall. intros y Hin.
    apply list_elem_of_In, in_map_iff in Hin as (x & <- & _).
    apply quotient_in_unit_range. lia.
Qed.

(** * The further statements at work on the small instance *)

Lemma writes_need_stream_and_cache_witness :
  same_but_log world0
    (snd (FloodDatasetGenerator.__call__ (gen "two.csv") false true false None world0))
  ∧
  FloodDatasetGenerator._load_image (gen "train_data.csv") FloodDatasetGenerator.S1
    "b.tif" true false world0
  = (fetched_result world0 (dvc_path FloodDatasetGenerator.S1 "b.tif"),
     log_call (dvc_path FloodDatasetGenerator.S1 "b.tif") world0).
Proof.
  destruct writes_need_stream_and_cache as (Hframe & _ & Htransient).
  split.
  - apply (Hframe (gen "two.csv") false true false None world0). reflexivity.
  - apply (Htransient (gen "train_data.csv") FloodDatasetGenerator.S1 "b.tif" world0).
    vm_compute. reflexivity.
Defined.

Lemma no_cache_reads_remote_only_witness :
  same_but_log world0
    (snd (Sen1floods11Dataset._generate_examples (builder true) "/data/two.csv" world0))
  ∧
  fetched (snd (Sen1floods11Dataset._generate_examples (builder true)
                  "/data/train_data.csv" world0))
  = [ "/v1.1/data/flood_events/HandLabeled/S1Hand/a.tif";
      "/v1.1/data/flood_events/HandLabeled/LabelHand/a_label.tif" ].
Proof.
  destruct no_cache_reads_remote_only as (_ & Hframe & Hlog).
  split.
  - apply (Hframe (builder true) "/data/two.csv" world0). reflexivity.
  - assert (Hpaths : (fetched world0
                      ++ flat_map remote_paths_of_line (Str.text_lines "a.tif,a_label.tif
"))%list
                     = [ "/v1.1/data/flood_events/HandLabeled/S1Hand/a.tif";
                         "/v1.1/data/flood_events/HandLabeled/LabelHand/a_label.tif" ])
      by (vm_compute; reflexivity).
    rewrite <- Hpaths.
    apply (Hlog (builder true) "/data/train_data.csv" world0 "a.tif,a_label.tif
").
    + reflexivity.
    + apply str_read_file; vm_compute; reflexivity.
    + vm_compute. reflexivity.
Defined.

Lemma one_read_and_no_file_on_failure_witness :
  fst (FloodDatasetGenerator._load_image (gen "train_data.csv") FloodDatasetGenerator.S1
         "c.tif" true true world0)
  = Raise (RemoteReadError "/v1.1/data/flood_events/HandLabeled/S1Hand/c.tif")
  ∧
  no_new_file world0
    (snd (FloodDatasetGenerator._load_image (gen "train_data.csv")
            FloodDatasetGenerator.S1 "c.tif" true true world0)).
Proof.
  assert (Hraise : fst (FloodDatasetGenerator._load_image (gen "train_data.csv")
                          FloodDatasetGenerator.S1 "c.tif" true true world0)
                   = Raise (RemoteReadError
                              "/v1.1/data/flood_events/HandLabeled/S1Hand/c.tif"))
    by (vm_compute; reflexivity).
  split; [exact Hraise|].
  apply (proj1 one_read_and_no_file_on_failure (gen "train_data.csv")
           FloodDatasetGenerator.S1 "c.tif" true true world0
           (fst (FloodDatasetGenerator._load_image (gen "train_data.csv")
                   FloodDatasetGenerator.S1 "c.tif" true true world0))).
  - apply surjective_pairing.
  - eexists. exact Hraise.
Defined.

Lemma manifest_not_readable_witness :
  FloodDatasetGenerator.__call__ (gen "none.csv") true true true None world0
  = ({| yielded := []; stopped := Some (FileNotFoundError "/data/none.csv") |}, world0)
  ∧
  FloodDatasetGenerator.__call__ (gen "train_data.csv/inner.csv") true true true None
    world0
  = ({| yielded := [];
        stopped := Some (NotADirectoryError "/data/train_data.csv/inner.csv") |}, world0)
  ∧
  Sen1floods11Dataset._generate_examples (builder false) "/data" world0
  = ({| yielded := []; stopped := Some (IsADirectoryError "/data") |}, world0)
  ∧
  Sen1floods11Dataset._generate_examples (builder false) "/data/train_data.csv/" world0
  = ({| yielded := []; stopped := Some (NotADirectoryError "/data/train_data.csv/") |},
     world0)
  ∧
  Sen1floods11Dataset._generate_examples (builder false) "/data/v2/none.csv" world0
  = ({| yielded := []; stopped := Some (FileNotFoundError "/data/v2/none.csv") |},
     world0)
  ∧
  (let w := {| fs := {[ ["empty.csv"] := File "" ]}; cwd := []; remote := ∅;
               fetched := [] |} in
   Sen1floods11Dataset._generate_examples (builder false) "/empty.csv" w
   = ({| yielded := []; stopped := None |}, w)).
Proof.
  destruct manifest_not_readable as (Hgen & Hbuilder & Hempty).
  split; [|split; [|split; [|split; [|split]]]].
  - destruct (Hgen (gen "none.csv") world0) as (e & He & _ & Hcall).
    + vm_compute. reflexivity.
    + assert (e = FileNotFoundError "/data/none.csv") as ->
        by (rewrite He; vm_compute; reflexivity).
      apply Hcall.
  - destruct (Hgen (gen "train_data.csv/inner.csv") world0) as (e & He & _ & Hcall).
    + vm_compute. reflexivity.
    + assert (e = NotADirectoryError "/data/train_data.csv/inner.csv") as ->
        by (rewrite He; vm_compute; reflexivity).
      apply Hcall.
  - destruct (Hbuilder (builder false) "/data" world0) as (e & He & Hrun).
    + vm_compute. reflexivity.
    + assert (e = IsADirectoryError "/data") as ->
        by (rewrite He; vm_compute; reflexivity).
      exact Hrun.
  - destruct (Hbuilder (builder false) "/data/train_data.csv/" world0) as (e & He & Hrun).
    + vm_compute. reflexivity.
    + assert (e = NotADirectoryError "/data/train_data.csv/") as ->
        by (rewrite He; vm_compute; reflexivity).
      exact Hrun.
  - destruct (Hbuilder (builder false) "/data/v2/none.csv" world0) as (e & He & Hrun).
    + vm_compute. reflexivity.
    + assert (e = FileNotFoundError "/data/v2/none.csv") as ->
        by (rewrite He; vm_compute; reflexivity).
      exact Hrun.
  - intros w. apply (Hempty (builder false) "/empty.csv" w).
    apply str_read_file; vm_compute; reflexivity.
Defined.

Lemma second_pass_is_local_witness :
  let first := FloodDatasetGenerator.__call__ (gen "two.csv") false true true None world0 in
  fetched (snd first)
  = [ "/v1.1/data/flood_events/HandLabeled/S1Hand/b.tif";
      "/v1.1/data/flood_events/HandLabeled/LabelHand/b_label.tif" ]
  ∧
  FloodDatasetGenerator.__call__ (gen "two.csv") false false false None (snd first)
  = (fst first, snd first).
Proof.
  intros first. split; [vm_compute; reflexivity|].
  apply (second_pass_is_local (gen "two.csv") true None world0).
  vm_compute. reflexivity.
Defined.

Lemma adapters_share_the_local_directory_witness :
  key_of world0 (local_path (gen "train_data.csv") FloodDatasetGenerator.S1 "b.tif")
  = str_key world0 (local_path_str (builder false) FloodDatasetGenerator.S1 "b.tif")
  ∧
  Sen1floods11Dataset.load_input (builder false) FloodDatasetGenerator.S1 "b.tif" false
    after_fetch = (Ok image0, after_fetch)
  ∧
  dvc_path FloodDatasetGenerator.S1 "b.tif"
  = dvc_path_str Sen1floods11Dataset.S1 "b.tif".
Proof.
  destruct adapters_share_the_local_directory as (Hkey & Hread & Hremote).
  split; [|split].
  - apply (Hkey (gen "train_data.csv") (builder false)). reflexivity.
  - apply (Hread (gen "train_data.csv") (builder false) eq_refl
             FloodDatasetGenerator.S1 "b.tif" true world0 image0 after_fetch).
    + unfold after_fetch. apply run_eta. vm_compute. reflexivity.
    + vm_compute. reflexivity.
  - apply (Hremote "b.tif"). split; vm_compute; reflexivity.
Defined.

Lemma second_generation_is_offline_witness :
  let first := Sen1floods11Dataset._generate_examples (builder false) "/data/two.csv"
                 world0 in
  fetched (snd first)
  = [ "/v1.1/data/flood_events/HandLabeled/S1Hand/b.tif";
      "/v1.1/data/flood_events/HandLabeled/LabelHand/b_label.tif" ]
  ∧
  snd (Sen1floods11Dataset._generate_examples (builder false) "/data/two.csv" (snd first))
  = snd first.
Proof.
  intros first. split; [vm_compute; reflexivity|].
  apply (second_generation_is_offline (builder false) "/data/two.csv" world0).
  - reflexivity.
  - vm_compute. reflexivity.
Defined.

Lemma loader_context_is_pinned_witness :
  let w := {| fs := ∅; cwd := ["home"; "user"]; remote := ∅; fetched := [] |} in
  let loader := DatasetLoader.__init__ "pkg/dataset.py" (Some "../data") w in
  root (DatasetLoader.context loader) = "/" ∧
  (".." ∉ names (DatasetLoader.context loader)) ∧
  key_of w (manifest_path (DatasetLoader.__getitem__ loader "train"))
  = key_of world0 (manifest_path (DatasetLoader.__getitem__ loader "train")).
Proof.
  intros w loader.
  assert (Hcwd : Forall plain (cwd w)).
  { apply Forall_cons; split; [split; vm_compute; reflexivity|].
    apply Forall_cons; split; [split; vm_compute; reflexivity|]. apply Forall_nil_2. }
  pose proof (loader_context_is_pinned "pkg/dataset.py" (Some "../data") w Hcwd) as Hpin.
  cbv zeta in Hpin. destruct Hpin as (Hroot & Hdots & Hkeys).
  split; [exact Hroot|]. split; [exact Hdots|].
  exact (proj2 (Hkeys "train" "" "" w world0)).
Defined.

Lemma loader_is_its_table_witness :
  FloodDatasetGenerator.split
    (DatasetLoader.__getitem__ (DatasetLoader.__init__ "/repo/dataset.py" None world0)
       "validation")
  = "valid_data.csv".
Proof.
  destruct (loader_is_its_table (DatasetLoader.__init__ "/repo/dataset.py" None world0))
    as (_ & _ & _ & _ & Hfile).
  apply Hfile. vm_compute. right. left.
Defined.

Lemma mask_remapping_is_idempotent_witness :
  ((-1)%Z ∉ [255; 0; 1]%Z)
  ∧
  Forall (λ y, SFeqb y (of_Z float32 (-1)) = false)
    (List.map (of_Z float32) [255; 0; 1]%Z).
Proof.
  destruct mask_remapping_is_idempotent as (_ & Hint & Hfloat).
  split.
  - apply (Hint [-1; 0; 1]%Z). reflexivity.
  - apply (Hfloat float32 (List.map (of_Z float32) [-1; 0; 1]%Z)).
    vm_compute. reflexivity.
Defined.

Lemma line_fields_witness :
  Str.split Sen1floods11Dataset.comma (Str.strip "a.tif, a_label.tif
")
  = ["a.tif"; " a_label.tif"].
Proof.
  apply (proj2 (proj1 line_fields "a.tif, a_label.tif
" "a.tif" " a_label.tif")).
  split; [|split]; vm_compute; reflexivity.
Defined.

Lemma shuffle_permutes_examples_witness :
  Permutation
    (yielded (fst (FloodDatasetGenerator.__call__ (gen "pairs.csv") true false true
                     None world_pairs)))
    (yielded (fst (FloodDatasetGenerator.__call__ (gen "pairs.csv") false false true
                     None world_pairs)))
  ∧
  List.map (λ d, d !! "image")
    (yielded (fst (FloodDatasetGenerator.__call__ (gen "pairs.csv") false false true
                     None world_pairs)))
  = [Some image0; Some image_b]
  ∧
  List.map (λ d, d !! "image")
    (yielded (fst (FloodDatasetGenerator.__call__ (gen "pairs.csv") true false true
                     None world_pairs)))
  = [Some image_b; Some image0].
Proof.
  split; [|split; vm_compute; reflexivity].
  apply (shuffle_permutes_examples (gen "pairs.csv") false true world_pairs
           "a.tif,a_label.tif
b.tif,b_label.tif
").
  - apply path_read_file. vm_compute. reflexivity.
  - assert (Hrows : csv_reader "a.tif,a_label.tif
b.tif,b_label.tif
" = [["a.tif"; "a_label.tif"]; ["b.tif"; "b_label.tif"]]) by (vm_compute; reflexivity).
    rewrite Hrows.
    apply Forall_cons; split; [|apply Forall_cons; split; [|apply Forall_nil_2]].
    + exists "a.tif", "a_label.tif". split; [reflexivity|]. split.
      * exists img_raw. split; [vm_compute; reflexivity|].
        exists ("f", image0). vm_compute. reflexivity.
      * exists msk_raw. split; [vm_compute; reflexivity|].
        exists ("i", mask0). vm_compute. reflexivity.
    + exists "b.tif", "b_label.tif". split; [reflexivity|]. split.
      * exists img_raw_b. split; [vm_compute; reflexivity|].
        exists ("f", image_b). vm_compute. reflexivity.
      * exists msk_raw. split; [vm_compute; reflexivity|].
        exists ("i", mask0). vm_compute. reflexivity.
Defined.

Lemma framework_manifests_are_relative_witness :
  Sen1floods11Dataset._generate_examples (builder false)
    "sen1floods11-dataset/flood_test_data.csv" world0
  = ({| yielded := [];
        stopped := Some (FileNotFoundError "sen1floods11-dataset/flood_test_data.csv") |},
     world0)
  ∧
  Sen1floods11Dataset._generate_examples (builder false)
    "sen1floods11-dataset/flood_test_data.csv" world_blocked
  = ({| yielded := [];
        stopped := Some (NotADirectoryError "sen1floods11-dataset/flood_test_data.csv") |},
     world_blocked).
Proof.
  split.
  - destruct (framework_manifests_are_relative (builder false) Sen1floods11Dataset.TEST
                "sen1floods11-dataset/flood_test_data.csv" world0)
      as (file & _ & Hkey & _ & Hmissing).
    + vm_compute. right. right. left.
    + vm_compute in Hkey. injection Hkey as <-.
      assert (Hway : existsb (is_file world0)
                       (prefixes (cwd world0 ++ ["sen1floods11-dataset"])) = false)
        by (vm_compute; reflexivity).
      rewrite Hway in Hmissing. apply Hmissing. vm_compute. reflexivity.
  - destruct (framework_manifests_are_relative (builder false) Sen1floods11Dataset.TEST
                "sen1floods11-dataset/flood_test_data.csv" world_blocked)
      as (file & _ & Hkey & _ & Hmissing).
    + vm_compute. right. right. left.
    + vm_compute in Hkey. injection Hkey as <-.
      assert (Hway : existsb (is_file world_blocked)
                       (prefixes (cwd world_blocked ++ ["sen1floods11-dataset"])) = true)
        by (vm_compute; reflexivity).
      rewrite Hway in Hmissing. apply Hmissing. vm_compute. reflexivity.
Defined.

Lemma integer_image_range_witness :
  ∃ ys,
    Sen1floods11Dataset.process_image (IntArray [-60; 0; 7]%Z) = FloatArray float64 ys ∧
    ys !! 1%nat = Some (fdiv float64 (of_Z float64 50) (of_Z float64 51)).
Proof.
  destruct (integer_image_range [-60; 0; 7]%Z) as (ys & Himage & _ & Hat & _).
  exists ys. split; [exact Himage|].
  apply (Hat 1%nat 0%Z). reflexivity.
Defined.
